(** * Astral AI: request normalisation, capability gating, parameter
      merging, dispatch and cost accounting

    A shallow embedding of the Python sources of the [astral_ai] package
    ([utils/model_mapping.py], [typing/models.py],
    [constants/supported_models.py], [clients/providers/base.py],
    [clients/providers/openai.py], [clients/decorators/usage.py],
    [clients/types.py], [agents/exceptions.py]) together with the
    properties its specification states about them.

    Conventions of the embedding:
    - a Python [str] is a [string]; a Python [int] is a [Z];
    - a function that may raise returns a [result]: [Ok v] for a normal
      return, [Raise e] for an exception of the inductive type [exn];
    - dictionaries whose iteration order is observable
      ([MODEL_DEFINITIONS]) are insertion-ordered association lists;
      dictionaries used as plain maps (keyword arguments, merge flags,
      the merged parameters) are [gmap string _];
    - mutable objects that may be shared (the lists and dictionaries
      stored as client defaults, the messages and tools a call is
      handed) live in an explicit heap and are referred to by location;
    - the validators are given twice: on plain values, where a claim is
      about what they accept and return, and on the heap (module
      [OnHeap]), where a claim is about what a call changes. *)

From Stdlib Require Import ZArith QArith Ascii String List.
From stdpp Require Import base option list strings gmap fin_maps.

Local Open Scope string_scope.
Local Open Scope Z_scope.

(** ** Exceptions and the error monad *)

(** The exception classes the modelled code raises, by class name. The
    argument is the value the Python constructor receives. *)
Inductive exn : Type :=
  | ValueError (msg : string)
  | KeyError (key : string)
  | AttributeError (attr : string)
  | UnboundLocalError (name : string)
  | KeyboardInterrupt
  | ValidationError
  | APIKeyNotFoundError (msg : string)
  | MessagesNotProvidedError (model_name : string)
  | InvalidMessageError (message_type : string)
  | ReasoningEffortNotSupportedError (model_name : string)
  | ToolsNotSupportedError (model_name : string)
  | StructuredOutputNotSupportedError (model_name : string)
  | LLMResponseCompletionError (msg : string)
  | LLMResponseParseError (msg : string)
  | ProviderError (cls : string) (msg : string).

(** [except Exception] catches every class above but those deriving
    from [BaseException] only. *)
Definition is_Exception (e : exn) : bool :=
  match e with
  | KeyboardInterrupt => false
  | _ => true
  end.

Inductive result (A : Type) : Type :=
  | Ok (a : A)
  | Raise (e : exn).
Arguments Ok {A} a.
Arguments Raise {A} e.

#[global] Instance result_ret : MRet result := fun A a => Ok a.
#[global] Instance result_bind : MBind result := fun A B f r =>
  match r with
  | Ok a => f a
  | Raise e => Raise e
  end.

#[global] Instance result_fmap : FMap result := fun A B f r =>
  match r with
  | Ok a => Ok (f a)
  | Raise e => Raise e
  end.

Definition is_Ok {A} (r : result A) : bool :=
  match r with Ok _ => true | Raise _ => false end.

(** ** Python string primitives used by [extract_date] *)

Module PyStr.

(** [s[n:]] *)
Fixpoint drop (n : nat) (s : string) : string :=
  match n, s with
  | O, _ => s
  | S n', String _ s' => drop n' s'
  | S _, EmptyString => EmptyString
  end.

(** [s[:n]] *)
Fixpoint take (n : nat) (s : string) : string :=
  match n, s with
  | S n', String c s' => String c (take n' s')
  | _, _ => EmptyString
  end.

(** [s[i:j]] for [0 <= i <= j] *)
Definition slice (i j : nat) (s : string) : string :=
  take (j - i) (drop i s).

(** [s.lstrip(c)] for a one-character argument *)
Fixpoint lstrip (c : ascii) (s : string) : string :=
  match s with
  | String a s' => if Ascii.eqb a c then lstrip c s' else s
  | EmptyString => EmptyString
  end.

(** [s.split(c)] for a one-character separator: the pieces between
    the separators, empty pieces included; never the empty list. *)
Fixpoint split_go (c : ascii) (s : string) (cur : string) : list string :=
  match s with
  | EmptyString => [String.rev cur]
  | String a s' =>
      if Ascii.eqb a c then String.rev cur :: split_go c s' EmptyString
      else split_go c s' (String a cur)
  end.

Definition split (c : ascii) (s : string) : list string :=
  split_go c s EmptyString.

Definition is_digit (a : ascii) : bool :=
  let n := nat_of_ascii a in (48 <=? n)%nat && (n <=? 57)%nat.

Definition digit_val (a : ascii) : Z := Z.of_nat (nat_of_ascii a) - 48.

(** The characters [int] skips around a literal: the space and the
    control characters 9 to 13. *)
Definition is_space (a : ascii) : bool :=
  let n := nat_of_ascii a in
  (n =? 32)%nat || ((9 <=? n)%nat && (n <=? 13)%nat).

Fixpoint lstrip_space (s : string) : string :=
  match s with
  | String a s' => if is_space a then lstrip_space s' else s
  | EmptyString => EmptyString
  end.

Definition strip (s : string) : string :=
  String.rev (lstrip_space (String.rev (lstrip_space s))).

(** Decimal digits, single underscores allowed between two digits. *)
Fixpoint digits (s : string) (acc : Z) (after_digit : bool) : option Z :=
  match s with
  | EmptyString => if after_digit then Some acc else None
  | String a s' =>
      if is_digit a then digits s' (10 * acc + digit_val a) true
      else if Ascii.eqb a "_" && after_digit then
        match s' with
        | String b _ => if is_digit b then digits s' acc false else None
        | EmptyString => None
        end
      else None
  end.

(** [sys.int_info.default_max_str_digits]: a decimal literal with more
    digits is refused. *)
Definition max_str_digits : nat := 4300.

Fixpoint digit_count (s : string) : nat :=
  match s with
  | EmptyString => 0
  | String a s' => ((if is_digit a then 1 else 0) + digit_count s')%nat
  end.

(** An unsigned decimal literal. *)
Definition literal (s : string) : option Z :=
  if (max_str_digits <? digit_count s)%nat then None else digits s 0 false.

(** Every character of the string is an ASCII character. Strings are
    sequences of 8-bit characters here; on a string of ASCII characters
    the length and the slices are those of Python. *)
Fixpoint is_ascii (s : string) : bool :=
  match s with
  | EmptyString => true
  | String a s' => (nat_of_ascii a <? 128)%nat && is_ascii s'
  end.

(** [int(s)] on a string of ASCII characters: [None] stands for
    [ValueError]. *)
Definition int (s : string) : option Z :=
  match strip s with
  | String "+" s' => literal s'
  | String "-" s' => Z.opp <$> literal s'
  | s' => literal s'
  end.

(** [needle in haystack] on strings *)
Fixpoint contains (needle hay : string) : bool :=
  String.prefix needle hay ||
  match hay with
  | String _ hay' => contains needle hay'
  | EmptyString => false
  end.

End PyStr.

(** ** Insertion-ordered dictionaries *)

Section Dict.
Context {V : Type}.

Fixpoint dict_get (k : string) (d : list (string * V)) : option V :=
  match d with
  | [] => None
  | (k', v) :: d' => if String.eqb k k' then Some v else dict_get k d'
  end.

(** [d[k]] *)
Definition getitem (d : list (string * V)) (k : string) : result V :=
  match dict_get k d with
  | Some v => Ok v
  | None => Raise (KeyError k)
  end.

End Dict.

(** ** typing/models.py: the model table *)

(** The values stored in one model definition. *)
Inductive def_value : Type :=
  | DStr (s : string)
  | DList (l : list string)
  | DPricing (p : list (string * Q)).

Definition definition := list (string * def_value).

Definition pricing (prompt cached output : Q) : def_value :=
  DPricing [("prompt_tokens", prompt); ("cached_prompt_tokens", cached);
            ("output_tokens", output); ("per_million", 1000000%Q)].

Definition mk_definition (provider : string) (model_ids : list string)
    (p : def_value) (most_recent_model : string) : definition :=
  [("provider", DStr provider); ("model_ids", DList model_ids);
   ("pricing", p); ("most_recent_model", DStr most_recent_model)].

Definition MODEL_DEFINITIONS : list (string * definition) :=
  [ ("claude-3-5-sonnet",
      mk_definition "anthropic" ["claude-3-5-sonnet-20241022"]
        (pricing 0 0 0) "claude-3-5-sonnet-20241022");
    ("claude-3-haiku",
      mk_definition "anthropic" ["claude-3-5-haiku-20241022"]
        (pricing 0 0 0) "claude-3-5-haiku-20241022");
    ("claude-3-opus",
      mk_definition "anthropic" ["claude-3-opus-20240229"]
        (pricing 0 0 0) "claude-3-opus-20240229");
    ("gpt-4o",
      mk_definition "openai"
        ["gpt-4o-01-15-24"; "gpt-4o-12-17-24"; "gpt-4o-01-10-24"]
        (pricing (5 # 2) (5 # 4) 10) "gpt-4o-12-17-24");
    ("o1",
      mk_definition "openai" ["o1-01-15-24"; "o1-12-17-24"; "o1-01-10-24"]
        (pricing 15 (15 # 2) 60) "o1-12-17-24");
    ("o1-mini",
      mk_definition "openai"
        ["o1-mini-01-15-24"; "o1-mini-12-17-24"; "o1-mini-01-10-24"]
        (pricing 3 (3 # 2) 12) "o1-mini-12-17-24");
    ("o3-mini",
      mk_definition "openai" ["o3-mini-2025-01-31"]
        (pricing 0 0 0) "o3-mini-2025-01-31") ].

(** ** utils/model_mapping.py *)

Definition date := (Z * Z * Z)%type.

Definition extract_date (model alias : string) : date :=
  let rest := PyStr.lstrip "-" (PyStr.drop (String.length alias) model) in
  let parts := PyStr.split "-" rest in
  match parts with
  | [p0; p1; p2] =>
      match PyStr.int p0, PyStr.int p1, PyStr.int p2 with
      | Some month, Some day, Some year =>
          let year := if year <? 100 then year + 2000 else year in
          (year, month, day)
      | _, _, _ => (0, 0, 0)
      end
  | [full_date] =>
      if (String.length full_date =? 8)%nat then
        match PyStr.int (PyStr.slice 0 4 full_date),
              PyStr.int (PyStr.slice 4 6 full_date),
              PyStr.int (PyStr.slice 6 8 full_date) with
        | Some year, Some month, Some day => (year, month, day)
        | _, _, _ => (0, 0, 0)
        end
      else (0, 0, 0)
  | _ => (0, 0, 0)
  end.

(** Python's ordering of tuples: lexicographic. *)
Definition date_leb (a b : date) : bool :=
  let '(y1, m1, d1) := a in
  let '(y2, m2, d2) := b in
  (y1 <? y2) || ((y1 =? y2) && ((m1 <? m2) || ((m1 =? m2) && (d1 <=? d2)))).

(** [inp in v] for the values a definition holds. *)
Definition def_contains (inp : string) (v : def_value) : bool :=
  match v with
  | DStr s => PyStr.contains inp s
  | DList l => bool_decide (inp ∈ l)
  | DPricing p => bool_decide (is_Some (dict_get inp p))
  end.

(** The [for alias, definition in MODEL_DEFINITIONS.items()] loop. *)
Fixpoint resolve_loop (inp : string) (items : list (string * definition))
    : result def_value :=
  match items with
  | [] => Raise (ValueError ("Model '" ++ inp ++ "' not found in available models."))
  | (alias, defn) :: rest =>
      names ← getitem defn "model_names";
      if def_contains inp names then Ok (DStr inp)
      else resolve_loop inp rest
  end.

Definition resolve_model_name (inp : string) : result def_value :=
  match dict_get inp MODEL_DEFINITIONS with
  | Some defn => getitem defn "most_recent_model"
  | None => resolve_loop inp MODEL_DEFINITIONS
  end.

(** ** constants/supported_models.py *)

Definition REASONING_EFFORT_SUPPORTED_MODELS : list string :=
  ["o1"; "o1-01-10-24"; "o1-01-15-24"; "o1-12-17-24"; "o3-mini";
   "o3-mini-2025-01-31"].

Definition FUNCTION_CALL_SUPPORTED_MODELS : list string :=
  ["claude-3-5-haiku-20241022"; "claude-3-5-sonnet";
   "claude-3-5-sonnet-20241022"; "claude-3-haiku"; "claude-3-opus";
   "claude-3-opus-20240229"; "gpt-4o"; "gpt-4o-01-10-24"; "gpt-4o-01-15-24";
   "gpt-4o-12-17-24"; "o1"; "o1-01-10-24"; "o1-01-15-24"; "o1-12-17-24";
   "o1-mini"; "o1-mini-01-10-24"; "o1-mini-01-15-24"; "o1-mini-12-17-24";
   "o3-mini"; "o3-mini-2025-01-31"].

Definition SYSTEM_MESSAGE_SUPPORTED_MODELS : list string :=
  ["claude-3-5-sonnet"; "claude-3-5-sonnet-20241022"; "claude-3-opus";
   "claude-3-opus-20240229"; "gpt-4o"; "gpt-4o-01-10-24"; "gpt-4o-01-15-24";
   "gpt-4o-12-17-24"].

Definition DEVELOPER_MESSAGE_SUPPORTED_MODELS : list string :=
  ["o1"; "o1-01-10-24"; "o1-01-15-24"; "o1-12-17-24"; "o3-mini";
   "o3-mini-2025-01-31"].

Definition ONLY_USER_MESSAGE_SUPPORTED_MODELS : list string :=
  ["claude-3-5-haiku-20241022"; "claude-3-haiku"; "o1-mini";
   "o1-mini-01-10-24"; "o1-mini-01-15-24"; "o1-mini-12-17-24"].

(** [model_name in TABLE] *)
Definition STRUCTURED_OUTPUT_SUPPORTED_MODELS : list string :=
  ["claude-3-5-haiku-20241022"; "claude-3-5-sonnet";
   "claude-3-5-sonnet-20241022"; "claude-3-haiku"; "claude-3-opus";
   "claude-3-opus-20240229"; "gpt-4o"; "gpt-4o-01-10-24"; "gpt-4o-01-15-24";
   "gpt-4o-12-17-24"; "o1"; "o1-01-10-24"; "o1-01-15-24"; "o1-12-17-24";
   "o1-mini"; "o1-mini-01-10-24"; "o1-mini-01-15-24"; "o1-mini-12-17-24";
   "o3-mini"; "o3-mini-2025-01-31"].

Definition supported (model_name : string) (table : list string) : bool :=
  bool_decide (model_name ∈ table).

(** ** agents/exceptions.py: the text of an exception *)

Definition get_model_message_not_supported_error (model_name : string)
    (supported_models : list string) : string :=
  "Feature not supported for model '" ++ model_name ++ "'. "
  ++ "This feature is only supported for the following models: "
  ++ String.concat ", " supported_models ++ ".".

(** [str(e)] as interpolated in the f-strings of the clients: the
    message the [__init__] of the class builds from its argument. For
    the built-in [AttributeError] and for pydantic's [ValidationError]
    the text depends on the object at hand; the attribute name stands
    for the first and the empty text for the second. *)
Definition exn_str (e : exn) : string :=
  match e with
  | ValueError m | APIKeyNotFoundError m | LLMResponseCompletionError m
  | LLMResponseParseError m | ProviderError _ m => m
  | KeyError k => "'" ++ k ++ "'"
  | AttributeError a => a
  | UnboundLocalError name =>
      "cannot access local variable '" ++ name
      ++ "' where it is not associated with a value"
  | MessagesNotProvidedError model_name =>
      "No messages provided to the model " ++ model_name ++ "."
  | InvalidMessageError message_type =>
      "Invalid message or message list type provided: " ++ message_type
  | ReasoningEffortNotSupportedError model_name =>
      get_model_message_not_supported_error model_name
        REASONING_EFFORT_SUPPORTED_MODELS
  | ToolsNotSupportedError model_name =>
      get_model_message_not_supported_error model_name
        FUNCTION_CALL_SUPPORTED_MODELS
  | StructuredOutputNotSupportedError model_name =>
      get_model_message_not_supported_error model_name
        STRUCTURED_OUTPUT_SUPPORTED_MODELS
  | KeyboardInterrupt | ValidationError => ""
  end.

(** ** Messages and the normaliser ([BaseLLMClient._set_messages]) *)

Inductive role : Type := system | developer | user | assistant.

#[global] Instance role_eq_dec : EqDecision role.
Proof. solve_decision. Defined.

Inductive content : Type :=
  | Text (text : string)
  | Image (image_url image_detail : string).

Record Message : Type := { msg_role : role; msg_content : content }.

(** What a caller may pass for [messages]: nothing, one message, or a
    sequence. The wrapper class [MessageList] of the absent
    [typing/messages.py] is read as the data model describes it, an
    ordered sequence of messages, and shares the last constructor. *)
Inductive messages_arg : Type :=
  | NoMessages
  | OneMessage (m : Message)
  | Messages (l : list Message).

(** [not messages] *)
Definition messages_falsy (messages : messages_arg) : bool :=
  match messages with
  | NoMessages => true
  | OneMessage _ => false
  | Messages l => bool_decide (l = [])
  end.

(** Modelled from the spec: [handle_no_messages] of the absent
    [clients/utils.py]. Empty or absent input must raise the
    no-messages error naming the model and never proceeds with an
    empty conversation. *)
Definition handle_no_messages (model_name : string) (init_call : bool)
    : result (list Message) :=
  Raise (MessagesNotProvidedError model_name).

(** Modelled from the spec: [standardize_messages] of the absent
    [clients/utils.py]. A single message is coerced into a one-element
    ordered sequence; a sequence is kept as it is. *)
Definition standardize_messages (messages : messages_arg) : list Message :=
  match messages with
  | NoMessages => []
  | OneMessage m => [m]
  | Messages l => l
  end.

Definition count_role (r : role) (messages : list Message) : nat :=
  length (filter (λ m, msg_role m = r) messages).

(** Modelled from the spec: [count_message_roles] of the absent
    [clients/utils.py]. Counts the system-role and the developer-role
    messages across the sequence. *)
Definition count_message_roles (messages : list Message) : nat * nat :=
  (count_role system messages, count_role developer messages).

Definition is_instruction (r : role) : bool :=
  match r with
  | system | developer => true
  | user | assistant => false
  end.

(** Modelled from the spec: [convert_message_roles] of the absent
    [clients/utils.py]. Rewrites the role of the instruction message
    (system or developer) to the target role; order, count, content and
    every other message stay as they are. The source calls it for its
    effect on [messages]; here the rewritten list is its value. *)
Definition convert_message_roles (messages : list Message) (target : role)
    (model_name : string) : list Message :=
  map (λ m, if is_instruction (msg_role m)
            then {| msg_role := target; msg_content := msg_content m |}
            else m) messages.

Definition _set_messages (model_name : string) (messages : messages_arg)
    (init_call : bool) : result (list Message) :=
  if messages_falsy messages then handle_no_messages model_name init_call
  else
    let messages := standardize_messages messages in
    let '(system_count, developer_count) := count_message_roles messages in
    if (1 <? system_count)%nat then
      Raise (InvalidMessageError
        "Invalid message role provided. More than one system message provided.")
    else if (1 <? developer_count)%nat then
      Raise (InvalidMessageError
        "Invalid message role provided. More than one developer message provided.")
    else if (1 <=? system_count)%nat && (1 <=? developer_count)%nat then
      Raise (InvalidMessageError
        "Invalid message role provided. Both system and developer messages provided.")
    else if (0 <? system_count)%nat then
      if supported model_name DEVELOPER_MESSAGE_SUPPORTED_MODELS then
        Ok (convert_message_roles messages developer model_name)
      else if supported model_name ONLY_USER_MESSAGE_SUPPORTED_MODELS then
        Ok (convert_message_roles messages user model_name)
      else Ok messages
    else if (0 <? developer_count)%nat then
      if supported model_name SYSTEM_MESSAGE_SUPPORTED_MODELS then
        Ok (convert_message_roles messages system model_name)
      else if supported model_name ONLY_USER_MESSAGE_SUPPORTED_MODELS then
        Ok (convert_message_roles messages user model_name)
      else Ok messages
    else Ok messages.

(** ** The capability gate for tools ([BaseLLMClient._set_tools]) *)

(** A tool entry is any Python object; the gate looks at the attributes
    it has and interpolates its [repr] in the error message. *)
Record pyobject : Type := { obj_repr : string; obj_attrs : list string }.

Definition hasattr (o : pyobject) (name : string) : bool :=
  bool_decide (name ∈ obj_attrs o).

(** What a caller may pass for [tools]: [None], a list, or another
    object. *)
Inductive tools_arg : Type :=
  | ToolsNone
  | ToolsList (l : list pyobject)
  | ToolsOther (o : pyobject).

(** [a or b] on model names: the empty string is falsy. *)
Definition or_model (model_name self_model_name : string) : string :=
  if String.eqb model_name "" then self_model_name else model_name.

(** The [for tool in tools] validation loop. *)
Fixpoint check_tools (l : list pyobject) : result unit :=
  match l with
  | [] => Ok ()
  | tool :: rest =>
      if negb (hasattr tool "name") || negb (hasattr tool "description") then
        Raise (ValueError ("Tool " ++ obj_repr tool ++
                 " missing required attributes 'name' and 'description'"))
      else check_tools rest
  end.

Definition _set_tools (self_model_name : string) (tools : tools_arg)
    (model_name : string) : result tools_arg :=
  let model_name := or_model model_name self_model_name in
  match tools with
  | ToolsNone => Ok ToolsNone
  | _ =>
      if negb (supported model_name FUNCTION_CALL_SUPPORTED_MODELS) then
        Raise (ToolsNotSupportedError model_name)
      else
        match tools with
        | ToolsList l => _ ← check_tools l; Ok tools
        | _ => Raise (ValueError "Tools must be provided as a list")
        end
  end.

(** ** Provider responses (the fields of the OpenAI SDK types read by
       the clients) *)

Record PromptTokensDetails : Type := { cached_tokens : Z }.

Record CompletionUsage : Type := {
  prompt_tokens : Z;
  prompt_tokens_details : option PromptTokensDetails;
  completion_tokens : Z;
  total_tokens : Z
}.

Record ChatCompletionMessage : Type := {
  content_of : option string;   (* [message.content] *)
  parsed_of : option string     (* [message.parsed], the structured payload *)
}.

Record Choice : Type := { message : ChatCompletionMessage }.

Record ChatCompletion : Type := {
  choices : list Choice;
  usage : option CompletionUsage
}.

(** ** clients/decorators/usage.py *)

(** The usage record of the data model. The latency is the difference of
    two readings of the monotonic clock, kept as a rational. *)
Record AIUsage : Type := {
  usage_prompt_tokens : Z;
  usage_cached_prompt_tokens : Z;
  usage_completion_tokens : Z;
  usage_total_tokens : Z;
  latency : Q
}.

(** The cost record of the data model. *)
Record AICost : Type := {
  prompt_cost : Q;
  cached_prompt_cost : Q;
  output_cost : Q;
  total_cost : Q
}.

(** What a decorated call returns. *)
Definition reply : Type := ChatCompletion * option AIUsage * option AICost.

(** Attribute access on a value that may be [None]. *)
Definition attr_of {A} (o : option A) (name : string) : result A :=
  match o with
  | Some a => Ok a
  | None => Raise (AttributeError name)
  end.

(** The keyword arguments the wrappers look at. *)
Record call_kwargs : Type := {
  kw_model_name : option string;
  kw_return_usage : option bool;
  kw_return_cost : option bool
}.

Section Accountant.

(** [track_model_cost] of the absent [utils/usage_utils.py]: the cost
    of a usage under the pricing of a model. *)
Variable track_model_cost : string → AIUsage → result AICost.

(** The [AIUsage(...)] expression built from the token counts the
    response reports. *)
Definition usage_of_response (response : ChatCompletion) (lat : Q)
    : result AIUsage :=
  u ← attr_of (usage response) "prompt_tokens";
  d ← attr_of (prompt_tokens_details u) "cached_tokens";
  Ok {| usage_prompt_tokens := prompt_tokens u;
        usage_cached_prompt_tokens := cached_tokens d;
        usage_completion_tokens := completion_tokens u;
        usage_total_tokens := total_tokens u;
        latency := lat |}.

(** [start_time] and [end_time] are the two clock readings. *)
Definition process_response (response : ChatCompletion)
    (start_time end_time : Q) (model_name : string)
    (ret_usage ret_cost : bool) (request_type : string) : result reply :=
  let lat := (end_time - start_time)%Q in
  if negb (ret_usage || ret_cost) then Ok (response, None, None)
  else
    usage ← (if ret_usage then Some <$> usage_of_response response lat
             else Ok None);
    cost ← (if ret_cost then
              u ← match usage with
                  | Some u => Ok u
                  | None => usage_of_response response lat
                  end;
              Some <$> track_model_cost model_name u
            else Ok None);
    Ok (response, usage, cost).

Section Wrappers.
Context {Args : Type}.
(** The decorated function, applied to the positional and keyword
    arguments of the call. *)
Variable func : Args → call_kwargs → result ChatCompletion.

Definition sync_wrapper (args : Args) (kwargs : call_kwargs)
    (start_time end_time : Q) : result reply :=
  match kw_model_name kwargs with
  | None => Raise (ValueError
      "The decorated function must be called with a 'model_name' keyword argument.")
  | Some model_name =>
      response ← func args kwargs;
      process_response response start_time end_time model_name
        (default false (kw_return_usage kwargs))
        (default false (kw_return_cost kwargs)) "sync"
  end.

Definition async_wrapper (args : Args) (kwargs : call_kwargs)
    (start_time end_time : Q) : result reply :=
  match kw_model_name kwargs with
  | None => Raise (ValueError
      "The decorated function must be called with a 'model_name' keyword argument.")
  | Some model_name =>
      response ← func args kwargs;
      process_response response start_time end_time model_name
        (default false (kw_return_usage kwargs))
        (default false (kw_return_cost kwargs)) "async"
  end.

(** The decorator picks the wrapper by
    [asyncio.iscoroutinefunction(func)]. *)
Definition calculate_cost_and_usage (iscoroutinefunction : bool)
    : Args → call_kwargs → Q → Q → result reply :=
  if iscoroutinefunction then async_wrapper else sync_wrapper.
End Wrappers.

End Accountant.

(** ** clients/providers/openai.py: the four call methods *)

(** [try: body except Exception as e: handler] *)
Definition try_except {A} (body : result A) (handler : exn → result A)
    : result A :=
  match body with
  | Ok a => Ok a
  | Raise e => if is_Exception e then handler e else Raise e
  end.

(** Reading a local variable that may be unbound. *)
Definition read_local {A} (name : string) (x : option A) : result A :=
  match x with
  | Some a => Ok a
  | None => Raise (UnboundLocalError name)
  end.

(** [not response.choices[0].message.content] and the like: [None] and
    the empty string are falsy. *)
Definition str_falsy (s : option string) : bool :=
  match s with
  | None | Some "" => true
  | Some _ => false
  end.

(** [getattr(message, "parsed", None)] is truthy when a payload was
    parsed. *)
Definition payload_truthy (p : option string) : bool :=
  match p with
  | Some _ => true
  | None => false
  end.

Module OpenAILLMClient.
Section Methods.

(** The call parameters and the provider request, and the shaping step
    [_prepare_params_for_provider] between them (validation followed
    by [to_openai_format] of the absent [clients/provider_params.py]);
    its second argument is the structured model, when there is one. *)
Context {Params Request Schema : Type}.
Variable _prepare_params_for_provider :
  Params → option Schema → result Request.

(** The provider transport: [self.client.chat.completions.create] and
    [self.client.beta.chat.completions.parse]. *)
Variable create : Request → result ChatCompletion.
Variable parse : Request → result ChatCompletion.

Variable track_model_cost : string → AIUsage → result AICost.

(** The name [e] is bound by [except Exception as e] inside the
    handler only: after the [try] statement it is unbound, which is
    the [None] passed to [read_local] below. *)
Definition _call_api_sync_body (params : Params) (_ : call_kwargs)
    : result ChatCompletion :=
  openai_params ← _prepare_params_for_provider params None;
  response ← try_except (create openai_params) (λ e,
    Raise (LLMResponseCompletionError
      ("Error during OpenAI API synchronous call: " ++ exn_str e)));
  match choices response with
  | [] =>
      e ← read_local "e" (None : option exn);
      Raise (LLMResponseCompletionError
        ("LLM returned no choices in synchronous response: " ++ exn_str e))
  | first :: _ =>
      if str_falsy (content_of (message first)) then
        e ← read_local "e" (None : option exn);
        Raise (LLMResponseCompletionError
          ("LLM returned no valid synchronous response: " ++ exn_str e))
      else Ok response
  end.

Definition _call_api_async_body (params : Params) (_ : call_kwargs)
    : result ChatCompletion :=
  openai_params ← _prepare_params_for_provider params None;
  response ← try_except (create openai_params) (λ e,
    Raise (LLMResponseCompletionError
      "Error during OpenAI API asynchronous call"));
  match choices response with
  | [] =>
      Raise (LLMResponseCompletionError
        "LLM returned no choices in async response")
  | first :: _ =>
      if str_falsy (content_of (message first)) then
        Raise (LLMResponseCompletionError
          "LLM returned no valid async response")
      else Ok response
  end.

Definition _call_api_structured_body (args : Schema * Params)
    (_ : call_kwargs) : result ChatCompletion :=
  let '(structured_model, params) := args in
  openai_params ← _prepare_params_for_provider params (Some structured_model);
  response ← try_except (parse openai_params) (λ e,
    Raise (LLMResponseCompletionError
      "Error during OpenAI structured synchronous call"));
  match choices response with
  | [] =>
      Raise (LLMResponseParseError
        "LLM returned no choices in structured response")
  | first :: _ =>
      if negb (payload_truthy (parsed_of (message first))) then
        Raise (LLMResponseParseError
          "LLM returned no valid structured response")
      else Ok response
  end.

Definition _call_api_structured_async_body (args : Schema * Params)
    (_ : call_kwargs) : result ChatCompletion :=
  let '(structured_model, params) := args in
  openai_params ← _prepare_params_for_provider params (Some structured_model);
  response ← try_except (parse openai_params) (λ e,
    Raise (LLMResponseCompletionError
      "Error during OpenAI structured asynchronous call"));
  match choices response with
  | [] =>
      Raise (LLMResponseParseError
        "LLM returned no choices in structured response")
  | first :: _ =>
      if negb (payload_truthy (parsed_of (message first))) then
        Raise (LLMResponseParseError
          "LLM returned no valid structured response")
      else Ok response
  end.

(** The methods as the class defines them: each body under the
    [calculate_cost_and_usage] decorator. *)
Definition _call_api_sync :=
  calculate_cost_and_usage track_model_cost _call_api_sync_body false.
Definition _call_api_async :=
  calculate_cost_and_usage track_model_cost _call_api_async_body true.
Definition _call_api_structured :=
  calculate_cost_and_usage track_model_cost _call_api_structured_body false.
Definition _call_api_structured_async :=
  calculate_cost_and_usage track_model_cost _call_api_structured_async_body true.

End Methods.
End OpenAILLMClient.

(** ** Python values and the heap *)

Abbreviation loc := nat (only parsing).

(** A value is immediate or a reference to a heap object. *)
Inductive val : Type :=
  | VNone
  | VBool (b : bool)
  | VInt (z : Z)
  | VStr (s : string)
  | VRef (l : loc).

(** Heap objects: lists, dictionaries, and instances of other classes
    (messages, tools, schemas) with their attributes. *)
Inductive obj : Type :=
  | OList (xs : list val)
  | ODict (d : gmap string val)
  | OInstance (cls : string) (attrs : gmap string val).

Abbreviation heap := (list obj) (only parsing).

(** A fresh object is placed after every existing one. *)
Definition alloc (o : obj) (h : heap) : loc * heap := (List.length h, (h ++ [o])%list).

(** [v is None] *)
Definition is_None (v : val) : bool :=
  match v with
  | VNone => true
  | _ => false
  end.

(** [isinstance(v, list)], with the elements *)
Definition as_list (h : heap) (v : val) : option (list val) :=
  match v with
  | VRef l => match h !! l with Some (OList xs) => Some xs | _ => None end
  | _ => None
  end.

(** [isinstance(v, dict)], with the entries *)
Definition as_dict (h : heap) (v : val) : option (gmap string val) :=
  match v with
  | VRef l => match h !! l with Some (ODict d) => Some d | _ => None end
  | _ => None
  end.

(** Truth value of [v] in a condition. *)
Definition truthy (h : heap) (v : val) : bool :=
  match v with
  | VNone => false
  | VBool b => b
  | VInt z => negb (z =? 0)
  | VStr s => negb (String.eqb s "")
  | VRef l =>
      match h !! l with
      | Some (OList xs) => negb (bool_decide (xs = []))
      | Some (ODict d) => negb (bool_decide (d = ∅))
      | _ => true
      end
  end.

(** [d.update(other)] on the dictionary stored at [l] *)
Definition dict_update (l : loc) (other : gmap string val) (h : heap) : heap :=
  match h !! l with
  | Some (ODict d) => <[l := ODict (other ∪ d)]> h
  | _ => h
  end.

(** ** clients/types.py and clients/providers/base.py *)

Module BaseLLMClient.

(** The transport handle held in [self.client]. *)
Inductive transport : Type :=
  | OpenAI (api_key : string)
  | AsyncOpenAI (api_key : string).

(** The attributes [__init__] stores on the client. *)
Record client : Type := {
  self_model_name : string;
  self_messages : val;
  self_reasoning_effort : val;
  self_tools : val;
  self_tool_choice : val;
  self_user : val;
  self_use_async : bool;
  self_api_key : option string;
  self_client : transport
}.

(** A method runs on the client and the heap, changes them in place,
    and returns or raises; what it changed before raising stays. *)
Definition state : Type := client * heap.
Definition M (A : Type) : Type := state → state * result A.

#[global] Instance M_ret : MRet M := λ A a st, (st, Ok a).
#[global] Instance M_bind : MBind M := λ A B f m st,
  match m st with
  | (st', Ok a) => f a st'
  | (st', Raise e) => (st', Raise e)
  end.

Definition get_self : M client := λ st, (st, Ok st.1).
Definition get_heap : M heap := λ st, (st, Ok st.2).
Definition put_heap (h : heap) : M unit := λ st, ((st.1, h), Ok ()).
Definition modify_self (f : client → client) : M unit :=
  λ st, ((f st.1, st.2), Ok ()).
Definition raise {A} (e : exn) : M A := λ st, (st, Raise e).
Definition lift {A} (r : result A) : M A := λ st, (st, r).

(** [self.client = c] and [self.use_async = b] *)
Definition set_client (c : transport) (self : client) : client :=
  {| self_model_name := self_model_name self;
     self_messages := self_messages self;
     self_reasoning_effort := self_reasoning_effort self;
     self_tools := self_tools self;
     self_tool_choice := self_tool_choice self;
     self_user := self_user self;
     self_use_async := self_use_async self;
     self_api_key := self_api_key self;
     self_client := c |}.

Definition set_use_async (b : bool) (self : client) : client :=
  {| self_model_name := self_model_name self;
     self_messages := self_messages self;
     self_reasoning_effort := self_reasoning_effort self;
     self_tools := self_tools self;
     self_tool_choice := self_tool_choice self;
     self_user := self_user self;
     self_use_async := b;
     self_api_key := self_api_key self;
     self_client := self_client self |}.

(** The fields of the pydantic model [BaseLLMCallParams], in the order
    of declaration. *)
Definition model_fields : list string :=
  ["messages"; "model"; "user"; "tools"; "tool_choice";
   "reasoning_effort"; "structured_model"].

(** An instance of [BaseLLMCallParams]: its attributes. *)
Record BaseLLMCallParams : Type := { attributes : gmap string val }.

(** [params.name] *)
Definition getattr (params : BaseLLMCallParams) (name : string) : val :=
  default VNone (attributes params !! name).

(** The abstract methods a provider class implements. *)
Record provider : Type := {
  _init_client : bool → gmap string val → M transport;
  _call_api_sync : val → BaseLLMCallParams → bool → bool → M reply;
  _call_api_async : val → BaseLLMCallParams → bool → bool → M reply;
  _call_api_structured :
    val → val → BaseLLMCallParams → bool → bool → M reply;
  _call_api_structured_async :
    val → val → BaseLLMCallParams → bool → bool → M reply
}.

Section Methods.

(** pydantic's validation of one field value against the annotation
    of the field (the annotations name classes of the absent
    [typing/messages.py]). *)
Variable validates : string → heap → val → bool.

Variable P : provider.

Definition _validate_client (use_async : bool)
    (kwargs : gmap string val) : M unit :=
  self ← get_self;
  if use_async && negb (self_use_async self) then
    c ← _init_client P true kwargs;
    _ ← modify_self (set_client c);
    modify_self (set_use_async true)
  else if negb use_async && self_use_async self then
    c ← _init_client P false kwargs;
    _ ← modify_self (set_client c);
    modify_self (set_use_async false)
  else mret ().

(** The chain of [if field == ...] that picks the default. *)
Definition default_value (self : client) (field : string) : val :=
  if String.eqb field "model" then VStr (self_model_name self)
  else if String.eqb field "tools" then self_tools self
  else if String.eqb field "tool_choice" then self_tool_choice self
  else if String.eqb field "reasoning_effort" then self_reasoning_effort self
  else if String.eqb field "user" then self_user self
  else if String.eqb field "structured_model" then VNone
  else VNone.

(** One round of the loop over the known fields. *)
Definition merge_field (self : client)
    (runtime merge_flags : gmap string val)
    (acc : gmap string val * heap) (field : string)
    : gmap string val * heap :=
  let '(merged, h) := acc in
  let default_value := default_value self field in
  let runtime_value := default VNone (runtime !! field) in
  let merge_flag := default (VBool false) (merge_flags !! field) in
  if truthy h merge_flag && negb (is_None default_value)
     && negb (is_None runtime_value) then
    match as_list h default_value, as_list h runtime_value with
    | Some d, Some r =>
        let '(l, h') := alloc (OList (d ++ r)%list) h in
        (<[field := VRef l]> merged, h')
    | _, _ =>
        match as_dict h default_value, as_dict h runtime_value with
        | Some d, Some r =>
            let '(l, h') := alloc (ODict d) h in
            let h'' := dict_update l r h' in
            (<[field := VRef l]> merged, h'')
        | _, _ => (<[field := runtime_value]> merged, h)
        end
    end
  else
    (<[field := if is_None runtime_value then default_value
                else runtime_value]> merged, h).

(** The dictionary [merged] at the end of [_merge_parameters]: the
    loop over the known fields, then the runtime keys that are not
    in it yet. *)
Definition merged_dict (self : client)
    (runtime merge_flags : gmap string val) (h : heap)
    : gmap string val * heap :=
  let '(merged, h') :=
    foldl (merge_field self runtime merge_flags) (∅, h) model_fields in
  (merged ∪ runtime, h').

(** The constructor call of [BaseLLMCallParams] on the unpacked
    dictionary: every declared field is required and validated; the
    model class sets no [extra] policy, so pydantic's default applies
    and undeclared keys are ignored. Validation is a check here: a
    validated field holds the value it was given. (pydantic itself
    rebuilds a list it validates as a new list of the same elements, and
    turns a dictionary given for a model-typed field into an instance;
    the elements, the message and tool objects among them, are the
    same.) *)
Definition BaseLLMCallParams_init (kwargs : gmap string val) (h : heap)
    : result BaseLLMCallParams :=
  if forallb (λ f, match kwargs !! f with
                   | Some v => validates f h v
                   | None => false
                   end) model_fields
  then Ok {| attributes := filter (λ kv, kv.1 ∈ model_fields) kwargs |}
  else Raise ValidationError.

Definition _merge_parameters (runtime merge_flags : gmap string val)
    : M BaseLLMCallParams :=
  self ← get_self;
  h ← get_heap;
  let '(merged, h') := merged_dict self runtime merge_flags h in
  _ ← put_heap h';
  lift (BaseLLMCallParams_init merged h').

(** [runtime_params.pop("__merge__", {})], read as the dictionary
    that [_merge_parameters] calls [.get] on. *)
Definition pop_merge_flags (runtime_params : gmap string val)
    : M (gmap string val) :=
  match runtime_params !! "__merge__" with
  | None => mret ∅
  | Some v =>
      h ← get_heap;
      match as_dict h v with
      | Some d => mret d
      | None => raise (AttributeError "get")
      end
  end.

(** The part the four public methods share after
    [_validate_client]. *)
Definition prepare_call (messages : val) (kwargs : gmap string val)
    : M BaseLLMCallParams :=
  let runtime_params := kwargs in
  let runtime_params := <["messages" := messages]> runtime_params in
  merge_flags ← pop_merge_flags runtime_params;
  let runtime_params := delete "__merge__" runtime_params in
  _merge_parameters runtime_params merge_flags.

Definition run (messages : val) (return_usage return_cost : bool)
    (kwargs : gmap string val) : M reply :=
  _ ← _validate_client false ∅;
  merged_params ← prepare_call messages kwargs;
  _call_api_sync P (getattr merged_params "model") merged_params
    return_usage return_cost.

Definition run_async (messages : val) (return_usage return_cost : bool)
    (kwargs : gmap string val) : M reply :=
  _ ← _validate_client true ∅;
  merged_params ← prepare_call messages kwargs;
  _call_api_async P (getattr merged_params "model") merged_params
    return_usage return_cost.

Definition run_structured (structured_model : val) (messages : val)
    (return_usage return_cost : bool) (kwargs : gmap string val)
    : M reply :=
  _ ← _validate_client false ∅;
  merged_params ← prepare_call messages kwargs;
  _call_api_structured P (getattr merged_params "model") structured_model
    merged_params return_usage return_cost.

Definition run_structured_async (structured_model : val) (messages : val)
    (return_usage return_cost : bool) (kwargs : gmap string val)
    : M reply :=
  _ ← _validate_client true ∅;
  merged_params ← prepare_call messages kwargs;
  _call_api_structured_async P (getattr merged_params "model")
    structured_model merged_params return_usage return_cost.

End Methods.

End BaseLLMClient.

(** What one entry of the table has to satisfy for the alias to resolve
    to a listed id of maximal date. *)
Definition alias_ok (entry : string * definition) : bool :=
  let '(alias, defn) := entry in
  match dict_get "most_recent_model" defn, dict_get "model_ids" defn with
  | Some (DStr m), Some (DList ids) =>
      bool_decide (m ∈ ids)
      && forallb (λ v, date_leb (extract_date v alias) (extract_date m alias)) ids
  | _, _ => false
  end.

(** A two-message conversation used to exercise the normaliser. *)
Definition sample_conversation : list Message :=
  [ {| msg_role := system; msg_content := Text "be brief" |};
    {| msg_role := user; msg_content := Text "hello" |} ].

(** A tool entry without the attribute [name]. *)
Definition nameless_tool : pyobject :=
  {| obj_repr := "<object>"; obj_attrs := ["description"] |}.

(** Provider responses used to exercise the call methods: one without
    choices, one whose first choice has empty content and no parsed
    payload, and a complete one. *)
Definition reported_usage : CompletionUsage :=
  {| prompt_tokens := 1000000;
     prompt_tokens_details := Some {| cached_tokens := 0 |};
     completion_tokens := 100000;
     total_tokens := 1100000 |}.

Definition response_no_choices : ChatCompletion :=
  {| choices := []; usage := Some reported_usage |}.

Definition response_empty_content : ChatCompletion :=
  {| choices := [ {| message := {| content_of := Some ""; parsed_of := None |} |} ];
     usage := Some reported_usage |}.

Definition response_hello : ChatCompletion :=
  {| choices := [ {| message := {| content_of := Some "hello";
                                   parsed_of := Some "{}" |} |} ];
     usage := Some reported_usage |}.

(** A cost function for the examples: every category costs nothing. *)
Definition free_of_charge (model_name : string) (u : AIUsage) : result AICost :=
  Ok {| prompt_cost := 0; cached_prompt_cost := 0; output_cost := 0;
        total_cost := 0 |}.

(** Keyword arguments naming the model and asking for usage and cost. *)
Definition kwargs_for (model_name : string) (return_usage return_cost : bool)
    : call_kwargs :=
  {| kw_model_name := Some model_name;
     kw_return_usage := Some return_usage;
     kw_return_cost := Some return_cost |}.

(** A value is closed in a heap when it does not refer past its end. *)
Definition closed (h : heap) (v : val) : Prop :=
  match v with
  | VRef l => (l < List.length h)%nat
  | _ => True
  end.

(** A client whose default tools are the list [a, b], stored at location
    0 of a heap that also holds the override list [c] at location 1. *)
Definition tools_heap : heap :=
  [OList [VStr "a"; VStr "b"]; OList [VStr "c"]].

Definition tools_client : BaseLLMClient.client :=
  {| BaseLLMClient.self_model_name := "gpt-4o";
     BaseLLMClient.self_messages := VNone;
     BaseLLMClient.self_reasoning_effort := VNone;
     BaseLLMClient.self_tools := VRef 0;
     BaseLLMClient.self_tool_choice := VStr "auto";
     BaseLLMClient.self_user := VNone;
     BaseLLMClient.self_use_async := false;
     BaseLLMClient.self_api_key := Some "sk-test";
     BaseLLMClient.self_client := BaseLLMClient.OpenAI "sk-test" |}.

(** A validation that accepts every value. *)
Definition accept_all (field : string) (h : heap) (v : val) : bool := true.

(** Runtime parameters overriding the tools, and the two merge flags. *)
Definition override_tools : gmap string val := {["tools" := VRef 1]}.
Definition merge_tools : gmap string val := {["tools" := VBool true]}.
Definition replace_tools : gmap string val := {["tools" := VBool false]}.

(** Runtime parameters carrying a key that is not a field of
    [BaseLLMCallParams]. *)
Definition extra_runtime : gmap string val :=
  <["temperature" := VInt 1]> {["messages" := VRef 1]}.

(** ** The normaliser and the validators on the objects of a call *)

(** A call works on the objects the caller built. A message is an
    instance with an attribute [role], a tool an instance with its own
    attributes, and the normaliser rewrites the role on the message
    object itself: whoever holds the object sees the new role. The
    functions of this module are the methods of [BaseLLMClient] that
    [_validate_and_unpack_parameters] runs, over values and the heap.
    As before, the wrapper class [MessageList] is read as the list it
    holds. *)
Module OnHeap.
Import BaseLLMClient.

(** [message.role] *)
Definition role_of (h : heap) (v : val) : option val :=
  match v with
  | VRef l =>
      match h !! l with
      | Some (OInstance _ attrs) => attrs !! "role"
      | _ => None
      end
  | _ => None
  end.

(** [message.role == r] *)
Definition has_role (h : heap) (r : string) (v : val) : bool :=
  match role_of h v with
  | Some (VStr s) => String.eqb s r
  | _ => false
  end.

(** [message.role = target] *)
Definition set_role (target : string) (v : val) (h : heap) : heap :=
  match v with
  | VRef l =>
      match h !! l with
      | Some (OInstance cls attrs) =>
          <[l := OInstance cls (<["role" := VStr target]> attrs)]> h
      | _ => h
      end
  | _ => h
  end.

(** Modelled from the spec: [handle_no_messages] of the absent
    [clients/utils.py]. Empty or absent input must raise the
    no-messages error naming the model. *)
Definition handle_no_messages (model_name : string) (init_call : bool)
    : M val :=
  raise (MessagesNotProvidedError model_name).

(** Modelled from the spec: [standardize_messages] of the absent
    [clients/utils.py]. An input that is not a list is coerced into a
    one-element ordered sequence, a new list; a sequence is kept as it
    is. *)
Definition standardize_messages (messages : val) : M val :=
  h ← get_heap;
  match as_list h messages with
  | Some _ => mret messages
  | None =>
      let '(l, h') := alloc (OList [messages]) h in
      _ ← put_heap h';
      mret (VRef l)
  end.

Definition count_role (h : heap) (r : string) (messages : list val) : nat :=
  length (filter (λ v, has_role h r v = true) messages).

(** Modelled from the spec: [count_message_roles] of the absent
    [clients/utils.py]. Counts the system-role and the developer-role
    messages across the sequence. *)
Definition count_message_roles (h : heap) (messages : list val) : nat * nat :=
  (count_role h "system" messages, count_role h "developer" messages).

(** Modelled from the spec: [convert_message_roles] of the absent
    [clients/utils.py]. Rewrites the role of the instruction message
    (system or developer) to the target role and nothing else.
    [_set_messages] discards what the function returns and hands on the
    list it passed in, so the rewrite is made on the message objects. *)
Definition convert_message_roles (messages : list val) (target : string)
    (model_name : string) (h : heap) : heap :=
  foldl (λ h v, if has_role h "system" v || has_role h "developer" v
                then set_role target v h else h) h messages.

Definition _set_messages (model_name : string) (messages : val)
    (init_call : bool) : M val :=
  h ← get_heap;
  if negb (truthy h messages) then handle_no_messages model_name init_call
  else
    messages ← standardize_messages messages;
    h ← get_heap;
    let items := default [] (as_list h messages) in
    let '(system_count, developer_count) := count_message_roles h items in
    if (1 <? system_count)%nat then
      raise (InvalidMessageError
        "Invalid message role provided. More than one system message provided.")
    else if (1 <? developer_count)%nat then
      raise (InvalidMessageError
        "Invalid message role provided. More than one developer message provided.")
    else if (1 <=? system_count)%nat && (1 <=? developer_count)%nat then
      raise (InvalidMessageError
        "Invalid message role provided. Both system and developer messages provided.")
    else if (0 <? system_count)%nat then
      if supported model_name DEVELOPER_MESSAGE_SUPPORTED_MODELS then
        _ ← put_heap (convert_message_roles items "developer" model_name h);
        mret messages
      else if supported model_name ONLY_USER_MESSAGE_SUPPORTED_MODELS then
        _ ← put_heap (convert_message_roles items "user" model_name h);
        mret messages
      else mret messages
    else if (0 <? developer_count)%nat then
      if supported model_name SYSTEM_MESSAGE_SUPPORTED_MODELS then
        _ ← put_heap (convert_message_roles items "system" model_name h);
        mret messages
      else if supported model_name ONLY_USER_MESSAGE_SUPPORTED_MODELS then
        _ ← put_heap (convert_message_roles items "user" model_name h);
        mret messages
      else mret messages
    else mret messages.

(** [hasattr(tool, name)]: an instance has the attributes it holds; a
    string, a number, a list and a dictionary have neither a name nor a
    description. *)
Definition hasattr (h : heap) (v : val) (name : string) : bool :=
  match v with
  | VRef l =>
      match h !! l with
      | Some (OInstance _ attrs) => bool_decide (is_Some (attrs !! name))
      | _ => false
      end
  | _ => false
  end.

Section Validators.

(** The text of an object in an f-string, [isinstance(v, BaseModel)],
    and pydantic's validation of the keyword arguments of
    [ValidatedBaseLLMCallParams]: they depend on the classes of the
    absent [typing/messages.py] and on pydantic. *)
Variable str : heap → val → string.
Variable isinstance_BaseModel : heap → val → bool.
Variable validated_ok : heap → gmap string val → bool.

Fixpoint check_tools (h : heap) (l : list val) : result unit :=
  match l with
  | [] => Ok ()
  | tool :: rest =>
      if negb (hasattr h tool "name") || negb (hasattr h tool "description")
      then
        Raise (ValueError ("Tool " ++ str h tool ++
                 " missing required attributes 'name' and 'description'"))
      else check_tools h rest
  end.

Definition _set_tools (self_model_name : string) (h : heap) (tools : val)
    (model_name : string) : result val :=
  let model_name := or_model model_name self_model_name in
  if is_None tools then Ok VNone
  else if negb (supported model_name FUNCTION_CALL_SUPPORTED_MODELS) then
    Raise (ToolsNotSupportedError model_name)
  else
    match as_list h tools with
    | None => Raise (ValueError "Tools must be provided as a list")
    | Some l => _ ← check_tools h l; Ok tools
    end.

Definition _set_tool_choice (tool_choice tools : val) : val :=
  if is_None tools then VNone
  else if is_None tool_choice then VStr "auto"
  else tool_choice.

Definition _set_reasoning_effort (self_model_name : string)
    (reasoning_effort : val) (model_name : string) : result val :=
  let model_name := or_model model_name self_model_name in
  if is_None reasoning_effort then Ok VNone
  else if negb (supported model_name REASONING_EFFORT_SUPPORTED_MODELS) then
    Raise (ReasoningEffortNotSupportedError model_name)
  else Ok reasoning_effort.

Definition _validate_structured_model (self_model_name : string) (h : heap)
    (structured_model : val) (model_name : string) : result val :=
  let model_name := or_model model_name self_model_name in
  if is_None structured_model then Ok VNone
  else if negb (supported model_name STRUCTURED_OUTPUT_SUPPORTED_MODELS) then
    Raise (StructuredOutputNotSupportedError self_model_name)
  else if negb (isinstance_BaseModel h structured_model) then
    Raise (ValueError "Structured model must be a subclass of BaseModel.")
  else Ok structured_model.

(** The keyword arguments of the constructor are evaluated in the order
    in which they are written: the messages are normalised, and their
    roles rewritten, before the tools are looked at. The field [model]
    admits the registered names only, which are strings: pydantic has
    refused any other value when [params] was built. The validated
    parameters are an instance of the subclass
    [ValidatedBaseLLMCallParams], with the same fields. *)
Definition _validate_and_unpack_parameters (params : BaseLLMCallParams)
    (structured_model : val) : M BaseLLMCallParams :=
  self ← get_self;
  match getattr params "model" with
  | VStr model_name =>
      let tools := getattr params "tools" in
      messages ← _set_messages model_name (getattr params "messages") false;
      h ← get_heap;
      validated_tools ← lift (_set_tools (self_model_name self) h tools model_name);
      let tool_choice := _set_tool_choice (getattr params "tool_choice") tools in
      reasoning_effort ←
        lift (_set_reasoning_effort (self_model_name self)
                (getattr params "reasoning_effort") model_name);
      structured_model ←
        lift (_validate_structured_model (self_model_name self) h
                structured_model model_name);
      let kwargs : gmap string val :=
        <["model" := VStr model_name]>
        (<["messages" := messages]>
        (<["user" := getattr params "user"]>
        (<["tools" := validated_tools]>
        (<["tool_choice" := tool_choice]>
        (<["reasoning_effort" := reasoning_effort]>
        (<["structured_model" := structured_model]> ∅)))))) in
      if validated_ok h kwargs then mret {| attributes := kwargs |}
      else raise ValidationError
  | _ => raise ValidationError
  end.

End Validators.
End OnHeap.

(** ** The OpenAI client as a provider of the abstract methods *)

Module OpenAIProvider.
Import BaseLLMClient.

(** A string held in a value; an API key and a model name are strings. *)
Definition val_str (v : val) : option string :=
  match v with
  | VStr s => Some s
  | _ => None
  end.

(** [a or b] on optional strings: [None] and the empty string are
    falsy. *)
Definition or_str (a b : option string) : option string :=
  match a with
  | Some s => if String.eqb s "" then b else a
  | None => b
  end.

(** A decorated call method on the state. The shaping step is the first
    statement of the body and the only one that writes to the heap; the
    decorator reaches the body when it has found [model_name]. What the
    method returns or raises is what the decorated method gives over
    the outcome of the shaping step. *)
Definition with_shaping {Request A : Type} (kwargs : call_kwargs)
    (shaping : M Request) (method : result Request → result A) : M A :=
  λ st,
    let '(st', request) := shaping st in
    (match kw_model_name kwargs with
     | Some _ => st'
     | None => st
     end, method request).

Section Provider.

(** [os.environ.get("OPENAI_API_KEY")] *)
Variable environ_api_key : option string.

(** What the validators take from the classes of the absent
    [typing/messages.py] and from pydantic. *)
Variable str : heap → val → string.
Variable isinstance_BaseModel : heap → val → bool.
Variable validated_ok : heap → gmap string val → bool.

(** [to_openai_format] of the absent [clients/provider_params.py], the
    two transport entry points of a handle, the cost function and the
    two clock readings of a call. *)
Context {Request : Type}.
Variable to_openai_format : heap → BaseLLMCallParams → result Request.
Variable create parse : transport → Request → result ChatCompletion.
Variable track_model_cost : string → AIUsage → result AICost.
Variable clock : Q * Q.

Definition _init_client (use_async : bool) (kwargs : gmap string val)
    : M transport :=
  self ← get_self;
  let api_key :=
    or_str (match kwargs !! "api_key" with
            | Some v => val_str v
            | None => self_api_key self
            end) environ_api_key in
  match or_str api_key None with
  | None =>
      raise (APIKeyNotFoundError
        "OpenAI API key not found in arguments or environment variables")
  | Some api_key =>
      mret (if use_async then AsyncOpenAI api_key else OpenAI api_key)
  end.

Definition _prepare_params_for_provider (base_params : BaseLLMCallParams)
    (structured_model : val) : M Request :=
  validated_params ←
    OnHeap._validate_and_unpack_parameters str isinstance_BaseModel
      validated_ok base_params structured_model;
  h ← get_heap;
  lift (to_openai_format h validated_params).

(** The keyword arguments with which the public methods call the
    decorated ones. *)
Definition call_kwargs_of (model_name : val) (return_usage return_cost : bool)
    : call_kwargs :=
  {| kw_model_name := val_str model_name;
     kw_return_usage := Some return_usage;
     kw_return_cost := Some return_cost |}.

Definition _call_api_sync (model_name : val) (params : BaseLLMCallParams)
    (return_usage return_cost : bool) : M reply :=
  self ← get_self;
  let kwargs := call_kwargs_of model_name return_usage return_cost in
  with_shaping kwargs (_prepare_params_for_provider params VNone)
    (λ request,
       OpenAILLMClient._call_api_sync (Schema := val) (λ _ _, request)
         (create (self_client self)) track_model_cost params kwargs
         clock.1 clock.2).

Definition _call_api_async (model_name : val) (params : BaseLLMCallParams)
    (return_usage return_cost : bool) : M reply :=
  self ← get_self;
  let kwargs := call_kwargs_of model_name return_usage return_cost in
  with_shaping kwargs (_prepare_params_for_provider params VNone)
    (λ request,
       OpenAILLMClient._call_api_async (Schema := val) (λ _ _, request)
         (create (self_client self)) track_model_cost params kwargs
         clock.1 clock.2).

Definition _call_api_structured (model_name structured_model : val)
    (params : BaseLLMCallParams) (return_usage return_cost : bool) : M reply :=
  self ← get_self;
  let kwargs := call_kwargs_of model_name return_usage return_cost in
  with_shaping kwargs (_prepare_params_for_provider params structured_model)
    (λ request,
       OpenAILLMClient._call_api_structured (λ _ _, request)
         (parse (self_client self)) track_model_cost
         (structured_model, params) kwargs clock.1 clock.2).

Definition _call_api_structured_async (model_name structured_model : val)
    (params : BaseLLMCallParams) (return_usage return_cost : bool) : M reply :=
  self ← get_self;
  let kwargs := call_kwargs_of model_name return_usage return_cost in
  with_shaping kwargs (_prepare_params_for_provider params structured_model)
    (λ request,
       OpenAILLMClient._call_api_structured_async (λ _ _, request)
         (parse (self_client self)) track_model_cost
         (structured_model, params) kwargs clock.1 clock.2).

Definition methods : provider :=
  {| BaseLLMClient._init_client := _init_client;
     BaseLLMClient._call_api_sync := _call_api_sync;
     BaseLLMClient._call_api_async := _call_api_async;
     BaseLLMClient._call_api_structured := _call_api_structured;
     BaseLLMClient._call_api_structured_async := _call_api_structured_async |}.

End Provider.
End OpenAIProvider.

(** ** The frame of a call *)

(** [frame st st']: going from [st] to [st'] kept every attribute of the
    client except the transport mode and the transport handle, and kept
    every object that was on the heap. *)
Definition frame (st st' : BaseLLMClient.state) : Prop :=
  BaseLLMClient.self_model_name st'.1 = BaseLLMClient.self_model_name st.1
  ∧ BaseLLMClient.self_messages st'.1 = BaseLLMClient.self_messages st.1
  ∧ BaseLLMClient.self_tools st'.1 = BaseLLMClient.self_tools st.1
  ∧ BaseLLMClient.self_tool_choice st'.1 = BaseLLMClient.self_tool_choice st.1
  ∧ BaseLLMClient.self_reasoning_effort st'.1
    = BaseLLMClient.self_reasoning_effort st.1
  ∧ BaseLLMClient.self_user st'.1 = BaseLLMClient.self_user st.1
  ∧ BaseLLMClient.self_api_key st'.1 = BaseLLMClient.self_api_key st.1
  ∧ ∀ (l : loc) (o : obj), st.2 !! l = Some o → st'.2 !! l = Some o.

(** A method preserves the frame when it does so from every state,
    whether it returns or raises. *)
Definition preserves {A} (m : BaseLLMClient.M A) : Prop :=
  ∀ st, frame st (m st).1.

(** [o'] is the instruction message [o] with another role: the same
    class and the same attributes, but for [role]. *)
Definition role_rewritten (o o' : obj) : Prop :=
  ∃ cls attrs role target,
    o = OInstance cls attrs
    ∧ attrs !! "role" = Some (VStr role)
    ∧ (role = "system" ∨ role = "developer")
    ∧ o' = OInstance cls (<["role" := VStr target]> attrs).


(** [frame_but ms st st']: as [frame], except that an object of [ms]
    that was an instruction message may have had its role rewritten. *)
Definition frame_but (ms : list val) (st st' : BaseLLMClient.state) : Prop :=
  BaseLLMClient.self_model_name st'.1 = BaseLLMClient.self_model_name st.1
  ∧ BaseLLMClient.self_messages st'.1 = BaseLLMClient.self_messages st.1
  ∧ BaseLLMClient.self_tools st'.1 = BaseLLMClient.self_tools st.1
  ∧ BaseLLMClient.self_tool_choice st'.1 = BaseLLMClient.self_tool_choice st.1
  ∧ BaseLLMClient.self_reasoning_effort st'.1
    = BaseLLMClient.self_reasoning_effort st.1
  ∧ BaseLLMClient.self_user st'.1 = BaseLLMClient.self_user st.1
  ∧ BaseLLMClient.self_api_key st'.1 = BaseLLMClient.self_api_key st.1
  ∧ ∀ (l : loc) (o : obj), st.2 !! l = Some o →
      st'.2 !! l = Some o
      ∨ (VRef l ∈ ms ∧ ∃ o', st'.2 !! l = Some o' ∧ role_rewritten o o').

(** A transport that answers every request with one fixed response. *)
Definition canned_transport (response : ChatCompletion)
    (handle : BaseLLMClient.transport) (request : BaseLLMClient.BaseLLMCallParams)
    : result ChatCompletion :=
  Ok response.

(** The OpenAI methods over validations that accept, the identity
    shaping and a canned transport. *)
Definition canned_openai : BaseLLMClient.provider :=
  OpenAIProvider.methods (Some "sk-env") (λ _ _, "<object>") (λ _ _, true)
    (λ _ _, true) (λ _ params, Ok params)
    (canned_transport response_hello) (canned_transport response_hello)
    free_of_charge (0, 1)%Q.

(** The heap of the tools client with a merge-flags dictionary at
    location 2, and keyword arguments that override the tools and ask
    for them to be merged. *)
Definition call_heap : heap :=
  (tools_heap ++ [ODict {["tools" := VBool true]}])%list.

Definition call_kwargs_merge : gmap string val :=
  <["__merge__" := VRef 2]> {["tools" := VRef 1]}.

(** A client for ["gpt-4o"] that stores a conversation: the system
    message at location 0, the user message at location 1, and the list
    of the two at location 2. *)
Definition chat_heap : heap :=
  [ OInstance "TextMessage"
      (<["role" := VStr "system"]> {["text" := VStr "be brief"]});
    OInstance "TextMessage"
      (<["role" := VStr "user"]> {["text" := VStr "hello"]});
    OList [VRef 0; VRef 1] ].

Definition chat_client : BaseLLMClient.client :=
  {| BaseLLMClient.self_model_name := "gpt-4o";
     BaseLLMClient.self_messages := VRef 2;
     BaseLLMClient.self_reasoning_effort := VNone;
     BaseLLMClient.self_tools := VNone;
     BaseLLMClient.self_tool_choice := VNone;
     BaseLLMClient.self_user := VNone;
     BaseLLMClient.self_use_async := false;
     BaseLLMClient.self_api_key := Some "sk-test";
     BaseLLMClient.self_client := BaseLLMClient.OpenAI "sk-test" |}.

(** Keyword arguments that ask for another model. *)
Definition call_kwargs_o1 : gmap string val := {["model" := VStr "o1"]}.

(** ** utils/model_mapping.py: the other two lookups *)

(** The search loop of [get_model_class]. *)
Fixpoint class_loop (inp : string) (items : list (string * definition))
    : result def_value :=
  match items with
  | [] => Raise (ValueError
            ("Could not resolve model class for input '" ++ inp ++ "'."))
  | (alias, defn) :: rest =>
      names ← getitem defn "model_names";
      if def_contains inp names then Ok (DStr alias)
      else class_loop inp rest
  end.

Definition get_model_class (inp : string) : result def_value :=
  match dict_get inp MODEL_DEFINITIONS with
  | Some _ => Ok (DStr inp)
  | None => class_loop inp MODEL_DEFINITIONS
  end.

(** The search loop of [get_provider]. *)
Fixpoint provider_loop (inp : string) (items : list (string * definition))
    : result def_value :=
  match items with
  | [] => Raise (ValueError ("Provider for model '" ++ inp ++ "' not found."))
  | (alias, defn) :: rest =>
      names ← getitem defn "model_names";
      if def_contains inp names then getitem defn "provider"
      else provider_loop inp rest
  end.

Definition get_provider (inp : string) : result def_value :=
  match dict_get inp MODEL_DEFINITIONS with
  | Some defn => getitem defn "provider"
  | None => provider_loop inp MODEL_DEFINITIONS
  end.

(** typing/models.py: the table from model names to providers. *)
Definition PROVIDER_MODEL_NAMES : list (string * string) :=
  [ ("claude-3-5-haiku-20241022", "anthropic");
    ("claude-3-5-sonnet-20241022", "anthropic");
    ("claude-3-opus-20240229", "anthropic");
    ("gpt-4o-01-10-24", "openai");
    ("gpt-4o-01-15-24", "openai");
    ("gpt-4o-12-17-24", "openai");
    ("o1-01-10-24", "openai");
    ("o1-01-15-24", "openai");
    ("o1-12-17-24", "openai");
    ("o1-mini-01-10-24", "openai");
    ("o1-mini-01-15-24", "openai");
    ("o1-mini-12-17-24", "openai");
    ("o3-mini-2025-01-31", "openai");
    ("claude-3-5-sonnet", "anthropic");
    ("claude-3-haiku", "anthropic");
    ("claude-3-opus", "anthropic");
    ("gpt-4o", "openai");
    ("o1", "openai");
    ("o1-mini", "openai");
    ("o3-mini", "openai") ].

(** The names a definition answers for: its alias and its ids. *)
Definition names_of (entry : string * definition) : list string :=
  entry.1 :: match dict_get "model_ids" entry.2 with
             | Some (DList ids) => ids
             | _ => []
             end.

(** One entry of [MODEL_DEFINITIONS] agrees with
    [PROVIDER_MODEL_NAMES] on each of its names. *)
Definition entry_agrees (entry : string * definition) : bool :=
  match dict_get "provider" entry.2 with
  | Some (DStr p) =>
      forallb (λ name, bool_decide (dict_get name PROVIDER_MODEL_NAMES = Some p))
        (names_of entry)
  | _ => false
  end.

(** One key of [PROVIDER_MODEL_NAMES] is a name of some definition that
    has the same provider. *)
Definition name_known (kv : string * string) : bool :=
  existsb (λ entry,
      bool_decide (kv.1 ∈ names_of entry)
      && match dict_get "provider" entry.2 with
         | Some (DStr p) => String.eqb p kv.2
         | _ => false
         end)
    MODEL_DEFINITIONS.

(** A string without the character [-]. *)
Fixpoint hyphen_free (s : string) : bool :=
  match s with
  | EmptyString => true
  | String a s' => negb (Ascii.eqb a "-") && hyphen_free s'
  end.

(** ** The other validators of [BaseLLMClient] *)

Definition _set_reasoning_effort (self_model_name : string)
    (reasoning_effort : option string) (model_name : string)
    : result (option string) :=
  let model_name := or_model model_name self_model_name in
  match reasoning_effort with
  | None => Ok None
  | Some _ =>
      if negb (supported model_name REASONING_EFFORT_SUPPORTED_MODELS) then
        Raise (ReasoningEffortNotSupportedError model_name)
      else Ok reasoning_effort
  end.

(** The values of [ToolChoiceOption] other than [None]: the string
    ["auto"] or a [ToolChoice] object. *)
Inductive tool_choice_option : Type :=
  | Auto
  | ToolChoice (type : string) (function_name : option string).

Definition _set_tool_choice (tool_choice : option tool_choice_option)
    (tools : tools_arg) : option tool_choice_option :=
  match tools with
  | ToolsNone => None
  | _ =>
      match tool_choice with
      | None => Some Auto
      | Some _ => tool_choice
      end
  end.

(** What a caller may pass for [structured_model]: [None], an instance
    of [BaseModel], or any other object (a class among them). *)
Inductive structured_arg : Type :=
  | NoSchema
  | SchemaInstance (o : pyobject)
  | SchemaOther (o : pyobject).

Definition _validate_structured_model (self_model_name : string)
    (structured_model : structured_arg) (model_name : string)
    : result structured_arg :=
  let model_name := or_model model_name self_model_name in
  match structured_model with
  | NoSchema => Ok NoSchema
  | _ =>
      if negb (supported model_name STRUCTURED_OUTPUT_SUPPORTED_MODELS) then
        Raise (StructuredOutputNotSupportedError self_model_name)
      else
        match structured_model with
        | SchemaInstance _ => Ok structured_model
        | _ => Raise (ValueError
                 "Structured model must be a subclass of BaseModel.")
        end
  end.

(** The fields of a [BaseLLMCallParams] instance as the validators read
    them, and those of the [ValidatedBaseLLMCallParams] they build. *)
Record CallParams : Type := {
  cp_messages : messages_arg;
  cp_model : string;
  cp_user : option string;
  cp_tools : tools_arg;
  cp_tool_choice : option tool_choice_option;
  cp_reasoning_effort : option string;
  cp_structured_model : structured_arg
}.

Record ValidatedCallParams : Type := {
  v_messages : list Message;
  v_model : string;
  v_user : option string;
  v_tools : tools_arg;
  v_tool_choice : option tool_choice_option;
  v_reasoning_effort : option string;
  v_structured_model : structured_arg
}.

Section Unpack.

(** pydantic's validation of the keyword arguments of
    [ValidatedBaseLLMCallParams]. *)
Variable validated_ok : ValidatedCallParams → bool.

(** The keyword arguments of the constructor are evaluated in the order
    in which they are written. *)
Definition _validate_and_unpack_parameters (self_model_name : string)
    (params : CallParams) (structured_model : structured_arg)
    : result ValidatedCallParams :=
  let model_name := cp_model params in
  messages ← _set_messages model_name (cp_messages params) false;
  tools ← _set_tools self_model_name (cp_tools params) model_name;
  let tool_choice := _set_tool_choice (cp_tool_choice params) (cp_tools params) in
  reasoning_effort ←
    _set_reasoning_effort self_model_name (cp_reasoning_effort params) model_name;
  structured_model ←
    _validate_structured_model self_model_name structured_model model_name;
  let validated_params :=
    {| v_messages := messages;
       v_model := model_name;
       v_user := cp_user params;
       v_tools := tools;
       v_tool_choice := tool_choice;
       v_reasoning_effort := reasoning_effort;
       v_structured_model := structured_model |} in
  if validated_ok validated_params then Ok validated_params
  else Raise ValidationError.

End Unpack.

(** Every tool of a list has the two attributes the gate asks for. *)
Definition well_formed_tools (l : list pyobject) : Prop :=
  ∀ tool, tool ∈ l →
    hasattr tool "name" = true ∧ hasattr tool "description" = true.

(** A tool entry with both attributes. *)
Definition search_tool : pyobject :=
  {| obj_repr := "<Tool search>"; obj_attrs := ["type"; "name"; "description"] |}.

(** Call parameters for ["gpt-4o"] with the sample conversation and one
    tool, and no tool choice. *)
Definition sample_params : CallParams :=
  {| cp_messages := Messages sample_conversation;
     cp_model := "gpt-4o";
     cp_user := Some "alice";
     cp_tools := ToolsList [search_tool];
     cp_tool_choice := None;
     cp_reasoning_effort := None;
     cp_structured_model := NoSchema |}.

(** ** Transport mode *)

(** The kind of a transport handle. *)
Definition is_async (t : BaseLLMClient.transport) : bool :=
  match t with
  | BaseLLMClient.OpenAI _ => false
  | BaseLLMClient.AsyncOpenAI _ => true
  end.

(** The API key a handle was built with. *)
Definition key_of (t : BaseLLMClient.transport) : string :=
  match t with
  | BaseLLMClient.OpenAI k | BaseLLMClient.AsyncOpenAI k => k
  end.

(** The mode flag of a client says what kind of handle it holds. *)
Definition consistent (self : BaseLLMClient.client) : Prop :=
  BaseLLMClient.self_use_async self = is_async (BaseLLMClient.self_client self).

(** A method that leaves the client as it is and may only add objects
    to the heap. *)
Definition keeps_client {A} (m : BaseLLMClient.M A) : Prop :=
  ∀ st, (m st).1.1 = st.1.

(** [self.messages = m] *)
Definition with_messages (m : val) (self : BaseLLMClient.client)
    : BaseLLMClient.client :=
  {| BaseLLMClient.self_model_name := BaseLLMClient.self_model_name self;
     BaseLLMClient.self_messages := m;
     BaseLLMClient.self_reasoning_effort := BaseLLMClient.self_reasoning_effort self;
     BaseLLMClient.self_tools := BaseLLMClient.self_tools self;
     BaseLLMClient.self_tool_choice := BaseLLMClient.self_tool_choice self;
     BaseLLMClient.self_user := BaseLLMClient.self_user self;
     BaseLLMClient.self_use_async := BaseLLMClient.self_use_async self;
     BaseLLMClient.self_api_key := BaseLLMClient.self_api_key self;
     BaseLLMClient.self_client := BaseLLMClient.self_client self |}.

(** ** What a call method hands back *)

(** The first choice of a response carries non-empty content. *)
Definition has_content (response : ChatCompletion) : Prop :=
  ∃ first rest text,
    choices response = first :: rest
    ∧ content_of (message first) = Some text
    ∧ text ≠ "".

(** The first choice of a response carries a parsed payload. *)
Definition has_payload (response : ChatCompletion) : Prop :=
  ∃ first rest payload,
    choices response = first :: rest
    ∧ parsed_of (message first) = Some payload.

(** The usage record built from reported counts. *)
Definition usage_record (u : CompletionUsage) (d : PromptTokensDetails)
    (lat : Q) : AIUsage :=
  {| usage_prompt_tokens := prompt_tokens u;
     usage_cached_prompt_tokens := cached_tokens d;
     usage_completion_tokens := completion_tokens u;
     usage_total_tokens := total_tokens u;
     latency := lat |}.

(** The ways in which a call method is meant to fail: the keyword
    [model_name] is missing; the shaping step raised; the failure of the
    transport or the shape of its response was turned into one of the
    two response errors; the transport raised something that is not an
    [Exception]; or the accounting of the response raised. *)
Definition expected_failure {Params Request Schema : Type}
    (shape : Params → option Schema → result Request)
    (transport : Request → result ChatCompletion)
    (track_model_cost : string → AIUsage → result AICost)
    (params : Params) (kwargs : call_kwargs) (start_time end_time : Q)
    (e : exn) : Prop :=
  (kw_model_name kwargs = None ∧ ∃ text, e = ValueError text)
  ∨ (∃ schema, shape params schema = Raise e)
  ∨ (∃ text, e = LLMResponseCompletionError text)
  ∨ (∃ text, e = LLMResponseParseError text)
  ∨ (is_Exception e = false ∧ ∃ request, transport request = Raise e)
  ∨ (∃ response model_name request_type,
       kw_model_name kwargs = Some model_name
       ∧ (∃ request, transport request = Ok response)
       ∧ process_response track_model_cost response start_time end_time
           model_name (default false (kw_return_usage kwargs))
           (default false (kw_return_cost kwargs)) request_type = Raise e).

(** ** Shaping the request ([OpenAILLMClient._prepare_params_for_provider]) *)

(** The parameters are validated and unpacked by the base class, then
    handed to [to_openai_format] of the absent
    [clients/provider_params.py], which stays a parameter here. A
    structured model that was not passed is [None]. *)
Definition _prepare_params_for_provider {Request : Type}
    (validated_ok : ValidatedCallParams → bool)
    (to_openai_format : ValidatedCallParams → result Request)
    (self_model_name : string) (base_params : CallParams)
    (structured_model : option structured_arg) : result Request :=
  validated_params ←
    _validate_and_unpack_parameters validated_ok self_model_name base_params
      (default NoSchema structured_model);
  to_openai_format validated_params.

(** Call parameters that ask a model outside the reasoning table for a
    reasoning effort. *)
Definition effort_params : CallParams :=
  {| cp_messages := Messages sample_conversation;
     cp_model := "gpt-4o";
     cp_user := None;
     cp_tools := ToolsNone;
     cp_tool_choice := None;
     cp_reasoning_effort := Some "high";
     cp_structured_model := NoSchema |}.


(** ** Reading a conversation off the heap *)

(** A message object read as the message it stands for: this ties the
    normaliser on the heap to the normaliser on values. *)

(** The role a string names. *)
Definition role_named (s : string) : option role :=
  if String.eqb s "system" then Some system
  else if String.eqb s "developer" then Some developer
  else if String.eqb s "user" then Some user
  else if String.eqb s "assistant" then Some assistant
  else None.

Definition role_name (r : role) : string :=
  match r with
  | system => "system"
  | developer => "developer"
  | user => "user"
  | assistant => "assistant"
  end.

(** The content of a message object: the [text] of a text message, the
    [image_url] and [image_detail] of an image message. *)
Definition read_content (attrs : gmap string val) : option content :=
  match attrs !! "text" with
  | Some (VStr text) => Some (Text text)
  | _ =>
      match attrs !! "image_url", attrs !! "image_detail" with
      | Some (VStr url), Some (VStr detail) => Some (Image url detail)
      | _, _ => None
      end
  end.

Definition read_message (h : heap) (v : val) : option Message :=
  match v with
  | VRef l =>
      match h !! l with
      | Some (OInstance _ attrs) =>
          match attrs !! "role" with
          | Some (VStr s) =>
              match role_named s, read_content attrs with
              | Some r, Some c => Some {| msg_role := r; msg_content := c |}
              | _, _ => None
              end
          | _ => None
          end
      | _ => None
      end
  | _ => None
  end.

Fixpoint read_messages (h : heap) (items : list val) : option (list Message) :=
  match items with
  | [] => Some []
  | v :: rest =>
      match read_message h v, read_messages h rest with
      | Some m, Some ms => Some (m :: ms)
      | _, _ => None
      end
  end.

#[global] Instance val_eq_dec : EqDecision val.
Proof. solve_decision. Defined.

(** The attributes are those of an instruction message. *)
Definition instruction_attrs (attrs : gmap string val) : bool :=
  match attrs !! "role" with
  | Some (VStr s) => String.eqb s "system" || String.eqb s "developer"
  | _ => false
  end.

(** * Properties *)

(** ** Dictionaries *)

Lemma dict_get_In {V} (k : string) (d : list (string * V)) (v : V) :
  dict_get k d = Some v → In (k, v) d.
Proof.
  induction d as [|[k' v'] d IH]; simpl; [done|].
  destruct (String.eqb k k') eqn:E.
  - apply String.eqb_eq in E. intros [= ->]. left. by subst.
  - intros H. right. by apply IH.
Qed.

(** ** Version resolver *)

(** Every definition of the table lacks the key the search loop reads. *)
Lemma definitions_lack_model_names :
  forallb (λ entry, negb (is_Ok (getitem entry.2 "model_names")))
    MODEL_DEFINITIONS = true.
Proof. vm_compute. reflexivity. Qed.

(** Whatever is not an alias makes the search loop fail on its first
    subscript: the table is not empty and its first definition has no
    ["model_names"]. *)
Lemma resolve_model_name_not_alias (inp : string) :
  dict_get inp MODEL_DEFINITIONS = None →
  resolve_model_name inp = Raise (KeyError "model_names").
Proof.
  intros H. unfold resolve_model_name. rewrite H. reflexivity.
Qed.

(** C1 (as the code behaves): the versioned id ["gpt-4o-12-17-24"] is
    not an alias and is listed under ["gpt-4o"], yet
    [resolve_model_name] does not return it: the loop subscripts each
    definition with ["model_names"], a key no definition has, and
    raises [KeyError]. An unknown name fails the same way instead of
    with [ValueError]. *)
Theorem resolve_model_name_versioned_id_KeyError :
  dict_get "gpt-4o-12-17-24" MODEL_DEFINITIONS = None
  ∧ (∃ defn, dict_get "gpt-4o" MODEL_DEFINITIONS = Some defn
       ∧ dict_get "model_ids" defn
         = Some (DList ["gpt-4o-01-15-24"; "gpt-4o-12-17-24"; "gpt-4o-01-10-24"]))
  ∧ resolve_model_name "gpt-4o-12-17-24" = Raise (KeyError "model_names")
  ∧ resolve_model_name "no-such-model" = Raise (KeyError "model_names").
Proof.
  split; [reflexivity|]. split; [eexists; split; reflexivity|].
  split; reflexivity.
Qed.

Lemma MODEL_DEFINITIONS_alias_ok : forallb alias_ok MODEL_DEFINITIONS = true.
Proof. vm_compute. reflexivity. Qed.

(** C2: for every alias [A] of the table, [resolve_model_name A]
    returns the definition's [most_recent_model]; that id is in the
    definition's list of versioned ids and its date, extracted relative
    to [A], is at least the date of every id of the list. The alias
    ["gpt-4o"] resolves to the id dated 12-17-24. *)
Theorem resolve_model_name_alias_most_recent
    (A : string) (defn : definition)
    (HA : dict_get A MODEL_DEFINITIONS = Some defn) :
  (∃ m ids,
      resolve_model_name A = Ok (DStr m)
      ∧ dict_get "most_recent_model" defn = Some (DStr m)
      ∧ dict_get "model_ids" defn = Some (DList ids)
      ∧ m ∈ ids
      ∧ ∀ v, v ∈ ids →
          date_leb (extract_date v A) (extract_date m A) = true)
  ∧ resolve_model_name "gpt-4o" = Ok (DStr "gpt-4o-12-17-24")
  ∧ extract_date "gpt-4o-12-17-24" "gpt-4o" = (2024, 12, 17)
  ∧ extract_date "gpt-4o-01-15-24" "gpt-4o" = (2024, 1, 15)
  ∧ extract_date "gpt-4o-01-10-24" "gpt-4o" = (2024, 1, 10).
Proof.
  split; [|repeat split; reflexivity].
  pose proof (dict_get_In _ _ _ HA) as Hin.
  pose proof MODEL_DEFINITIONS_alias_ok as Hall.
  rewrite forallb_forall in Hall. specialize (Hall _ Hin).
  unfold alias_ok in Hall.
  destruct (dict_get "most_recent_model" defn) as [[m| |]|] eqn:Hm; try done.
  destruct (dict_get "model_ids" defn) as [[|ids|]|] eqn:Hids; try done.
  apply andb_prop in Hall as [Hmem Hmax].
  exists m, ids. repeat split.
  - unfold resolve_model_name, getitem. rewrite HA, Hm. reflexivity.
  - by apply bool_decide_eq_true in Hmem.
  - intros v Hv. rewrite forallb_forall in Hmax.
    apply Hmax. by apply list_elem_of_In.
Qed.

Lemma resolve_model_name_alias_most_recent_witness :
  dict_get "gpt-4o" MODEL_DEFINITIONS
    = Some (mk_definition "openai"
        ["gpt-4o-01-15-24"; "gpt-4o-12-17-24"; "gpt-4o-01-10-24"]
        (pricing (5 # 2) (5 # 4) 10) "gpt-4o-12-17-24")
  ∧ ∃ m ids,
      resolve_model_name "gpt-4o" = Ok (DStr m)
      ∧ dict_get "most_recent_model"
          (mk_definition "openai"
            ["gpt-4o-01-15-24"; "gpt-4o-12-17-24"; "gpt-4o-01-10-24"]
            (pricing (5 # 2) (5 # 4) 10) "gpt-4o-12-17-24") = Some (DStr m)
      ∧ dict_get "model_ids"
          (mk_definition "openai"
            ["gpt-4o-01-15-24"; "gpt-4o-12-17-24"; "gpt-4o-01-10-24"]
            (pricing (5 # 2) (5 # 4) 10) "gpt-4o-12-17-24") = Some (DList ids)
      ∧ m ∈ ids
      ∧ ∀ v, v ∈ ids →
          date_leb (extract_date v "gpt-4o") (extract_date m "gpt-4o") = true.
Proof.
  split; [reflexivity|].
  apply (resolve_model_name_alias_most_recent "gpt-4o"). reflexivity.
Defined.

(** ** Message normaliser *)

(** C4: for every model name, an absent or empty [messages] makes
    [_set_messages] raise the no-messages error naming the model; and a
    standardized list with more than one system message, more than one
    developer message, or at least one of each, makes it raise
    [InvalidMessageError]. In each case the call raises, so no
    normalized list is returned. *)
Theorem set_messages_rejects
    (model_name : string) (messages : messages_arg) (init_call : bool) :
  (messages = NoMessages ∨ messages = Messages [] →
     _set_messages model_name messages init_call
       = Raise (MessagesNotProvidedError model_name))
  ∧ ((1 < count_role system (standardize_messages messages)
      ∨ 1 < count_role developer (standardize_messages messages)
      ∨ (1 ≤ count_role system (standardize_messages messages)
         ∧ 1 ≤ count_role developer (standardize_messages messages)))%nat →
     ∃ text, _set_messages model_name messages init_call
               = Raise (InvalidMessageError text)).
Proof.
  split.
  - intros [-> | ->]; reflexivity.
  - intros Hcount. unfold _set_messages.
    destruct (messages_falsy messages) eqn:Hfalsy.
    { exfalso. destruct messages as [|m|l]; simpl in *; try done.
      - unfold count_role in Hcount. simpl in Hcount. lia.
      - apply bool_decide_eq_true in Hfalsy. subst l.
        unfold count_role in Hcount. simpl in Hcount. lia. }
    unfold count_message_roles.
    set (sc := count_role system (standardize_messages messages)) in *.
    set (dc := count_role developer (standardize_messages messages)) in *.
    destruct (1 <? sc)%nat eqn:E1; [eauto|].
    destruct (1 <? dc)%nat eqn:E2; [eauto|].
    destruct ((1 <=? sc)%nat && (1 <=? dc)%nat) eqn:E3; [eauto|].
    exfalso.
    apply Nat.ltb_ge in E1. apply Nat.ltb_ge in E2.
    apply andb_false_iff in E3.
    destruct E3 as [E3|E3]; apply Nat.leb_gt in E3; lia.
Qed.

Lemma set_messages_rejects_witness :
  _set_messages "gpt-4o" (Messages []) false
    = Raise (MessagesNotProvidedError "gpt-4o")
  ∧ ∃ text,
      _set_messages "gpt-4o"
        (Messages [ {| msg_role := system; msg_content := Text "be brief" |};
                    {| msg_role := developer; msg_content := Text "be exact" |} ])
        false
      = Raise (InvalidMessageError text).
Proof.
  split.
  - apply (set_messages_rejects "gpt-4o" (Messages []) false). by right.
  - apply (set_messages_rejects "gpt-4o"
      (Messages [ {| msg_role := system; msg_content := Text "be brief" |};
                  {| msg_role := developer; msg_content := Text "be exact" |} ])
      false).
    right. right. vm_compute. split; lia.
Defined.

(** The three messaging-style tables are pairwise disjoint. *)
Lemma tables_disjoint (model_name : string) :
  (supported model_name DEVELOPER_MESSAGE_SUPPORTED_MODELS = true →
     supported model_name SYSTEM_MESSAGE_SUPPORTED_MODELS = false
     ∧ supported model_name ONLY_USER_MESSAGE_SUPPORTED_MODELS = false)
  ∧ (supported model_name SYSTEM_MESSAGE_SUPPORTED_MODELS = true →
     supported model_name DEVELOPER_MESSAGE_SUPPORTED_MODELS = false
     ∧ supported model_name ONLY_USER_MESSAGE_SUPPORTED_MODELS = false)
  ∧ (supported model_name ONLY_USER_MESSAGE_SUPPORTED_MODELS = true →
     supported model_name DEVELOPER_MESSAGE_SUPPORTED_MODELS = false
     ∧ supported model_name SYSTEM_MESSAGE_SUPPORTED_MODELS = false).
Proof.
  split; [|split]; intros H; apply bool_decide_eq_true in H;
    repeat (apply elem_of_cons in H; destruct H as [-> | H];
            [vm_compute; split; reflexivity|]);
    by apply elem_of_nil in H.
Qed.

Lemma count_role_cons (r : role) (m : Message) (l : list Message) :
  count_role r (m :: l)
  = ((if decide (msg_role m = r) then 1 else 0) + count_role r l)%nat.
Proof.
  unfold count_role. rewrite filter_cons.
  destruct (decide (msg_role m = r)); reflexivity.
Qed.

(** [convert_message_roles] keeps the length, the order and the content,
    leaves every message that is not an instruction message alone and
    gives the target role to the instruction messages. *)
Lemma convert_message_roles_lookup
    (l : list Message) (target : role) (model_name : string)
    (i : nat) (m : Message) :
  l !! i = Some m →
  convert_message_roles l target model_name !! i
  = Some (if is_instruction (msg_role m)
          then {| msg_role := target; msg_content := msg_content m |}
          else m).
Proof.
  intros H. unfold convert_message_roles.
  rewrite list_lookup_fmap, H. reflexivity.
Qed.

Lemma convert_message_roles_length
    (l : list Message) (target : role) (model_name : string) :
  length (convert_message_roles l target model_name) = length l.
Proof. unfold convert_message_roles. apply length_map. Qed.

Lemma count_role_lookup (l : list Message) (i : nat) (m : Message) :
  l !! i = Some m → (1 ≤ count_role (msg_role m) l)%nat.
Proof.
  revert i. induction l as [|a l IH]; intros i H; [done|].
  rewrite count_role_cons. destruct i as [|i]; simpl in H.
  - injection H as ->. rewrite decide_True by done. lia.
  - specialize (IH _ H). lia.
Qed.

(** C5: for every model and every input whose standardized list holds
    exactly one instruction message, [_set_messages] returns a list of
    the same length whose message at each position has the content of
    the input message at that position; a message that is not an
    instruction message is returned as it is; a system message gets the
    role [developer] when the model is in the developer table and not in
    the system table, [user] when the model is in the user-only table,
    and is returned as it is when the model is in the system table; a
    developer message gets the role [system] when the model is in the
    system table, [user] when the model is in the user-only table, and
    is returned as it is when the model is in the developer table. *)
Theorem set_messages_remaps_single_instruction
    (model_name : string) (messages : messages_arg) (init_call : bool)
    (Hone : (count_role system (standardize_messages messages)
             + count_role developer (standardize_messages messages) = 1)%nat) :
  ∃ out,
    _set_messages model_name messages init_call = Ok out
    ∧ length out = length (standardize_messages messages)
    ∧ ∀ i m, standardize_messages messages !! i = Some m →
        ∃ m', out !! i = Some m'
          ∧ msg_content m' = msg_content m
          ∧ (is_instruction (msg_role m) = false → m' = m)
          ∧ (msg_role m = system →
               (supported model_name DEVELOPER_MESSAGE_SUPPORTED_MODELS = true →
                supported model_name SYSTEM_MESSAGE_SUPPORTED_MODELS = false →
                msg_role m' = developer)
               ∧ (supported model_name ONLY_USER_MESSAGE_SUPPORTED_MODELS = true →
                  msg_role m' = user)
               ∧ (supported model_name SYSTEM_MESSAGE_SUPPORTED_MODELS = true →
                  m' = m))
          ∧ (msg_role m = developer →
               (supported model_name SYSTEM_MESSAGE_SUPPORTED_MODELS = true →
                msg_role m' = system)
               ∧ (supported model_name ONLY_USER_MESSAGE_SUPPORTED_MODELS = true →
                  msg_role m' = user)
               ∧ (supported model_name DEVELOPER_MESSAGE_SUPPORTED_MODELS = true →
                  m' = m)).
Proof.
  destruct (tables_disjoint model_name) as (Hdev & Hsys & Honly).
  unfold _set_messages.
  destruct (messages_falsy messages) eqn:Hfalsy.
  { exfalso. destruct messages as [|m|l]; simpl in *; try done.
    apply bool_decide_eq_true in Hfalsy. by subst l. }
  unfold count_message_roles.
  set (l := standardize_messages messages) in *.
  assert (Hcases : (count_role system l = 1 ∧ count_role developer l = 0)%nat
                   ∨ (count_role system l = 0 ∧ count_role developer l = 1)%nat)
    by lia.
  assert (Hno : ∀ r i m, count_role r l = 0%nat → l !! i = Some m →
                         msg_role m ≠ r).
  { intros r i m Hz Hi <-. pose proof (count_role_lookup _ _ _ Hi). lia. }
  destruct Hcases as [[Hs Hd] | [Hs Hd]]; rewrite Hs, Hd; simpl.
  - (* one system message *)
    destruct (supported model_name DEVELOPER_MESSAGE_SUPPORTED_MODELS) eqn:Edev.
    + destruct (Hdev eq_refl) as [Esys Eonly].
      eexists; split; [reflexivity|]. split; [apply convert_message_roles_length|].
      intros i m Hi. eexists; split; [by apply convert_message_roles_lookup|].
      pose proof (Hno developer i m Hd Hi) as Hnd.
      destruct m as [[] c]; simpl in *; repeat split; try done; congruence.
    + destruct (supported model_name ONLY_USER_MESSAGE_SUPPORTED_MODELS) eqn:Eonly.
      * destruct (Honly eq_refl) as [_ Esys].
        eexists; split; [reflexivity|]. split; [apply convert_message_roles_length|].
        intros i m Hi. eexists; split; [by apply convert_message_roles_lookup|].
        pose proof (Hno developer i m Hd Hi) as Hnd.
        destruct m as [[] c]; simpl in *; repeat split; try done; congruence.
      * eexists; split; [reflexivity|]. split; [reflexivity|].
        intros i m Hi. exists m.
        pose proof (Hno developer i m Hd Hi) as Hnd.
        repeat split; try done; congruence.
  - (* one developer message *)
    destruct (supported model_name SYSTEM_MESSAGE_SUPPORTED_MODELS) eqn:Esys.
    + destruct (Hsys eq_refl) as [Edev Eonly].
      eexists; split; [reflexivity|]. split; [apply convert_message_roles_length|].
      intros i m Hi. eexists; split; [by apply convert_message_roles_lookup|].
      pose proof (Hno system i m Hs Hi) as Hns.
      destruct m as [[] c]; simpl in *; repeat split; try done; congruence.
    + destruct (supported model_name ONLY_USER_MESSAGE_SUPPORTED_MODELS) eqn:Eonly.
      * destruct (Honly eq_refl) as [Edev _].
        eexists; split; [reflexivity|]. split; [apply convert_message_roles_length|].
        intros i m Hi. eexists; split; [by apply convert_message_roles_lookup|].
        pose proof (Hno system i m Hs Hi) as Hns.
        destruct m as [[] c]; simpl in *; repeat split; try done; congruence.
      * eexists; split; [reflexivity|]. split; [reflexivity|].
        intros i m Hi. exists m.
        pose proof (Hno system i m Hs Hi) as Hns.
        repeat split; try done; congruence.
Qed.

Lemma set_messages_remaps_single_instruction_witness :
  (count_role system (standardize_messages (Messages sample_conversation))
   + count_role developer (standardize_messages (Messages sample_conversation))
   = 1)%nat
  ∧ ∃ out,
      _set_messages "o1" (Messages sample_conversation) false = Ok out
      ∧ length out = length (standardize_messages (Messages sample_conversation))
      ∧ ∀ i m, standardize_messages (Messages sample_conversation) !! i = Some m →
          ∃ m', out !! i = Some m'
            ∧ msg_content m' = msg_content m
            ∧ (is_instruction (msg_role m) = false → m' = m)
            ∧ (msg_role m = system →
                 (supported "o1" DEVELOPER_MESSAGE_SUPPORTED_MODELS = true →
                  supported "o1" SYSTEM_MESSAGE_SUPPORTED_MODELS = false →
                  msg_role m' = developer)
                 ∧ (supported "o1" ONLY_USER_MESSAGE_SUPPORTED_MODELS = true →
                    msg_role m' = user)
                 ∧ (supported "o1" SYSTEM_MESSAGE_SUPPORTED_MODELS = true →
                    m' = m))
            ∧ (msg_role m = developer →
                 (supported "o1" SYSTEM_MESSAGE_SUPPORTED_MODELS = true →
                  msg_role m' = system)
                 ∧ (supported "o1" ONLY_USER_MESSAGE_SUPPORTED_MODELS = true →
                    msg_role m' = user)
                 ∧ (supported "o1" DEVELOPER_MESSAGE_SUPPORTED_MODELS = true →
                    m' = m)).
Proof.
  split; [reflexivity|].
  apply (set_messages_remaps_single_instruction "o1"
           (Messages sample_conversation) false).
  reflexivity.
Defined.

(** On the sample conversation: the system message becomes a developer
    message for ["o1"], a user message for ["o1-mini"], and stays as it
    is for ["gpt-4o"]. *)
Example set_messages_sample :
  _set_messages "o1" (Messages sample_conversation) false
    = Ok [ {| msg_role := developer; msg_content := Text "be brief" |};
           {| msg_role := user; msg_content := Text "hello" |} ]
  ∧ _set_messages "o1-mini" (Messages sample_conversation) false
    = Ok [ {| msg_role := user; msg_content := Text "be brief" |};
           {| msg_role := user; msg_content := Text "hello" |} ]
  ∧ _set_messages "gpt-4o" (Messages sample_conversation) false
    = Ok sample_conversation.
Proof. repeat split; vm_compute; reflexivity. Qed.

(** ** Capability gate *)

Lemma check_tools_malformed (l : list pyobject) :
  (∃ t, t ∈ l ∧ (hasattr t "name" = false ∨ hasattr t "description" = false)) →
  ∃ text, check_tools l = Raise (ValueError text).
Proof.
  induction l as [|a l IH]; intros (t & Hin & Hbad).
  - by apply elem_of_nil in Hin.
  - simpl.
    destruct (negb (hasattr a "name") || negb (hasattr a "description")) eqn:E;
      [eauto|].
    apply orb_false_iff in E as [E1 E2].
    apply negb_false_iff in E1. apply negb_false_iff in E2.
    apply elem_of_cons in Hin. destruct Hin as [-> | Hin].
    + destruct Hbad; congruence.
    + apply IH. eauto.
Qed.

(** C9 (as stated) fails: with a model outside the function-call table,
    a tools list holding an entry without a name does not raise
    [ValueError]; the membership check comes first and raises
    [ToolsNotSupportedError]. *)
Lemma set_tools_capability_check_first :
  nameless_tool ∈ [nameless_tool]
  ∧ hasattr nameless_tool "name" = false
  ∧ _set_tools "text-davinci-003" (ToolsList [nameless_tool]) "text-davinci-003"
    = Raise (ToolsNotSupportedError "text-davinci-003")
  ∧ ¬ ∃ text,
      _set_tools "text-davinci-003" (ToolsList [nameless_tool]) "text-davinci-003"
      = Raise (ValueError text).
Proof.
  split; [apply list_elem_of_singleton; reflexivity|].
  split; [reflexivity|]. split; [reflexivity|].
  intros [text H]. vm_compute in H. discriminate H.
Qed.

(** C9 (amended): for every tools list with an entry that lacks a name
    or a description, [_set_tools] raises [ValueError] when the target
    model is in the function-call table, and raises
    [ToolsNotSupportedError] naming the model when it is not. *)
Theorem set_tools_malformed
    (self_model_name model_name : string) (l : list pyobject)
    (Hbad : ∃ t, t ∈ l ∧ (hasattr t "name" = false
                          ∨ hasattr t "description" = false)) :
  (supported (or_model model_name self_model_name)
     FUNCTION_CALL_SUPPORTED_MODELS = true →
   ∃ text, _set_tools self_model_name (ToolsList l) model_name
           = Raise (ValueError text))
  ∧ (supported (or_model model_name self_model_name)
       FUNCTION_CALL_SUPPORTED_MODELS = false →
     _set_tools self_model_name (ToolsList l) model_name
     = Raise (ToolsNotSupportedError (or_model model_name self_model_name))).
Proof.
  unfold _set_tools. split; intros Hs; rewrite Hs; simpl.
  - destruct (check_tools_malformed l Hbad) as [text ->]. eauto.
  - reflexivity.
Qed.

Lemma set_tools_malformed_witness :
  (∃ t, t ∈ [nameless_tool]
        ∧ (hasattr t "name" = false ∨ hasattr t "description" = false))
  ∧ (supported (or_model "gpt-4o" "gpt-4o") FUNCTION_CALL_SUPPORTED_MODELS = true →
     ∃ text, _set_tools "gpt-4o" (ToolsList [nameless_tool]) "gpt-4o"
             = Raise (ValueError text))
  ∧ (supported (or_model "gpt-4o" "gpt-4o") FUNCTION_CALL_SUPPORTED_MODELS = false →
     _set_tools "gpt-4o" (ToolsList [nameless_tool]) "gpt-4o"
     = Raise (ToolsNotSupportedError (or_model "gpt-4o" "gpt-4o"))).
Proof.
  assert (Hbad : ∃ t, t ∈ [nameless_tool]
                 ∧ (hasattr t "name" = false ∨ hasattr t "description" = false)).
  { exists nameless_tool. split; [apply list_elem_of_singleton; reflexivity|].
    left. reflexivity. }
  split; [exact Hbad|].
  exact (set_tools_malformed "gpt-4o" "gpt-4o" [nameless_tool] Hbad).
Defined.

(** ** Usage and cost accountant *)

(** C8: for a wrapped call that names its model and returns a response:
    when neither usage nor cost is requested the wrapper returns the
    response with two [None], whatever the response reports and
    whatever the cost function does; when cost is requested and the
    response reports its token counts, the cost is that of the usage
    built from those counts, and the usage component is [None] when
    usage was not requested. *)
Theorem calculate_cost_and_usage_outcomes {Args : Type}
    (track_model_cost : string → AIUsage → result AICost)
    (func : Args → call_kwargs → result ChatCompletion)
    (iscoroutinefunction : bool) (args : Args) (kwargs : call_kwargs)
    (start_time end_time : Q) (model_name : string) (response : ChatCompletion)
    (Hmodel : kw_model_name kwargs = Some model_name)
    (Hcall : func args kwargs = Ok response) :
  (default false (kw_return_usage kwargs) = false →
   default false (kw_return_cost kwargs) = false →
   calculate_cost_and_usage track_model_cost func iscoroutinefunction
     args kwargs start_time end_time = Ok (response, None, None))
  ∧ (default false (kw_return_cost kwargs) = true →
     ∀ (u : CompletionUsage) (d : PromptTokensDetails) (cost : AICost),
       usage response = Some u →
       prompt_tokens_details u = Some d →
       track_model_cost model_name
         {| usage_prompt_tokens := prompt_tokens u;
            usage_cached_prompt_tokens := cached_tokens d;
            usage_completion_tokens := completion_tokens u;
            usage_total_tokens := total_tokens u;
            latency := (end_time - start_time)%Q |} = Ok cost →
       calculate_cost_and_usage track_model_cost func iscoroutinefunction
         args kwargs start_time end_time
       = Ok (response,
             if default false (kw_return_usage kwargs)
             then Some {| usage_prompt_tokens := prompt_tokens u;
                          usage_cached_prompt_tokens := cached_tokens d;
                          usage_completion_tokens := completion_tokens u;
                          usage_total_tokens := total_tokens u;
                          latency := (end_time - start_time)%Q |}
             else None,
             Some cost)).
Proof.
  split.
  - intros Hu Hc.
    destruct iscoroutinefunction; simpl;
      unfold async_wrapper, sync_wrapper, process_response;
      rewrite Hmodel, Hcall; simpl; rewrite Hu, Hc; reflexivity.
  - intros Hc u d cost Hus Hd Ht.
    destruct iscoroutinefunction; simpl;
      unfold async_wrapper, sync_wrapper, process_response, usage_of_response;
      rewrite Hmodel, Hcall; simpl; rewrite Hc, Hus; simpl; rewrite Hd; simpl;
      rewrite orb_true_r; simpl;
      destruct (default false (kw_return_usage kwargs)); simpl;
      rewrite Ht; reflexivity.
Qed.

Lemma calculate_cost_and_usage_outcomes_witness :
  calculate_cost_and_usage free_of_charge
    (λ (_ : unit) (_ : call_kwargs), Ok response_hello) false
    () (kwargs_for "gpt-4o" false false) 0 1
  = Ok (response_hello, None, None)
  ∧ ∃ cost,
      calculate_cost_and_usage free_of_charge
        (λ (_ : unit) (_ : call_kwargs), Ok response_hello) false
        () (kwargs_for "gpt-4o" false true) 0 1
      = Ok (response_hello, None, Some cost).
Proof.
  split.
  - apply (calculate_cost_and_usage_outcomes free_of_charge
             (λ (_ : unit) (_ : call_kwargs), Ok response_hello) false
             () (kwargs_for "gpt-4o" false false) 0 1 "gpt-4o" response_hello);
      reflexivity.
  - eexists.
    refine (proj2 (calculate_cost_and_usage_outcomes free_of_charge
             (λ (_ : unit) (_ : call_kwargs), Ok response_hello) false
             () (kwargs_for "gpt-4o" false true) 0 1 "gpt-4o" response_hello
             eq_refl eq_refl) eq_refl reported_usage {| cached_tokens := 0 |}
             _ eq_refl eq_refl _).
    reflexivity.
Defined.

(** ** Dispatcher *)

Section Dispatch.
Context {Params Request Schema : Type}.
Variable shape : Params → option Schema → result Request.
Variable create parse : Request → result ChatCompletion.
Variable track_model_cost : string → AIUsage → result AICost.

(** A transport exception caught by [except Exception] surfaces as
    [LLMResponseCompletionError] from each of the four call methods. *)
Lemma call_api_transport_failure
    (params : Params) (structured_model : Schema) (kwargs : call_kwargs)
    (model_name : string) (start_time end_time : Q)
    (r r' : Request) (e e' : exn) :
  kw_model_name kwargs = Some model_name →
  shape params None = Ok r → create r = Raise e → is_Exception e = true →
  shape params (Some structured_model) = Ok r' → parse r' = Raise e' →
  is_Exception e' = true →
  (∃ text, OpenAILLMClient._call_api_sync shape create track_model_cost
             params kwargs start_time end_time
           = Raise (LLMResponseCompletionError text))
  ∧ (∃ text, OpenAILLMClient._call_api_async shape create track_model_cost
               params kwargs start_time end_time
             = Raise (LLMResponseCompletionError text))
  ∧ (∃ text, OpenAILLMClient._call_api_structured shape parse track_model_cost
               (structured_model, params) kwargs start_time end_time
             = Raise (LLMResponseCompletionError text))
  ∧ (∃ text, OpenAILLMClient._call_api_structured_async shape parse
               track_model_cost (structured_model, params) kwargs
               start_time end_time
             = Raise (LLMResponseCompletionError text)).
Proof.
  intros Hm Hr Hc He Hr' Hp He'.
  unfold OpenAILLMClient._call_api_sync, OpenAILLMClient._call_api_async,
    OpenAILLMClient._call_api_structured,
    OpenAILLMClient._call_api_structured_async,
    calculate_cost_and_usage, sync_wrapper, async_wrapper,
    OpenAILLMClient._call_api_sync_body, OpenAILLMClient._call_api_async_body,
    OpenAILLMClient._call_api_structured_body,
    OpenAILLMClient._call_api_structured_async_body, try_except.
  rewrite Hm, Hr, Hr'. simpl. rewrite Hc, Hp, He, He'. simpl.
  repeat split; eexists; reflexivity.
Qed.

(** A response without choices, or whose first choice carries no
    content or no parsed payload, is turned into the stable error types
    by the asynchronous and the structured methods. *)
Lemma call_api_empty_response_siblings
    (params : Params) (structured_model : Schema) (kwargs : call_kwargs)
    (model_name : string) (start_time end_time : Q)
    (r r' : Request) (response response' : ChatCompletion) :
  kw_model_name kwargs = Some model_name →
  shape params None = Ok r → create r = Ok response →
  (choices response = []
   ∨ ∃ first rest, choices response = first :: rest
       ∧ str_falsy (content_of (message first)) = true) →
  shape params (Some structured_model) = Ok r' → parse r' = Ok response' →
  (choices response' = []
   ∨ ∃ first rest, choices response' = first :: rest
       ∧ parsed_of (message first) = None) →
  (∃ text, OpenAILLMClient._call_api_async shape create track_model_cost
             params kwargs start_time end_time
           = Raise (LLMResponseCompletionError text))
  ∧ (∃ text, OpenAILLMClient._call_api_structured shape parse track_model_cost
               (structured_model, params) kwargs start_time end_time
             = Raise (LLMResponseParseError text))
  ∧ (∃ text, OpenAILLMClient._call_api_structured_async shape parse
               track_model_cost (structured_model, params) kwargs
               start_time end_time
             = Raise (LLMResponseParseError text)).
Proof.
  intros Hm Hr Hc Hempty Hr' Hp Hempty'.
  unfold OpenAILLMClient._call_api_async,
    OpenAILLMClient._call_api_structured,
    OpenAILLMClient._call_api_structured_async,
    calculate_cost_and_usage, sync_wrapper, async_wrapper,
    OpenAILLMClient._call_api_async_body,
    OpenAILLMClient._call_api_structured_body,
    OpenAILLMClient._call_api_structured_async_body, try_except.
  rewrite Hm, Hr, Hr'. simpl. rewrite Hc, Hp. simpl.
  destruct Hempty as [-> | (first & rest & -> & ->)];
    destruct Hempty' as [-> | (first' & rest' & -> & ->)]; simpl;
    repeat split; eexists; reflexivity.
Qed.

(** The synchronous method does not: its two error branches interpolate
    the name [e], which is unbound there, so building the message
    raises [UnboundLocalError] before the intended error is raised. *)
Lemma call_api_sync_empty_response
    (params : Params) (kwargs : call_kwargs)
    (model_name : string) (start_time end_time : Q)
    (r : Request) (response : ChatCompletion) :
  kw_model_name kwargs = Some model_name →
  shape params None = Ok r → create r = Ok response →
  (choices response = []
   ∨ ∃ first rest, choices response = first :: rest
       ∧ str_falsy (content_of (message first)) = true) →
  OpenAILLMClient._call_api_sync shape create track_model_cost
    params kwargs start_time end_time
  = Raise (UnboundLocalError "e").
Proof.
  intros Hm Hr Hc Hempty.
  unfold OpenAILLMClient._call_api_sync, calculate_cost_and_usage,
    sync_wrapper, OpenAILLMClient._call_api_sync_body, try_except.
  rewrite Hm, Hr. simpl. rewrite Hc. simpl.
  destruct Hempty as [-> | (first & rest & -> & ->)]; reflexivity.
Qed.

End Dispatch.

(** C3 (as the code behaves): a synchronous call whose transport
    returns a response without choices, or with an empty first content,
    lets [UnboundLocalError] escape from [_call_api_sync] instead of
    [LLMResponseCompletionError]; on the same responses the
    asynchronous method raises [LLMResponseCompletionError]. *)
Theorem call_api_sync_leaks_UnboundLocalError :
  OpenAILLMClient._call_api_sync (Schema := unit)
    (λ (p : unit) _, Ok p) (λ _, Ok response_no_choices) free_of_charge
    () (kwargs_for "gpt-4o" true true) 0 1
  = Raise (UnboundLocalError "e")
  ∧ OpenAILLMClient._call_api_sync (Schema := unit)
      (λ (p : unit) _, Ok p) (λ _, Ok response_empty_content) free_of_charge
      () (kwargs_for "gpt-4o" true true) 0 1
    = Raise (UnboundLocalError "e")
  ∧ OpenAILLMClient._call_api_async (Schema := unit)
      (λ (p : unit) _, Ok p) (λ _, Ok response_no_choices) free_of_charge
      () (kwargs_for "gpt-4o" true true) 0 1
    = Raise (LLMResponseCompletionError
               "LLM returned no choices in async response").
Proof. repeat split; reflexivity. Qed.

(** ** Heap *)

Lemma as_list_ext (h ext : heap) (v : val) (xs : list val) :
  as_list h v = Some xs → as_list (h ++ ext)%list v = Some xs.
Proof.
  destruct v as [| | | |l]; simpl; try done.
  destruct (h !! l) as [o|] eqn:E; [|done].
  rewrite (lookup_app_l_Some _ _ _ _ E). done.
Qed.

Lemma as_dict_ext (h ext : heap) (v : val) (d : gmap string val) :
  as_dict h v = Some d → as_dict (h ++ ext)%list v = Some d.
Proof.
  destruct v as [| | | |l]; simpl; try done.
  destruct (h !! l) as [o|] eqn:E; [|done].
  rewrite (lookup_app_l_Some _ _ _ _ E). done.
Qed.

Lemma closed_lookup_ext (h ext : heap) (l : loc) :
  closed h (VRef l) → (h ++ ext)%list !! l = h !! l.
Proof. simpl. intros H. by apply lookup_app_l. Qed.

Lemma as_list_closed (h ext : heap) (v : val) :
  closed h v → as_list (h ++ ext)%list v = as_list h v.
Proof.
  destruct v as [| | | |l]; try done.
  intros H. simpl. by rewrite (closed_lookup_ext h ext l H).
Qed.

Lemma as_dict_closed (h ext : heap) (v : val) :
  closed h v → as_dict (h ++ ext)%list v = as_dict h v.
Proof.
  destruct v as [| | | |l]; try done.
  intros H. simpl. by rewrite (closed_lookup_ext h ext l H).
Qed.

Lemma truthy_closed (h ext : heap) (v : val) :
  closed h v → truthy (h ++ ext)%list v = truthy h v.
Proof.
  destruct v as [| | | |l]; try done.
  intros H. simpl. by rewrite (closed_lookup_ext h ext l H).
Qed.

Lemma dict_update_fresh (h : heap) (d r : gmap string val) :
  dict_update (List.length h) r (h ++ [ODict d])%list
  = (h ++ [ODict (r ∪ d)])%list.
Proof.
  unfold dict_update.
  rewrite lookup_app_r by lia. rewrite Nat.sub_diag. simpl.
  rewrite insert_app_r_alt by lia. rewrite Nat.sub_diag. reflexivity.
Qed.

(** ** Parameter merger *)

Section Merger.
Import BaseLLMClient.
Variable self : client.
Variables runtime merge_flags : gmap string val.

Lemma as_list_not_dict (h : heap) (v : val) (xs : list val) :
  as_list h v = Some xs → as_dict h v = None.
Proof.
  destruct v as [| | | |l]; simpl; try done.
  by destruct (h !! l) as [[]|].
Qed.

Lemma as_list_not_None (h : heap) (v : val) (xs : list val) :
  as_list h v = Some xs → is_None v = false.
Proof. by destruct v. Qed.

Lemma as_dict_not_None (h : heap) (v : val) (d : gmap string val) :
  as_dict h v = Some d → is_None v = false.
Proof. by destruct v. Qed.

(** One round of the loop: the field receives one value and the heap
    only grows. *)
Lemma merge_field_step (m : gmap string val) (h : heap) (field : string) :
  ∃ v ext,
    merge_field self runtime merge_flags (m, h) field
      = (<[field := v]> m, (h ++ ext)%list)
    ∧ (truthy h (default (VBool false) (merge_flags !! field)) = true →
       ∀ xs ys,
         as_list h (default_value self field) = Some xs →
         as_list h (default VNone (runtime !! field)) = Some ys →
         as_list (h ++ ext)%list v = Some (xs ++ ys)%list)
    ∧ (truthy h (default (VBool false) (merge_flags !! field)) = true →
       ∀ a b,
         as_dict h (default_value self field) = Some a →
         as_dict h (default VNone (runtime !! field)) = Some b →
         as_dict (h ++ ext)%list v = Some (b ∪ a))
    ∧ (truthy h (default (VBool false) (merge_flags !! field)) = false
       ∨ default_value self field = VNone
       ∨ default VNone (runtime !! field) = VNone
       ∨ ((as_list h (default_value self field) = None
           ∨ as_list h (default VNone (runtime !! field)) = None)
          ∧ (as_dict h (default_value self field) = None
             ∨ as_dict h (default VNone (runtime !! field)) = None)) →
       v = if is_None (default VNone (runtime !! field))
           then default_value self field
           else default VNone (runtime !! field)).
Proof.
  unfold merge_field.
  set (d := default_value self field).
  set (r := default VNone (runtime !! field)).
  set (flag := default (VBool false) (merge_flags !! field)).
  destruct (truthy h flag && negb (is_None d) && negb (is_None r)) eqn:Hc.
  - apply andb_prop in Hc as [Hc Hr]. apply andb_prop in Hc as [Hf Hd].
    apply negb_true_iff in Hd. apply negb_true_iff in Hr.
    destruct (as_list h d) as [xs|] eqn:Ld, (as_list h r) as [ys|] eqn:Lr.
    + (* both lists *)
      simpl. eexists _, [OList (xs ++ ys)%list]. split; [reflexivity|].
      rewrite (as_list_not_dict _ _ _ Ld).
      repeat split.
      * intros _ xs' ys' [= <-] [= <-]. simpl.
        rewrite lookup_app_r by lia. by rewrite Nat.sub_diag.
      * intros _ a b Ha. done.
      * intros [Hn|[Hn|[Hn|[[Hn|Hn] _]]]]; try congruence.
        -- by rewrite Hn in Hd.
        -- by rewrite Hn in Hr.
    + destruct (as_dict h d) as [a|] eqn:Dd; [destruct (as_dict h r) as [b|] eqn:Dr|].
      * simpl. rewrite dict_update_fresh.
        eexists _, [ODict (b ∪ a)]. split; [reflexivity|].
        repeat split; try done.
        -- intros _ a' b' [= <-] [= <-]. simpl.
           rewrite lookup_app_r by lia. by rewrite Nat.sub_diag.
        -- intros [Hn|[Hn|[Hn|[_ [Hn|Hn]]]]]; try congruence.
           ++ by rewrite Hn in Hd.
           ++ by rewrite Hn in Hr.
      * exists r, []. rewrite app_nil_r. split; [reflexivity|].
        repeat split; try done. intros _. by rewrite Hr.
      * exists r, []. rewrite app_nil_r. split; [reflexivity|].
        repeat split; try done. intros _. by rewrite Hr.
    + destruct (as_dict h d) as [a|] eqn:Dd; [destruct (as_dict h r) as [b|] eqn:Dr|].
      * by rewrite (as_list_not_dict _ _ _ Lr) in Dr.
      * exists r, []. rewrite app_nil_r. split; [reflexivity|].
        repeat split; try done. intros _. by rewrite Hr.
      * exists r, []. rewrite app_nil_r. split; [reflexivity|].
        repeat split; try done. intros _. by rewrite Hr.
    + destruct (as_dict h d) as [a|] eqn:Dd; [destruct (as_dict h r) as [b|] eqn:Dr|].
      * simpl. rewrite dict_update_fresh.
        eexists _, [ODict (b ∪ a)]. split; [reflexivity|].
        repeat split; try done.
        -- intros _ a' b' [= <-] [= <-]. simpl.
           rewrite lookup_app_r by lia. by rewrite Nat.sub_diag.
        -- intros [Hn|[Hn|[Hn|[_ [Hn|Hn]]]]]; try congruence.
           ++ by rewrite Hn in Hd.
           ++ by rewrite Hn in Hr.
      * exists r, []. rewrite app_nil_r. split; [reflexivity|].
        repeat split; try done. intros _. by rewrite Hr.
      * exists r, []. rewrite app_nil_r. split; [reflexivity|].
        repeat split; try done. intros _. by rewrite Hr.
  - eexists _, []. rewrite app_nil_r. split; [reflexivity|].
    apply andb_false_iff in Hc.
    rewrite andb_false_iff, !negb_false_iff in Hc.
    repeat split; try done.
    + intros Hf xs ys Ld Lr. exfalso.
      pose proof (as_list_not_None _ _ _ Ld). pose proof (as_list_not_None _ _ _ Lr).
      destruct Hc as [[Hc|Hc]|Hc]; congruence.
    + intros Hf a b Dd Dr. exfalso.
      pose proof (as_dict_not_None _ _ _ Dd). pose proof (as_dict_not_None _ _ _ Dr).
      destruct Hc as [[Hc|Hc]|Hc]; congruence.
Qed.

Lemma merge_fold_ext (fields : list string) (m : gmap string val) (h : heap) :
  ∃ ext, (foldl (merge_field self runtime merge_flags) (m, h) fields).2
         = (h ++ ext)%list.
Proof.
  revert m h. induction fields as [|f fields IH]; intros m h; cbn [foldl].
  - exists []. by rewrite app_nil_r.
  - destruct (merge_field_step m h f) as (v & ext & -> & _).
    destruct (IH (<[f := v]> m) (h ++ ext)%list) as [ext' ->].
    exists (ext ++ ext')%list. by rewrite app_assoc.
Qed.

Lemma merge_fold_other (fields : list string) (m : gmap string val) (h : heap)
    (g : string) :
  g ∉ fields →
  (foldl (merge_field self runtime merge_flags) (m, h) fields).1 !! g = m !! g.
Proof.
  revert m h. induction fields as [|f fields IH]; intros m h Hg; cbn [foldl];
    [done|].
  apply not_elem_of_cons in Hg as [Hne Hg].
  destruct (merge_field_step m h f) as (v & ext & -> & _).
  rewrite IH by done. by apply lookup_insert_ne.
Qed.

End Merger.

Lemma model_fields_NoDup : NoDup BaseLLMClient.model_fields.
Proof. apply (bool_decide_unpack _). by vm_compute. Qed.

(** What [_merge_parameters] returns is [merged_dict] passed through the
    model constructor; the client is not touched and the heap becomes
    the one [merged_dict] leaves. *)
Lemma merge_parameters_unfold
    (validates : string → heap → val → bool)
    (self : BaseLLMClient.client) (runtime merge_flags : gmap string val)
    (h : heap) :
  BaseLLMClient._merge_parameters validates runtime merge_flags (self, h)
  = ((self, (BaseLLMClient.merged_dict self runtime merge_flags h).2),
     BaseLLMClient.BaseLLMCallParams_init validates
       (BaseLLMClient.merged_dict self runtime merge_flags h).1
       (BaseLLMClient.merged_dict self runtime merge_flags h).2).
Proof.
  unfold BaseLLMClient._merge_parameters, mbind, BaseLLMClient.M_bind,
    BaseLLMClient.get_self, BaseLLMClient.get_heap. cbn [fst snd].
  destruct (BaseLLMClient.merged_dict self runtime merge_flags h) as [m h'].
  reflexivity.
Qed.

(** A constructed model holds, for each declared field, the value passed
    for it, and nothing under any other name. *)
Lemma BaseLLMCallParams_init_attributes
    (validates : string → heap → val → bool)
    (kwargs : gmap string val) (h : heap) (p : BaseLLMClient.BaseLLMCallParams) :
  BaseLLMClient.BaseLLMCallParams_init validates kwargs h = Ok p →
  ∀ name,
    BaseLLMClient.attributes p !! name
    = if bool_decide (name ∈ BaseLLMClient.model_fields)
      then kwargs !! name else None.
Proof.
  unfold BaseLLMClient.BaseLLMCallParams_init.
  destruct (forallb _ _); [|done]. intros [= <-] name. simpl.
  rewrite map_lookup_filter. simpl.
  destruct (kwargs !! name) as [x|]; simpl.
  - case_bool_decide; [rewrite option_guard_True | rewrite option_guard_False];
      done.
  - by case_bool_decide.
Qed.

(** Left-biased union of maps: on a conflict the left map wins. *)
Lemma union_override (a b : gmap string val) (k : string) :
  (b ∪ a) !! k = match b !! k with Some x => Some x | None => a !! k end.
Proof.
  rewrite lookup_union. by destruct (b !! k), (a !! k).
Qed.

(** C6: for every recognised field whose default, override and flag are
    closed in the heap, [merged] holds one value for the field, and the
    call parameters are built by the constructor from that dictionary.
    When the flag is true and default and override are both lists, the
    value is a list made of the default's elements followed by the
    override's; when both are dictionaries, it is a dictionary holding
    their union in which the override wins on a common key; in every
    other case it is the override when that is not [None] and the
    default otherwise. The default is the attribute the client stores:
    its model name, tools, tool choice, reasoning effort and user; for
    [messages] and [structured_model] it is always [None]. *)
Theorem merge_parameters_effective_value
    (validates : string → heap → val → bool)
    (self : BaseLLMClient.client) (runtime merge_flags : gmap string val)
    (h : heap) (field : string)
    (Hfield : field ∈ BaseLLMClient.model_fields)
    (Hd : closed h (BaseLLMClient.default_value self field))
    (Hr : closed h (default VNone (runtime !! field)))
    (Hf : closed h (default (VBool false) (merge_flags !! field))) :
  let d := BaseLLMClient.default_value self field in
  let r := default VNone (runtime !! field) in
  let flag := truthy h (default (VBool false) (merge_flags !! field)) in
  let merged := (BaseLLMClient.merged_dict self runtime merge_flags h).1 in
  let h' := (BaseLLMClient.merged_dict self runtime merge_flags h).2 in
  ∃ v,
    merged !! field = Some v
    ∧ BaseLLMClient._merge_parameters validates runtime merge_flags (self, h)
      = ((self, h'), BaseLLMClient.BaseLLMCallParams_init validates merged h')
    ∧ (flag = true → ∀ xs ys,
         as_list h d = Some xs → as_list h r = Some ys →
         as_list h' v = Some (xs ++ ys)%list)
    ∧ (flag = true → ∀ a b,
         as_dict h d = Some a → as_dict h r = Some b →
         as_dict h' v = Some (b ∪ a)
         ∧ ∀ k, (b ∪ a) !! k
                = match b !! k with Some x => Some x | None => a !! k end)
    ∧ (flag = false ∨ d = VNone ∨ r = VNone
       ∨ ((as_list h d = None ∨ as_list h r = None)
          ∧ (as_dict h d = None ∨ as_dict h r = None)) →
       v = if is_None r then d else r)
    ∧ (BaseLLMClient.default_value self "model"
         = VStr (BaseLLMClient.self_model_name self)
       ∧ BaseLLMClient.default_value self "tools"
         = BaseLLMClient.self_tools self
       ∧ BaseLLMClient.default_value self "tool_choice"
         = BaseLLMClient.self_tool_choice self
       ∧ BaseLLMClient.default_value self "reasoning_effort"
         = BaseLLMClient.self_reasoning_effort self
       ∧ BaseLLMClient.default_value self "user"
         = BaseLLMClient.self_user self
       ∧ BaseLLMClient.default_value self "messages" = VNone
       ∧ BaseLLMClient.default_value self "structured_model" = VNone).
Proof.
  intros d r flag merged h'.
  assert (Hmain : ∃ v ext1 ext ext3,
    merged !! field = Some v
    ∧ h' = (((h ++ ext1) ++ ext) ++ ext3)%list
    ∧ (flag = true → ∀ xs ys,
         as_list h d = Some xs → as_list h r = Some ys →
         as_list ((h ++ ext1) ++ ext)%list v = Some (xs ++ ys)%list)
    ∧ (flag = true → ∀ a b,
         as_dict h d = Some a → as_dict h r = Some b →
         as_dict ((h ++ ext1) ++ ext)%list v = Some (b ∪ a))
    ∧ (flag = false ∨ d = VNone ∨ r = VNone
       ∨ ((as_list h d = None ∨ as_list h r = None)
          ∧ (as_dict h d = None ∨ as_dict h r = None)) →
       v = if is_None r then d else r)).
  { subst merged h'. unfold BaseLLMClient.merged_dict.
    destruct (list_elem_of_split_r _ _ Hfield) as (pre & post & Hsplit & Hpost).
    rewrite Hsplit, foldl_app. cbn [foldl].
    pose proof (merge_fold_ext self runtime merge_flags pre ∅ h) as [ext1 Hext1].
    destruct (foldl (BaseLLMClient.merge_field self runtime merge_flags) (∅, h) pre)
      as [m1 h1]. cbn [snd] in Hext1. subst h1.
    destruct (merge_field_step self runtime merge_flags m1 (h ++ ext1)%list field)
      as (v & ext & Hstep & Hl & Hdc & Ho).
    rewrite Hstep.
    pose proof (merge_fold_ext self runtime merge_flags post
                  (<[field := v]> m1) ((h ++ ext1) ++ ext)%list) as [ext3 Hext3].
    pose proof (merge_fold_other self runtime merge_flags post
                  (<[field := v]> m1) ((h ++ ext1) ++ ext)%list field Hpost) as Hoth.
    destruct (foldl (BaseLLMClient.merge_field self runtime merge_flags)
                (<[field := v]> m1, ((h ++ ext1) ++ ext)%list) post) as [m3 h3].
    cbn [fst snd] in *. subst h3.
    rewrite lookup_insert_eq in Hoth.
    rewrite (truthy_closed h ext1 _ Hf) in Hl, Hdc, Ho.
    rewrite (as_list_closed h ext1 _ Hd), (as_list_closed h ext1 _ Hr) in Hl, Ho.
    rewrite (as_dict_closed h ext1 _ Hd), (as_dict_closed h ext1 _ Hr) in Hdc, Ho.
    exists v, ext1, ext, ext3. repeat split; try done.
    by apply lookup_union_Some_l. }
  destruct Hmain as (v & ext1 & ext & ext3 & Hv & Hh' & Hl & Hdc & Ho).
  exists v. split; [done|]. split.
  { apply merge_parameters_unfold. }
  split.
  { intros Hflag xs ys Hx Hy. rewrite Hh'. apply as_list_ext. by apply Hl. }
  split.
  { intros Hflag a b Ha Hb. split; [|apply union_override].
    rewrite Hh'. apply as_dict_ext. by apply Hdc. }
  split; [done|]. repeat split; reflexivity.
Qed.

Lemma merge_parameters_effective_value_witness :
  ∃ v,
    (BaseLLMClient.merged_dict tools_client override_tools merge_tools
       tools_heap).1 !! "tools" = Some v
    ∧ as_list
        (BaseLLMClient.merged_dict tools_client override_tools merge_tools
           tools_heap).2 v
      = Some [VStr "a"; VStr "b"; VStr "c"].
Proof.
  assert (Hfield : "tools" ∈ BaseLLMClient.model_fields).
  { apply (bool_decide_unpack _). vm_compute. exact I. }
  assert (Hd : closed tools_heap
                 (BaseLLMClient.default_value tools_client "tools")).
  { vm_compute. lia. }
  assert (Hr : closed tools_heap (default VNone (override_tools !! "tools"))).
  { vm_compute. lia. }
  assert (Hf : closed tools_heap
                 (default (VBool false) (merge_tools !! "tools"))).
  { vm_compute. exact I. }
  destruct (merge_parameters_effective_value accept_all tools_client
              override_tools merge_tools tools_heap "tools" Hfield Hd Hr Hf)
    as (v & Hv & _ & Hl & _).
  exists v. split; [exact Hv|].
  apply (Hl eq_refl [VStr "a"; VStr "b"] [VStr "c"]); reflexivity.
Defined.

(** The scenario of the specification: default tools [a, b], override
    [c]. With the flag set the merged tools are a new list [a, b, c]
    and the two input lists are as before; with the flag cleared they
    are the override list itself. *)
Example merge_tools_scenario :
  BaseLLMClient.merged_dict tools_client override_tools merge_tools tools_heap
  = (<["tools" := VRef 2]>
       (BaseLLMClient.merged_dict tools_client override_tools replace_tools
          tools_heap).1,
     [OList [VStr "a"; VStr "b"]; OList [VStr "c"];
      OList [VStr "a"; VStr "b"; VStr "c"]])
  ∧ (BaseLLMClient.merged_dict tools_client override_tools replace_tools
       tools_heap).1 !! "tools" = Some (VRef 1)
  ∧ (BaseLLMClient.merged_dict tools_client override_tools replace_tools
       tools_heap).2 = tools_heap.
Proof. repeat split; vm_compute; reflexivity. Qed.

(** A runtime key that is not a declared field reaches the dictionary
    [merged] with its value, and is absent from the model built from
    it. *)
Lemma merge_parameters_unrecognized_key
    (validates : string → heap → val → bool)
    (self : BaseLLMClient.client) (runtime merge_flags : gmap string val)
    (h : heap) (key : string) :
  key ∉ BaseLLMClient.model_fields →
  (BaseLLMClient.merged_dict self runtime merge_flags h).1 !! key
    = runtime !! key
  ∧ ∀ st p,
      BaseLLMClient._merge_parameters validates runtime merge_flags (self, h)
        = (st, Ok p) →
      BaseLLMClient.attributes p !! key = None.
Proof.
  intros Hkey. split.
  - unfold BaseLLMClient.merged_dict.
    pose proof (merge_fold_other self runtime merge_flags
                  BaseLLMClient.model_fields ∅ h key Hkey) as Hoth.
    destruct (foldl (BaseLLMClient.merge_field self runtime merge_flags)
                (∅, h) BaseLLMClient.model_fields) as [m h'].
    cbn [fst] in *. rewrite lookup_empty in Hoth.
    by rewrite lookup_union_r.
  - intros st p Hrun. rewrite merge_parameters_unfold in Hrun.
    injection Hrun as _ Hinit.
    rewrite (BaseLLMCallParams_init_attributes _ _ _ _ Hinit key).
    by rewrite bool_decide_eq_false_2.
Qed.

(** C7 (as the code behaves): the runtime key ["temperature"] is not a
    field of [BaseLLMCallParams]; it is copied into the dictionary
    [merged], but the parameters [_merge_parameters] returns do not
    hold it. *)
Theorem merge_parameters_drops_extra_key :
  ("temperature" ∉ BaseLLMClient.model_fields)
  ∧ extra_runtime !! "temperature" = Some (VInt 1)
  ∧ (BaseLLMClient.merged_dict tools_client extra_runtime ∅ tools_heap).1
      !! "temperature" = Some (VInt 1)
  ∧ ∃ p,
      (BaseLLMClient._merge_parameters accept_all extra_runtime ∅
         (tools_client, tools_heap)).2 = Ok p
      ∧ BaseLLMClient.attributes p !! "temperature" = None
      ∧ BaseLLMClient.getattr p "messages" = VRef 1.
Proof.
  assert (Hkey : "temperature" ∉ BaseLLMClient.model_fields).
  { apply (bool_decide_unpack _). vm_compute. exact I. }
  split; [exact Hkey|]. split; [reflexivity|].
  destruct (merge_parameters_unrecognized_key accept_all tools_client
              extra_runtime ∅ tools_heap "temperature" Hkey) as [Hm Hp].
  split; [rewrite Hm; reflexivity|].
  destruct (BaseLLMClient._merge_parameters accept_all extra_runtime ∅
              (tools_client, tools_heap)) as [st [p|e]] eqn:E.
  - exists p. split; [reflexivity|]. split; [by eapply Hp|].
    vm_compute in E. injection E as _ <-. vm_compute. reflexivity.
  - vm_compute in E. discriminate E.
Qed.

(** ** Frame of the public call methods *)

Lemma frame_refl (st : BaseLLMClient.state) : frame st st.
Proof. unfold frame. repeat split; done. Qed.




Lemma preserves_lift {A} (r : result A) : preserves (BaseLLMClient.lift r).
Proof. intros st. apply frame_refl. Qed.










(** * Further properties of the modelled code *)

(** ** Registry lookups *)

Lemma class_loop_first_KeyError (inp : string) :
  class_loop inp MODEL_DEFINITIONS = Raise (KeyError "model_names").
Proof. reflexivity. Qed.

Lemma provider_loop_first_KeyError (inp : string) :
  provider_loop inp MODEL_DEFINITIONS = Raise (KeyError "model_names").
Proof. reflexivity. Qed.

Lemma definitions_have_provider_and_recent :
  forallb (λ entry,
      match dict_get "provider" entry.2, dict_get "most_recent_model" entry.2 with
      | Some (DStr p), Some (DStr m) =>
          bool_decide (p = "openai" ∨ p = "anthropic")
      | _, _ => false
      end) MODEL_DEFINITIONS = true.
Proof. vm_compute. reflexivity. Qed.

(** X1: the three lookups of [model_mapping.py] return normally exactly
    on the aliases of the table. On an alias, [get_model_class] returns
    the alias itself, [get_provider] the definition's provider (one of
    the two providers) and [resolve_model_name] its most recent model;
    on every other input each of them raises [KeyError] on the key
    ["model_names"]. *)
Theorem registry_lookups_alias_only (inp : string) :
  match dict_get inp MODEL_DEFINITIONS with
  | Some defn =>
      get_model_class inp = Ok (DStr inp)
      ∧ (∃ p, get_provider inp = Ok (DStr p)
              ∧ dict_get "provider" defn = Some (DStr p)
              ∧ (p = "openai" ∨ p = "anthropic"))
      ∧ (∃ m, resolve_model_name inp = Ok (DStr m)
              ∧ dict_get "most_recent_model" defn = Some (DStr m))
  | None =>
      get_model_class inp = Raise (KeyError "model_names")
      ∧ get_provider inp = Raise (KeyError "model_names")
      ∧ resolve_model_name inp = Raise (KeyError "model_names")
  end.
Proof.
  unfold get_model_class, get_provider, resolve_model_name.
  destruct (dict_get inp MODEL_DEFINITIONS) as [defn|] eqn:E.
  - pose proof (dict_get_In _ _ _ E) as Hin.
    pose proof definitions_have_provider_and_recent as Hall.
    rewrite forallb_forall in Hall. specialize (Hall _ Hin). cbn [snd] in Hall.
    unfold getitem.
    destruct (dict_get "provider" defn) as [[p| |]|]; try done.
    destruct (dict_get "most_recent_model" defn) as [[m| |]|]; try done.
    apply bool_decide_eq_true in Hall.
    split; [reflexivity|]. split; eauto.
  - rewrite class_loop_first_KeyError, provider_loop_first_KeyError.
    repeat split; reflexivity.
Qed.

Lemma MODEL_DEFINITIONS_agree : forallb entry_agrees MODEL_DEFINITIONS = true.
Proof. vm_compute. reflexivity. Qed.

Lemma PROVIDER_MODEL_NAMES_known : forallb name_known PROVIDER_MODEL_NAMES = true.
Proof. vm_compute. reflexivity. Qed.

(** X2: the two provider tables agree. [PROVIDER_MODEL_NAMES] maps a
    name to a provider exactly when the name is an alias of
    [MODEL_DEFINITIONS], or one of the ids listed under an alias, whose
    definition has that provider. *)
Theorem provider_tables_agree (name provider : string) :
  dict_get name PROVIDER_MODEL_NAMES = Some provider
  ↔ ∃ alias defn,
      dict_get alias MODEL_DEFINITIONS = Some defn
      ∧ dict_get "provider" defn = Some (DStr provider)
      ∧ name ∈ names_of (alias, defn).
Proof.
  split.
  - intros H. pose proof (dict_get_In _ _ _ H) as Hin.
    pose proof PROVIDER_MODEL_NAMES_known as Hall.
    rewrite forallb_forall in Hall. specialize (Hall _ Hin).
    unfold name_known in Hall. apply existsb_exists in Hall.
    destruct Hall as ([alias defn] & Hentry & Hok).
    apply andb_prop in Hok as [Hname Hprov].
    apply bool_decide_eq_true in Hname. cbn [fst snd] in *.
    destruct (dict_get "provider" defn) as [[p| |]|] eqn:Hp; try done.
    apply String.eqb_eq in Hprov. subst p.
    exists alias, defn. repeat split; try done.
    clear -Hentry. simpl in Hentry.
    repeat (destruct Hentry as [Hentry|Hentry];
            [injection Hentry as <- <-; reflexivity|]).
    done.
  - intros (alias & defn & Hdef & Hprov & Hname).
    pose proof (dict_get_In _ _ _ Hdef) as Hin.
    pose proof MODEL_DEFINITIONS_agree as Hall.
    rewrite forallb_forall in Hall. specialize (Hall _ Hin).
    unfold entry_agrees in Hall. cbn [snd] in Hall. rewrite Hprov in Hall.
    rewrite forallb_forall in Hall.
    apply list_elem_of_In in Hname. specialize (Hall _ Hname).
    by apply bool_decide_eq_true in Hall.
Qed.

Lemma provider_tables_agree_witness :
  dict_get "gpt-4o-01-10-24" PROVIDER_MODEL_NAMES = Some "openai".
Proof.
  apply (proj2 (provider_tables_agree "gpt-4o-01-10-24" "openai")).
  eexists "gpt-4o", _. split; [reflexivity|]. split; [reflexivity|].
  apply (bool_decide_unpack _). vm_compute. exact I.
Defined.

(** ** Date extraction *)

Lemma append_cons (x : ascii) (a b : string) :
  String x a ++ b = String x (a ++ b).
Proof. reflexivity. Qed.

Lemma append_empty_r (a : string) : a ++ "" = a.
Proof. induction a as [|x a IH]; [done|]. by rewrite append_cons, IH. Qed.

Lemma drop_length_append (a s : string) :
  PyStr.drop (String.length a) (a ++ s) = s.
Proof. induction a as [|x a IH]; [done|]. by rewrite append_cons. Qed.

Lemma rev_app_rev_app (a cur acc : string) :
  String.rev_app (String.rev_app a cur) acc = String.rev_app cur (a ++ acc).
Proof.
  revert cur acc. induction a as [|x a IH]; intros cur acc; [done|].
  cbn [String.rev_app]. rewrite IH. by rewrite append_cons.
Qed.

(** Splitting runs over a piece without separator and collects it. *)
Lemma split_go_hyphen_free (a s cur : string) :
  hyphen_free a = true →
  PyStr.split_go "-" (a ++ s) cur = PyStr.split_go "-" s (String.rev_app a cur).
Proof.
  revert cur. induction a as [|x a IH]; intros cur H; [done|].
  cbn [hyphen_free] in H. apply andb_prop in H as [Hx Ha].
  rewrite append_cons. cbn [PyStr.split_go String.rev_app].
  apply negb_true_iff in Hx. rewrite Hx. by apply IH.
Qed.

Lemma split_hyphen_free_cons (a rest : string) :
  hyphen_free a = true →
  PyStr.split "-" (a ++ String "-" rest) = a :: PyStr.split "-" rest.
Proof.
  intros H. unfold PyStr.split. rewrite split_go_hyphen_free by done.
  cbn [PyStr.split_go]. rewrite Ascii.eqb_refl. f_equal.
  unfold String.rev. rewrite rev_app_rev_app. cbn [String.rev_app].
  apply append_empty_r.
Qed.

Lemma split_hyphen_free_last (a : string) :
  hyphen_free a = true → PyStr.split "-" a = [a].
Proof.
  intros H. unfold PyStr.split.
  rewrite <- (append_empty_r a) at 1. rewrite split_go_hyphen_free by done.
  cbn [PyStr.split_go]. f_equal.
  unfold String.rev. rewrite rev_app_rev_app. cbn [String.rev_app].
  apply append_empty_r.
Qed.

(** The hyphens between the alias and the suffix are stripped, and the
    stripping stops at the first character of a non-empty piece. *)
Lemma lstrip_hyphen_free (a s : string) :
  hyphen_free a = true → a ≠ "" →
  PyStr.lstrip "-" (String "-" (a ++ s)) = a ++ s.
Proof.
  intros H Hne. destruct a as [|x a]; [done|].
  cbn [hyphen_free] in H. apply andb_prop in H as [Hx _].
  apply negb_true_iff in Hx.
  cbn [PyStr.lstrip]. rewrite Ascii.eqb_refl, append_cons.
  cbn [PyStr.lstrip]. by rewrite Hx.
Qed.

(** X3: for every alias and every three pieces [a], [b], [c] of ASCII
    characters without hyphen ([a] not empty), the date extracted from
    [alias-a-b-c] relative to the alias reads [a] as the month, [b] as
    the day and [c] as the year, adding 2000 to a year below 100; when
    one of the pieces is not an integer literal the date is
    [(0, 0, 0)]. Only the length of the alias is used. *)
Theorem extract_date_three_pieces (alias a b c : string)
    (Ha : hyphen_free a = true) (Hne : a ≠ "")
    (Hb : hyphen_free b = true) (Hc : hyphen_free c = true)
    (Hascii : PyStr.is_ascii a = true ∧ PyStr.is_ascii b = true
              ∧ PyStr.is_ascii c = true) :
  extract_date (alias ++ "-" ++ a ++ "-" ++ b ++ "-" ++ c) alias
  = match PyStr.int a, PyStr.int b, PyStr.int c with
    | Some month, Some day, Some year =>
        (if year <? 100 then year + 2000 else year, month, day)
    | _, _, _ => (0, 0, 0)
    end.
Proof.
  unfold extract_date. rewrite drop_length_append.
  change ("-" ++ a ++ "-" ++ b ++ "-" ++ c)
    with (String "-" (a ++ String "-" (b ++ String "-" c))).
  rewrite lstrip_hyphen_free by done.
  rewrite split_hyphen_free_cons by done.
  rewrite split_hyphen_free_cons by done.
  rewrite split_hyphen_free_last by done.
  reflexivity.
Qed.

Lemma extract_date_three_pieces_witness :
  extract_date ("o3-mini" ++ "-" ++ "2025" ++ "-" ++ "01" ++ "-" ++ "31") "o3-mini"
  = (2031, 2025, 1).
Proof.
  rewrite (extract_date_three_pieces "o3-mini" "2025" "01" "31");
    [reflexivity | reflexivity | discriminate | reflexivity | reflexivity
    | repeat split; reflexivity].
Defined.

(** X4: for every alias and every non-empty piece [d] of ASCII
    characters without hyphen, the date extracted from [alias-d] is
    [(0, 0, 0)] unless [d] has eight characters; then it is read as a
    year of four, a month of two and a day of two characters, and is
    [(0, 0, 0)] again when one of them is not an integer literal. *)
Theorem extract_date_one_piece (alias d : string)
    (Hd : hyphen_free d = true) (Hne : d ≠ "")
    (Hascii : PyStr.is_ascii d = true) :
  extract_date (alias ++ "-" ++ d) alias
  = if (String.length d =? 8)%nat then
      match PyStr.int (PyStr.slice 0 4 d), PyStr.int (PyStr.slice 4 6 d),
            PyStr.int (PyStr.slice 6 8 d) with
      | Some year, Some month, Some day => (year, month, day)
      | _, _, _ => (0, 0, 0)
      end
    else (0, 0, 0).
Proof.
  unfold extract_date. rewrite drop_length_append.
  change ("-" ++ d) with (String "-" d).
  assert (Hstrip : PyStr.lstrip "-" (String "-" d) = d).
  { pose proof (lstrip_hyphen_free d "" Hd Hne) as H.
    by rewrite append_empty_r in H. }
  rewrite Hstrip, split_hyphen_free_last by done.
  reflexivity.
Qed.

Lemma extract_date_one_piece_witness :
  extract_date ("claude-3-opus" ++ "-" ++ "20240229") "claude-3-opus"
    = (2024, 2, 29)
  ∧ extract_date ("claude-3-opus" ++ "-" ++ "latest") "claude-3-opus"
    = (0, 0, 0).
Proof.
  split.
  - rewrite (extract_date_one_piece "claude-3-opus" "20240229");
      [reflexivity | reflexivity | discriminate | reflexivity].
  - rewrite (extract_date_one_piece "claude-3-opus" "latest");
      [reflexivity | reflexivity | discriminate | reflexivity].
Defined.

(** ** Validators *)

Lemma check_tools_Ok (l : list pyobject) :
  check_tools l = Ok () ↔ well_formed_tools l.
Proof.
  unfold well_formed_tools. induction l as [|a l IH]; simpl.
  - split; [|done]. intros _ tool H. by apply elem_of_nil in H.
  - destruct (hasattr a "name") eqn:E1, (hasattr a "description") eqn:E2; simpl.
    + rewrite IH. split.
      * intros H tool Hin. apply elem_of_cons in Hin.
        destruct Hin as [-> | Hin]; [done | by apply H].
      * intros H tool Hin. apply H. apply elem_of_cons. by right.
    + split; [done|]. intros H.
      destruct (H a) as [_ H2]; [apply elem_of_cons; by left|]. congruence.
    + split; [done|]. intros H.
      destruct (H a) as [H1 _]; [apply elem_of_cons; by left|]. congruence.
    + split; [done|]. intros H.
      destruct (H a) as [H1 _]; [apply elem_of_cons; by left|]. congruence.
Qed.

Lemma check_tools_cases (l : list pyobject) :
  check_tools l = Ok () ∨ ∃ text, check_tools l = Raise (ValueError text).
Proof.
  induction l as [|a l IH]; simpl; [by left|].
  destruct (negb (hasattr a "name") || negb (hasattr a "description")); eauto.
Qed.

(** What [_set_tools] returned is what it was given, and tools that
    are not [None] passed both checks. *)
Lemma set_tools_Ok_inv
    (self_model_name model_name : string) (tools t : tools_arg) :
  _set_tools self_model_name tools model_name = Ok t →
  t = tools
  ∧ (tools = ToolsNone
     ∨ ∃ l, tools = ToolsList l
         ∧ well_formed_tools l
         ∧ supported (or_model model_name self_model_name)
             FUNCTION_CALL_SUPPORTED_MODELS = true).
Proof.
  unfold _set_tools. destruct tools as [|l|o]; simpl.
  - intros [= <-]. eauto.
  - destruct (supported _ FUNCTION_CALL_SUPPORTED_MODELS) eqn:Es; simpl; [|done].
    destruct (check_tools l) as [[]|e] eqn:Hc; simpl; [|done].
    intros [= <-]. split; [done|]. right. exists l.
    by rewrite <- check_tools_Ok.
  - by destruct (supported _ FUNCTION_CALL_SUPPORTED_MODELS).
Qed.

(** X5: [_set_tools] returns normally exactly when the tools are [None],
    or are a list whose entries all have a name and a description while
    the target model is in the function-call table; what it returns is
    then the tools it was given. *)
Theorem set_tools_returns
    (self_model_name model_name : string) (tools t : tools_arg) :
  _set_tools self_model_name tools model_name = Ok t
  ↔ t = tools
    ∧ (tools = ToolsNone
       ∨ ∃ l, tools = ToolsList l
           ∧ well_formed_tools l
           ∧ supported (or_model model_name self_model_name)
               FUNCTION_CALL_SUPPORTED_MODELS = true).
Proof.
  unfold _set_tools.
  destruct tools as [|l|o]; simpl.
  - split; [intros [= <-]; eauto | intros [-> _]; done].
  - destruct (supported _ FUNCTION_CALL_SUPPORTED_MODELS) eqn:Es; simpl.
    + destruct (check_tools_cases l) as [Hc | [text Hc]]; rewrite Hc; simpl.
      * split.
        -- intros [= <-]. split; [done|]. right. exists l.
           by rewrite <- check_tools_Ok.
        -- by intros [-> _].
      * split; [done|].
        intros [_ [Hn | (l' & [= <-] & Hwf & _)]]; [done|].
        apply check_tools_Ok in Hwf. congruence.
    + split; [done|]. intros [_ [Hn | (l' & _ & _ & Hs)]]; done.
  - destruct (supported _ FUNCTION_CALL_SUPPORTED_MODELS); simpl;
      (split; [done|]; intros [_ [Hn | (l' & Hl & _)]]; done).
Qed.

Lemma set_tools_returns_witness :
  _set_tools "gpt-4o" (ToolsList [search_tool]) "" = Ok (ToolsList [search_tool]).
Proof.
  apply (proj2 (set_tools_returns "gpt-4o" "" (ToolsList [search_tool])
                  (ToolsList [search_tool]))).
  split; [reflexivity|]. right. exists [search_tool].
  split; [reflexivity|]. split; [|reflexivity].
  intros tool Hin. apply list_elem_of_singleton in Hin. subst tool.
  split; reflexivity.
Defined.

(** The tool choice [_set_tool_choice] settles on is [None] exactly
    when there are no tools, whatever choice was asked for; with tools
    it is the choice asked for, and ["auto"] when none was. *)
Theorem set_tool_choice_None_iff_no_tools
    (tool_choice : option tool_choice_option) (tools : tools_arg) :
  (_set_tool_choice tool_choice tools = None ↔ tools = ToolsNone)
  ∧ (tools ≠ ToolsNone →
     _set_tool_choice tool_choice tools = Some (default Auto tool_choice)).
Proof.
  destruct tools, tool_choice; simpl; repeat split; try done.
Qed.

Lemma set_tool_choice_None_iff_no_tools_witness :
  _set_tool_choice None (ToolsList [search_tool]) = Some Auto
  ∧ _set_tool_choice (Some (ToolChoice "function" (Some "search"))) ToolsNone
    = None.
Proof.
  split.
  - apply (proj2 (set_tool_choice_None_iff_no_tools None
                    (ToolsList [search_tool]))). discriminate.
  - apply (proj1 (set_tool_choice_None_iff_no_tools
                    (Some (ToolChoice "function" (Some "search"))) ToolsNone)).
    reflexivity.
Defined.

Lemma set_reasoning_effort_returns
    (self_model_name model_name : string) (effort e : option string) :
  _set_reasoning_effort self_model_name effort model_name = Ok e →
  e = effort
  ∧ (effort ≠ None →
     supported (or_model model_name self_model_name)
       REASONING_EFFORT_SUPPORTED_MODELS = true).
Proof.
  unfold _set_reasoning_effort. destruct effort as [x|]; simpl.
  - destruct (supported _ REASONING_EFFORT_SUPPORTED_MODELS); simpl; [|done].
    by intros [= <-].
  - by intros [= <-].
Qed.

Lemma validate_structured_model_returns
    (self_model_name model_name : string) (schema s : structured_arg) :
  _validate_structured_model self_model_name schema model_name = Ok s →
  s = schema
  ∧ (schema = NoSchema
     ∨ (∃ o, schema = SchemaInstance o)
       ∧ supported (or_model model_name self_model_name)
           STRUCTURED_OUTPUT_SUPPORTED_MODELS = true).
Proof.
  unfold _validate_structured_model. destruct schema as [|o|o]; simpl.
  - intros [= <-]. eauto.
  - destruct (supported _ STRUCTURED_OUTPUT_SUPPORTED_MODELS); simpl; [|done].
    intros [= <-]. eauto.
  - by destruct (supported _ STRUCTURED_OUTPUT_SUPPORTED_MODELS).
Qed.

(** X6: when [_validate_and_unpack_parameters] returns, the validated
    parameters carry the normalised messages, and the model, user,
    tools, reasoning effort and structured model it was given; the tools
    are [None] or a list of well-formed tools for a model of the
    function-call table; the tool choice is [None] exactly when the
    tools are; a reasoning effort is present only for a model of the
    reasoning table; a structured model is present only as a
    [BaseModel] instance for a model of the structured-output table. *)
Theorem validate_and_unpack_returns
    (validated_ok : ValidatedCallParams → bool) (self_model_name : string)
    (params : CallParams) (schema : structured_arg) (v : ValidatedCallParams)
    (Hret : _validate_and_unpack_parameters validated_ok self_model_name
              params schema = Ok v) :
  _set_messages (cp_model params) (cp_messages params) false = Ok (v_messages v)
  ∧ v_model v = cp_model params
  ∧ v_user v = cp_user params
  ∧ v_tools v = cp_tools params
  ∧ (v_tools v = ToolsNone
     ∨ ∃ l, v_tools v = ToolsList l
         ∧ well_formed_tools l
         ∧ supported (or_model (cp_model params) self_model_name)
             FUNCTION_CALL_SUPPORTED_MODELS = true)
  ∧ (v_tool_choice v = None ↔ v_tools v = ToolsNone)
  ∧ v_reasoning_effort v = cp_reasoning_effort params
  ∧ (v_reasoning_effort v ≠ None →
     supported (or_model (cp_model params) self_model_name)
       REASONING_EFFORT_SUPPORTED_MODELS = true)
  ∧ v_structured_model v = schema
  ∧ (schema = NoSchema
     ∨ (∃ o, schema = SchemaInstance o)
       ∧ supported (or_model (cp_model params) self_model_name)
           STRUCTURED_OUTPUT_SUPPORTED_MODELS = true)
  ∧ validated_ok v = true.
Proof.
  unfold _validate_and_unpack_parameters in Hret.
  destruct (_set_messages (cp_model params) (cp_messages params) false)
    as [msgs|e] eqn:Em; [|done].
  destruct (_set_tools self_model_name (cp_tools params) (cp_model params))
    as [t|e] eqn:Et; [|done].
  destruct (_set_reasoning_effort self_model_name (cp_reasoning_effort params)
              (cp_model params)) as [r|e] eqn:Er; [|done].
  destruct (_validate_structured_model self_model_name schema (cp_model params))
    as [s|e] eqn:Es; [|done].
  simpl in Hret.
  apply set_tools_Ok_inv in Et as [-> Htools].
  apply set_reasoning_effort_returns in Er as [-> Heffort].
  apply validate_structured_model_returns in Es as [-> Hschema].
  destruct (validated_ok _) eqn:Eok; [|done].
  injection Hret as <-. cbn.
  repeat split; try done.
  - apply set_tool_choice_None_iff_no_tools.
  - apply set_tool_choice_None_iff_no_tools.
Qed.

Lemma validate_and_unpack_returns_witness :
  ∃ v,
    _validate_and_unpack_parameters (λ _, true) "gpt-4o" sample_params NoSchema
      = Ok v
    ∧ v_tools v = ToolsList [search_tool]
    ∧ (v_tool_choice v = None ↔ v_tools v = ToolsNone)
    ∧ v_user v = Some "alice".
Proof.
  eexists. split; [reflexivity|].
  destruct (validate_and_unpack_returns (λ _, true) "gpt-4o" sample_params
              NoSchema _ eq_refl)
    as (_ & _ & Hu & Ht & _ & Hc & _).
  split; [exact Ht|]. split; [exact Hc | exact Hu].
Defined.

(** ** Transport mode *)

Section OpenAIMode.
Import BaseLLMClient.
Context {Request : Type}.
Variable environ_api_key : option string.
Variable str : heap → val → string.
Variable isinstance_BaseModel : heap → val → bool.
Variable validated_ok : heap → gmap string val → bool.
Variable to_openai_format : heap → BaseLLMCallParams → result Request.
Variable create parse : transport → Request → result ChatCompletion.
Variable track_model_cost : string → AIUsage → result AICost.
Variable clock : Q * Q.

Let P : provider :=
  OpenAIProvider.methods environ_api_key str isinstance_BaseModel validated_ok
    to_openai_format create parse track_model_cost clock.

Lemma or_str_None_Some (a : option string) (k : string) :
  OpenAIProvider.or_str a None = Some k → a = Some k ∧ k ≠ "".
Proof.
  destruct a as [s|]; simpl; [|done].
  destruct (String.eqb s "") eqn:E; [done|].
  intros [= ->]. split; [done|]. intros ->. done.
Qed.

(** [_init_client] of the OpenAI client leaves the state alone and
    either raises [APIKeyNotFoundError] or returns a handle of the
    requested kind with a non-empty key. *)
Lemma openai_init_client_outcome (use_async : bool) (kwargs : gmap string val)
    (st : state) :
  (∃ msg, _init_client P use_async kwargs st = (st, Raise (APIKeyNotFoundError msg)))
  ∨ (∃ key, key ≠ ""
       ∧ _init_client P use_async kwargs st
         = (st, Ok (if use_async then AsyncOpenAI key else OpenAI key))).
Proof.
  cbn. unfold OpenAIProvider._init_client, mbind, M_bind, get_self. cbn.
  destruct (OpenAIProvider.or_str _ None) as [k|] eqn:E.
  - right. exists k. apply or_str_None_Some in E as [_ Hk]. by split.
  - left. eexists. reflexivity.
Qed.

(** X7: [_validate_client] on the OpenAI client, asked for the mode the
    client is in, returns without touching the state and without
    looking for an API key. Asked for the other mode, it either raises
    [APIKeyNotFoundError] and leaves the state as it was, or returns
    with the flag set to the requested mode and a new handle of that
    kind whose key is not empty; every other attribute and the heap are
    as before. *)
Theorem validate_client_outcome (use_async : bool) (kwargs : gmap string val)
    (st : state) :
  (self_use_async st.1 = use_async →
     _validate_client P use_async kwargs st = (st, Ok ()))
  ∧ (self_use_async st.1 ≠ use_async →
     (∃ msg, _validate_client P use_async kwargs st
             = (st, Raise (APIKeyNotFoundError msg)))
     ∨ (∃ key, key ≠ ""
          ∧ _validate_client P use_async kwargs st
            = ((set_use_async use_async
                  (set_client (if use_async then AsyncOpenAI key else OpenAI key)
                     st.1), st.2), Ok ()))).
Proof.
  destruct st as [self h]. cbn [fst snd].
  unfold _validate_client, mbind, M_bind, get_self. cbn [fst snd].
  split.
  - intros <-. by destruct (self_use_async self).
  - intros Hne.
    destruct use_async, (self_use_async self) eqn:Eu; try done; cbn [andb negb].
    + destruct (openai_init_client_outcome true kwargs (self, h))
        as [[msg Hi] | (key & Hk & Hi)]; rewrite Hi.
      * left. eauto.
      * right. exists key. split; [done|]. reflexivity.
    + destruct (openai_init_client_outcome false kwargs (self, h))
        as [[msg Hi] | (key & Hk & Hi)]; rewrite Hi.
      * left. eauto.
      * right. exists key. split; [done|]. reflexivity.
Qed.

End OpenAIMode.

Lemma validate_client_outcome_witness :
  BaseLLMClient._validate_client canned_openai false ∅ (tools_client, tools_heap)
  = ((tools_client, tools_heap), Ok ()).
Proof.
  apply (proj1 (validate_client_outcome (Some "sk-env")
                  (λ _ _, "<object>") (λ _ _, true) (λ _ _, true)
                  (λ _ params, Ok params)
                  (canned_transport response_hello)
                  (canned_transport response_hello)
                  free_of_charge (0, 1)%Q false ∅ (tools_client, tools_heap))).
  reflexivity.
Defined.

(** ** What a public call does to the client *)

Lemma keeps_client_bind {A B} (m : BaseLLMClient.M A)
    (f : A → BaseLLMClient.M B) :
  keeps_client m → (∀ a, keeps_client (f a)) → keeps_client (m ≫= f).
Proof.
  intros Hm Hf st. unfold mbind, BaseLLMClient.M_bind.
  specialize (Hm st). destruct (m st) as [st' [a|e]]; cbn [fst] in *.
  - rewrite Hf. exact Hm.
  - exact Hm.
Qed.

Lemma keeps_client_prepare_call
    (validates : string → heap → val → bool)
    (messages : val) (kwargs : gmap string val) :
  keeps_client (BaseLLMClient.prepare_call validates messages kwargs).
Proof.
  unfold BaseLLMClient.prepare_call. apply keeps_client_bind.
  - intros st. unfold BaseLLMClient.pop_merge_flags.
    destruct (_ !! "__merge__") as [v|]; [|done].
    unfold mbind, BaseLLMClient.M_bind, BaseLLMClient.get_heap. cbn.
    by destruct (as_dict st.2 v).
  - intros flags [self h]. by rewrite merge_parameters_unfold.
Qed.

Lemma keeps_client_ret {A} (a : A) :
  keeps_client (mret a : BaseLLMClient.M A).
Proof. by intros st. Qed.

Lemma keeps_client_raise {A} (e : exn) :
  keeps_client (BaseLLMClient.raise e : BaseLLMClient.M A).
Proof. by intros st. Qed.

Lemma keeps_client_lift {A} (r : result A) :
  keeps_client (BaseLLMClient.lift r).
Proof. by intros st. Qed.

Lemma keeps_client_get_self : keeps_client BaseLLMClient.get_self.
Proof. by intros st. Qed.

Lemma keeps_client_get_heap : keeps_client BaseLLMClient.get_heap.
Proof. by intros st. Qed.

Lemma keeps_client_put_heap (h : heap) :
  keeps_client (BaseLLMClient.put_heap h).
Proof. by intros st. Qed.

(** A method built from reads and writes of the heap keeps the
    client. *)
Ltac keeps_client_steps :=
  repeat first
    [ apply keeps_client_ret | apply keeps_client_raise
    | apply keeps_client_lift | apply keeps_client_get_self
    | apply keeps_client_get_heap | apply keeps_client_put_heap
    | (apply keeps_client_bind; [|intros ?])
    | match goal with
      | |- keeps_client (if ?b then _ else _) => destruct b
      | |- keeps_client (match ?x with _ => _ end) => destruct x
      end ].

Lemma keeps_client_set_messages (model_name : string) (messages : val)
    (init_call : bool) :
  keeps_client (OnHeap._set_messages model_name messages init_call).
Proof.
  unfold OnHeap._set_messages, OnHeap.handle_no_messages,
    OnHeap.standardize_messages.
  keeps_client_steps.
Qed.

Lemma keeps_client_validate_and_unpack
    (str : heap → val → string) (isinstance_BaseModel : heap → val → bool)
    (validated_ok : heap → gmap string val → bool)
    (params : BaseLLMClient.BaseLLMCallParams) (structured_model : val) :
  keeps_client (OnHeap._validate_and_unpack_parameters str isinstance_BaseModel
                  validated_ok params structured_model).
Proof.
  unfold OnHeap._validate_and_unpack_parameters.
  apply keeps_client_bind; [apply keeps_client_get_self|]. intros self.
  destruct (BaseLLMClient.getattr params "model");
    try apply keeps_client_raise.
  apply keeps_client_bind; [apply keeps_client_set_messages|]. intros messages.
  keeps_client_steps.
Qed.

Lemma keeps_client_with_shaping {Request A : Type} (kwargs : call_kwargs)
    (shaping : BaseLLMClient.M Request) (method : result Request → result A) :
  keeps_client shaping →
  keeps_client (OpenAIProvider.with_shaping kwargs shaping method).
Proof.
  intros H st. unfold OpenAIProvider.with_shaping.
  specialize (H st). destruct (shaping st) as [st' r].
  by destruct (kw_model_name kwargs).
Qed.

Section OpenAIRun.
Import BaseLLMClient.
Context {Request : Type}.
Variable validates : string → heap → val → bool.
Variable environ_api_key : option string.
Variable str : heap → val → string.
Variable isinstance_BaseModel : heap → val → bool.
Variable validated_ok : heap → gmap string val → bool.
Variable to_openai_format : heap → BaseLLMCallParams → result Request.
Variable create parse : transport → Request → result ChatCompletion.
Variable track_model_cost : string → AIUsage → result AICost.
Variable clock : Q * Q.

Let P : provider :=
  OpenAIProvider.methods environ_api_key str isinstance_BaseModel validated_ok
    to_openai_format create parse track_model_cost clock.

Lemma keeps_client_openai_calls (m s : val) (p : BaseLLMCallParams)
    (ru rc : bool) :
  keeps_client (_call_api_sync P m p ru rc)
  ∧ keeps_client (_call_api_async P m p ru rc)
  ∧ keeps_client (_call_api_structured P m s p ru rc)
  ∧ keeps_client (_call_api_structured_async P m s p ru rc).
Proof.
  assert (Hshape : ∀ schema,
    keeps_client (OpenAIProvider._prepare_params_for_provider str
                    isinstance_BaseModel validated_ok to_openai_format p
                    schema)).
  { intros schema. unfold OpenAIProvider._prepare_params_for_provider.
    apply keeps_client_bind; [apply keeps_client_validate_and_unpack|].
    intros v. keeps_client_steps. }
  cbn. unfold OpenAIProvider._call_api_sync, OpenAIProvider._call_api_async,
    OpenAIProvider._call_api_structured,
    OpenAIProvider._call_api_structured_async.
  refine (conj _ (conj _ (conj _ _)));
    (apply keeps_client_bind; [apply keeps_client_get_self|]); intros self;
    apply keeps_client_with_shaping; apply Hshape.
Qed.

(** After [_validate_client], the rest of a public method keeps the
    client. *)
Lemma after_validate_client {A} (use_async : bool) (rest : M A) (st : state) :
  keeps_client rest →
  (∃ msg, (_validate_client P use_async ∅ ≫= λ _, rest) st
          = (st, Raise (APIKeyNotFoundError msg)))
  ∨ (self_use_async ((_validate_client P use_async ∅ ≫= λ _, rest) st).1.1
     = use_async
     ∧ (consistent st.1 →
        consistent ((_validate_client P use_async ∅ ≫= λ _, rest) st).1.1)).
Proof.
  intros Hrest. destruct st as [self h].
  unfold _validate_client, mbind, M_bind, get_self, mret, M_ret, modify_self.
  cbn [fst snd].
  destruct use_async, (self_use_async self) eqn:Eu; cbn [andb negb].
  - right. rewrite Hrest. cbn [fst]. split; [by rewrite Eu|done].
  - destruct (openai_init_client_outcome environ_api_key str
                isinstance_BaseModel validated_ok to_openai_format create parse
                track_model_cost clock true ∅ (self, h))
      as [[msg Hi] | (key & Hk & Hi)]; fold P in Hi; rewrite Hi.
    + left. eauto.
    + right. cbn. rewrite Hrest. cbn. split; [done|]. intros _. reflexivity.
  - destruct (openai_init_client_outcome environ_api_key str
                isinstance_BaseModel validated_ok to_openai_format create parse
                track_model_cost clock false ∅ (self, h))
      as [[msg Hi] | (key & Hk & Hi)]; fold P in Hi; rewrite Hi.
    + left. eauto.
    + right. cbn. rewrite Hrest. cbn. split; [done|]. intros _. reflexivity.
  - right. rewrite Hrest. cbn [fst]. split; [by rewrite Eu|done].
Qed.

(** X8: a public call on the OpenAI client either fails at once with
    [APIKeyNotFoundError], the client and the heap being as before, or
    ends, whether it returns or raises, with the client in the mode of
    the method: synchronous after [run] and [run_structured],
    asynchronous after [run_async] and [run_structured_async]; and if
    the flag told the kind of the handle before the call, it does so
    after it. *)
Theorem run_sets_mode (structured_model messages : val)
    (return_usage return_cost : bool) (kwargs : gmap string val) (st : state) :
  ((∃ msg, run validates P messages return_usage return_cost kwargs st
           = (st, Raise (APIKeyNotFoundError msg)))
   ∨ (self_use_async
        (run validates P messages return_usage return_cost kwargs st).1.1 = false
      ∧ (consistent st.1 →
         consistent
           (run validates P messages return_usage return_cost kwargs st).1.1)))
  ∧ ((∃ msg, run_async validates P messages return_usage return_cost kwargs st
             = (st, Raise (APIKeyNotFoundError msg)))
     ∨ (self_use_async
          (run_async validates P messages return_usage return_cost kwargs st).1.1
        = true
        ∧ (consistent st.1 →
           consistent
             (run_async validates P messages return_usage return_cost kwargs
                st).1.1)))
  ∧ ((∃ msg, run_structured validates P structured_model messages return_usage
               return_cost kwargs st
             = (st, Raise (APIKeyNotFoundError msg)))
     ∨ (self_use_async
          (run_structured validates P structured_model messages return_usage
             return_cost kwargs st).1.1 = false
        ∧ (consistent st.1 →
           consistent
             (run_structured validates P structured_model messages return_usage
                return_cost kwargs st).1.1)))
  ∧ ((∃ msg, run_structured_async validates P structured_model messages
               return_usage return_cost kwargs st
             = (st, Raise (APIKeyNotFoundError msg)))
     ∨ (self_use_async
          (run_structured_async validates P structured_model messages
             return_usage return_cost kwargs st).1.1 = true
        ∧ (consistent st.1 →
           consistent
             (run_structured_async validates P structured_model messages
                return_usage return_cost kwargs st).1.1))).
Proof.
  unfold run, run_async, run_structured, run_structured_async.
  refine (conj _ (conj _ (conj _ _)));
    apply after_validate_client;
    (apply keeps_client_bind; [apply keeps_client_prepare_call|]);
    intros p; apply keeps_client_openai_calls; exact VNone.
Qed.

End OpenAIRun.

Lemma run_sets_mode_witness :
  BaseLLMClient.self_use_async
    (BaseLLMClient.run_async accept_all canned_openai (VRef 1) false false
       call_kwargs_merge (tools_client, call_heap)).1.1 = true.
Proof.
  destruct (run_sets_mode accept_all (Some "sk-env")
              (λ _ _, "<object>") (λ _ _, true) (λ _ _, true)
              (λ _ params, Ok params)
              (canned_transport response_hello)
              (canned_transport response_hello)
              free_of_charge (0, 1)%Q VNone (VRef 1) false false
              call_kwargs_merge (tools_client, call_heap))
    as (_ & [[msg H] | [H _]] & _).
  - vm_compute in H. discriminate H.
  - exact H.
Defined.

(** ** What reaches the call parameters *)

(** Every known field has a value in [merged]; for a field without
    client default it is the runtime value. *)
Lemma merged_dict_field
    (self : BaseLLMClient.client) (runtime merge_flags : gmap string val)
    (h : heap) (field : string) :
  field ∈ BaseLLMClient.model_fields →
  ∃ v,
    (BaseLLMClient.merged_dict self runtime merge_flags h).1 !! field = Some v
    ∧ (BaseLLMClient.default_value self field = VNone →
       v = default VNone (runtime !! field)).
Proof.
  intros Hfield. unfold BaseLLMClient.merged_dict.
  destruct (list_elem_of_split_r _ _ Hfield) as (pre & post & Hsplit & Hpost).
  rewrite Hsplit, foldl_app. cbn [foldl].
  destruct (foldl (BaseLLMClient.merge_field self runtime merge_flags) (∅, h) pre)
    as [m1 h1].
  destruct (merge_field_step self runtime merge_flags m1 h1 field)
    as (v & ext & Hstep & _ & _ & Ho).
  rewrite Hstep.
  pose proof (merge_fold_other self runtime merge_flags post
                (<[field := v]> m1) (h1 ++ ext)%list field Hpost) as Hoth.
  destruct (foldl (BaseLLMClient.merge_field self runtime merge_flags)
              (<[field := v]> m1, (h1 ++ ext)%list) post) as [m3 h3].
  cbn [fst] in *. rewrite lookup_insert_eq in Hoth.
  exists v. split; [by apply lookup_union_Some_l|].
  intros Hd. rewrite Ho by auto. rewrite Hd.
  by destruct (default VNone (runtime !! field)).
Qed.

Lemma messages_is_field : "messages" ∈ BaseLLMClient.model_fields.
Proof. apply (bool_decide_unpack _). vm_compute. exact I. Qed.

Lemma merge_flag_not_field : "__merge__" ∉ BaseLLMClient.model_fields.
Proof. apply (bool_decide_unpack _). vm_compute. exact I. Qed.

(** X9: when the preparation shared by the four public methods returns
    call parameters, their [messages] are the messages argument of the
    call, ["__merge__"] is not among them, their attributes are exactly
    the seven declared fields, and the client is as it was. *)
Theorem prepare_call_parameters
    (validates : string → heap → val → bool)
    (messages : val) (kwargs : gmap string val)
    (st st' : BaseLLMClient.state) (p : BaseLLMClient.BaseLLMCallParams)
    (Hret : BaseLLMClient.prepare_call validates messages kwargs st
            = (st', Ok p)) :
  BaseLLMClient.getattr p "messages" = messages
  ∧ BaseLLMClient.attributes p !! "__merge__" = None
  ∧ dom (BaseLLMClient.attributes p) = list_to_set BaseLLMClient.model_fields
  ∧ st'.1 = st.1.
Proof.
  pose proof (keeps_client_prepare_call validates messages kwargs st) as Hkeep.
  rewrite Hret in Hkeep. cbn [fst] in Hkeep.
  unfold BaseLLMClient.prepare_call, mbind, BaseLLMClient.M_bind in Hret.
  destruct (BaseLLMClient.pop_merge_flags (<["messages":=messages]> kwargs) st)
    as [st1 [flags|e]] eqn:Epop; [|done].
  destruct st1 as [self h]. rewrite merge_parameters_unfold in Hret.
  injection Hret as _ Hinit.
  pose proof (BaseLLMCallParams_init_attributes _ _ _ _ Hinit) as Hattr.
  split; [|split; [|split]]; [| | |exact Hkeep].
  - unfold BaseLLMClient.getattr. rewrite Hattr.
    rewrite bool_decide_eq_true_2 by apply messages_is_field.
    destruct (merged_dict_field self
                (delete "__merge__" (<["messages":=messages]> kwargs))
                flags h "messages" messages_is_field) as (v & -> & Hv).
    rewrite Hv by reflexivity.
    rewrite lookup_delete_ne by done. by rewrite lookup_insert_eq.
  - rewrite Hattr. by rewrite bool_decide_eq_false_2 by apply merge_flag_not_field.
  - apply set_eq. intros name.
    rewrite elem_of_dom, elem_of_list_to_set, Hattr.
    case_bool_decide as Hin.
    + split; [done|]. intros _.
      destruct (merged_dict_field self
                  (delete "__merge__" (<["messages":=messages]> kwargs))
                  flags h name Hin) as (v & -> & _). eauto.
    + split; [|done]. by intros [? ?].
Qed.

Lemma prepare_call_parameters_witness :
  ∃ p,
    (BaseLLMClient.prepare_call accept_all (VRef 1) call_kwargs_merge
       (tools_client, call_heap)).2 = Ok p
    ∧ BaseLLMClient.getattr p "messages" = VRef 1
    ∧ BaseLLMClient.attributes p !! "__merge__" = None.
Proof.
  destruct (BaseLLMClient.prepare_call accept_all (VRef 1) call_kwargs_merge
              (tools_client, call_heap)) as [st' [p|e]] eqn:E.
  - exists p. split; [reflexivity|].
    destruct (prepare_call_parameters accept_all (VRef 1) call_kwargs_merge
                (tools_client, call_heap) st' p E) as (H1 & H2 & _).
    split; [exact H1 | exact H2].
  - vm_compute in E. discriminate E.
Defined.

Lemma default_value_with_messages
    (m : val) (self : BaseLLMClient.client) (field : string) :
  BaseLLMClient.default_value (with_messages m self) field
  = BaseLLMClient.default_value self field.
Proof. reflexivity. Qed.

Lemma merge_field_with_messages
    (m : val) (self : BaseLLMClient.client)
    (runtime merge_flags : gmap string val)
    (acc : gmap string val * heap) (field : string) :
  BaseLLMClient.merge_field (with_messages m self) runtime merge_flags acc field
  = BaseLLMClient.merge_field self runtime merge_flags acc field.
Proof. reflexivity. Qed.

Lemma pop_merge_flags_run (runtime_params : gmap string val)
    (self : BaseLLMClient.client) (h : heap) :
  BaseLLMClient.pop_merge_flags runtime_params (self, h)
  = ((self, h),
     match runtime_params !! "__merge__" with
     | None => Ok ∅
     | Some v =>
         match as_dict h v with
         | Some d => Ok d
         | None => Raise (AttributeError "get")
         end
     end).
Proof.
  unfold BaseLLMClient.pop_merge_flags.
  destruct (runtime_params !! "__merge__") as [v|]; [|reflexivity].
  unfold mbind, BaseLLMClient.M_bind, BaseLLMClient.get_heap. cbn [fst snd].
  by destruct (as_dict h v).
Qed.

(** X10: the messages stored on the client never reach a call: two
    clients that differ only in their stored messages get the same
    merged dictionary, the same heap and the same call parameters (or
    the same error) from the preparation of a call. *)
Theorem stored_messages_ignored
    (validates : string → heap → val → bool)
    (m messages : val) (self : BaseLLMClient.client)
    (runtime merge_flags kwargs : gmap string val) (h : heap) :
  BaseLLMClient.merged_dict (with_messages m self) runtime merge_flags h
    = BaseLLMClient.merged_dict self runtime merge_flags h
  ∧ (BaseLLMClient.prepare_call validates messages kwargs
       (with_messages m self, h)).2
    = (BaseLLMClient.prepare_call validates messages kwargs (self, h)).2
  ∧ (BaseLLMClient.prepare_call validates messages kwargs
       (with_messages m self, h)).1.2
    = (BaseLLMClient.prepare_call validates messages kwargs (self, h)).1.2.
Proof.
  assert (Hmd : ∀ rt fl,
            BaseLLMClient.merged_dict (with_messages m self) rt fl h
            = BaseLLMClient.merged_dict self rt fl h).
  { intros rt fl. unfold BaseLLMClient.merged_dict, BaseLLMClient.model_fields.
    cbn [foldl]. by rewrite !merge_field_with_messages. }
  split; [apply Hmd|].
  unfold BaseLLMClient.prepare_call, mbind, BaseLLMClient.M_bind.
  rewrite !pop_merge_flags_run.
  destruct (<["messages":=messages]> kwargs !! "__merge__") as [v|].
  - destruct (as_dict h v) as [d|]; [|done].
    rewrite !merge_parameters_unfold, Hmd. done.
  - rewrite !merge_parameters_unfold, Hmd. done.
Qed.

(** ** Accounting and dispatch *)

Section Accounting.
Variable track_model_cost : string → AIUsage → result AICost.

(** [process_response] case by case. *)
Lemma process_response_eval
    (response : ChatCompletion) (start_time end_time : Q) (model_name : string)
    (ret_usage ret_cost : bool) (request_type : string) :
  process_response track_model_cost response start_time end_time model_name
    ret_usage ret_cost request_type
  = if negb (ret_usage || ret_cost) then Ok (response, None, None)
    else
      match usage response with
      | None => Raise (AttributeError "prompt_tokens")
      | Some u =>
          match prompt_tokens_details u with
          | None => Raise (AttributeError "cached_tokens")
          | Some d =>
              let ur := usage_record u d (end_time - start_time)%Q in
              if ret_cost then
                match track_model_cost model_name ur with
                | Ok c => Ok (response, if ret_usage then Some ur else None, Some c)
                | Raise e => Raise e
                end
              else Ok (response, Some ur, None)
          end
      end.
Proof.
  unfold process_response, usage_of_response, usage_record.
  destruct ret_usage, ret_cost; cbn [negb orb]; try reflexivity;
    destruct (usage response) as [u|]; cbn; try reflexivity;
    destruct (prompt_tokens_details u) as [d|]; cbn; try reflexivity;
    destruct (track_model_cost _ _); reflexivity.
Qed.

(** X11: [process_response] returns normally exactly when neither usage
    nor cost is requested, or the response reports its usage with the
    prompt-token details and, if cost is requested, the cost function
    returns on the usage built from them. When something is requested
    and the response has no usage, or no prompt-token details, it raises
    [AttributeError]. What it returns always holds the response it was
    given. *)
Theorem process_response_returns
    (response : ChatCompletion) (start_time end_time : Q) (model_name : string)
    (ret_usage ret_cost : bool) (request_type : string) :
  (is_Ok (process_response track_model_cost response start_time end_time
            model_name ret_usage ret_cost request_type) = true
   ↔ (ret_usage = false ∧ ret_cost = false)
     ∨ ∃ u d, usage response = Some u ∧ prompt_tokens_details u = Some d
         ∧ (ret_cost = true →
            is_Ok (track_model_cost model_name
                     (usage_record u d (end_time - start_time)%Q)) = true))
  ∧ (ret_usage || ret_cost = true →
     (usage response = None
      ∨ ∃ u, usage response = Some u ∧ prompt_tokens_details u = None) →
     ∃ name,
       process_response track_model_cost response start_time end_time
         model_name ret_usage ret_cost request_type
       = Raise (AttributeError name))
  ∧ (∀ r u c,
       process_response track_model_cost response start_time end_time
         model_name ret_usage ret_cost request_type = Ok (r, u, c) →
       r = response).
Proof.
  rewrite process_response_eval.
  split; [|split].
  - destruct (negb (ret_usage || ret_cost)) eqn:En.
    + apply negb_true_iff, orb_false_iff in En as [-> ->].
      split; [intros _; by left | done].
    + apply negb_false_iff in En.
      destruct (usage response) as [u|]; cbn.
      * destruct (prompt_tokens_details u) as [d|] eqn:Ed; cbn.
        -- destruct ret_cost.
           ++ destruct (track_model_cost model_name _) as [c|e] eqn:Et; cbn.
              ** split; [|done]. intros _. right. exists u, d.
                 split; [done|]. split; [done|]. intros _.
                 by rewrite Et.
              ** split; [done|].
                 intros [[_ Hc] | (u' & d' & [= <-] & Hd' & Hc)]; [done|].
                 rewrite Ed in Hd'. injection Hd' as <-.
                 specialize (Hc eq_refl). by rewrite Et in Hc.
           ++ split; [|done]. intros _. right. exists u, d.
              split; [done|]. split; done.
        -- split; [done|].
           intros [[-> ->] | (u' & d' & [= <-] & Hd & _)]; [done|].
           by rewrite Ed in Hd.
      * split; [done|].
        intros [[-> ->] | (u' & d' & Hu & _)]; done.
  - intros Hreq Hmiss. rewrite Hreq. cbn [negb].
    destruct Hmiss as [-> | (u & -> & ->)]; eauto.
  - intros r u c.
    destruct (negb (ret_usage || ret_cost)); [by intros [= <- _ _]|].
    destruct (usage response) as [u0|]; [|done].
    destruct (prompt_tokens_details u0) as [d|]; [|done]. cbn.
    destruct ret_cost; [|by intros [= <- _ _]].
    destruct (track_model_cost model_name _); [|done]. by intros [= <- _ _].
Qed.

End Accounting.

Lemma process_response_returns_witness :
  ∃ name,
    process_response free_of_charge
      {| choices := []; usage := None |} 0 1 "gpt-4o" true false "sync"
    = Raise (AttributeError name).
Proof.
  apply (proj1 (proj2 (process_response_returns free_of_charge
                  {| choices := []; usage := None |} 0 1 "gpt-4o" true false
                  "sync"))); [reflexivity|]. by left.
Defined.

Lemma process_response_response
    (track_model_cost : string → AIUsage → result AICost)
    (response : ChatCompletion) (start_time end_time : Q) (model_name : string)
    (ret_usage ret_cost : bool) (request_type : string)
    (r : ChatCompletion) (u : option AIUsage) (c : option AICost) :
  process_response track_model_cost response start_time end_time model_name
    ret_usage ret_cost request_type = Ok (r, u, c) →
  r = response.
Proof.
  rewrite process_response_eval.
  destruct (negb (ret_usage || ret_cost)); [by intros [= <- _ _]|].
  destruct (usage response) as [u0|]; [|done].
  destruct (prompt_tokens_details u0) as [d|]; [|done]. cbn.
  destruct ret_cost; [|by intros [= <- _ _]].
  destruct (track_model_cost model_name _); [|done]. by intros [= <- _ _].
Qed.

(** A decorated function: what the wrapper returns or raises, in terms
    of the wrapped function. *)
Lemma calculate_cost_and_usage_eval {Args : Type}
    (track_model_cost : string → AIUsage → result AICost)
    (func : Args → call_kwargs → result ChatCompletion)
    (iscoroutinefunction : bool) (args : Args) (kwargs : call_kwargs)
    (start_time end_time : Q) :
  calculate_cost_and_usage track_model_cost func iscoroutinefunction args
    kwargs start_time end_time
  = match kw_model_name kwargs with
    | None => Raise (ValueError
        "The decorated function must be called with a 'model_name' keyword argument.")
    | Some model_name =>
        match func args kwargs with
        | Ok response =>
            process_response track_model_cost response start_time end_time
              model_name (default false (kw_return_usage kwargs))
              (default false (kw_return_cost kwargs))
              (if iscoroutinefunction then "async" else "sync")
        | Raise e => Raise e
        end
    end.
Proof.
  destruct iscoroutinefunction; cbn; unfold async_wrapper, sync_wrapper;
    destruct (kw_model_name kwargs); try reflexivity;
    destruct (func args kwargs); reflexivity.
Qed.

Lemma str_falsy_false (s : option string) :
  str_falsy s = false → ∃ text, s = Some text ∧ text ≠ "".
Proof.
  destruct s as [[|a t]|]; try done. intros _. eexists. split; [done|done].
Qed.

Section CallOutcome.
Context {Params Request Schema : Type}.
Variable shape : Params → option Schema → result Request.
Variable create parse : Request → result ChatCompletion.
Variable track_model_cost : string → AIUsage → result AICost.

(** The four bodies, as far as a normal return goes. *)
Lemma call_bodies_return (params : Params) (structured_model : Schema)
    (kwargs : call_kwargs) (r : ChatCompletion) :
  (OpenAILLMClient._call_api_sync_body shape create params kwargs = Ok r →
     has_content r ∧ ∃ request, shape params None = Ok request
                                ∧ create request = Ok r)
  ∧ (OpenAILLMClient._call_api_async_body shape create params kwargs = Ok r →
     has_content r ∧ ∃ request, shape params None = Ok request
                                ∧ create request = Ok r)
  ∧ (OpenAILLMClient._call_api_structured_body shape parse
       (structured_model, params) kwargs = Ok r →
     has_payload r ∧ ∃ request, shape params (Some structured_model) = Ok request
                                ∧ parse request = Ok r)
  ∧ (OpenAILLMClient._call_api_structured_async_body shape parse
       (structured_model, params) kwargs = Ok r →
     has_payload r ∧ ∃ request, shape params (Some structured_model) = Ok request
                                ∧ parse request = Ok r).
Proof.
  unfold OpenAILLMClient._call_api_sync_body,
    OpenAILLMClient._call_api_async_body,
    OpenAILLMClient._call_api_structured_body,
    OpenAILLMClient._call_api_structured_async_body, try_except,
    has_content, has_payload.
  refine (conj _ (conj _ (conj _ _)));
    (destruct (shape params _) as [request|e]; cbn; [|done]);
    [ destruct (create request) as [resp|e] eqn:Ec; cbn
    | destruct (create request) as [resp|e] eqn:Ec; cbn
    | destruct (parse request) as [resp|e] eqn:Ec; cbn
    | destruct (parse request) as [resp|e] eqn:Ec; cbn ];
    try (destruct (is_Exception e); done);
    (destruct (choices resp) as [|first rest] eqn:Ech; cbn; [done|]).
  - destruct (str_falsy _) eqn:Es; cbn; [done|]. intros [= <-].
    apply str_falsy_false in Es as (text & Ht & Hne). split; eauto 10.
  - destruct (str_falsy _) eqn:Es; cbn; [done|]. intros [= <-].
    apply str_falsy_false in Es as (text & Ht & Hne). split; eauto 10.
  - destruct (parsed_of (message first)) as [x|] eqn:Ep; cbn; [|done].
    intros [= <-]. split; eauto 10.
  - destruct (parsed_of (message first)) as [x|] eqn:Ep; cbn; [|done].
    intros [= <-]. split; eauto 10.
Qed.

(** X12: whenever one of the four call methods of the OpenAI client
    returns, the response it returns is the one the transport gave for
    the shaped request, it has at least one choice, and the first
    choice carries non-empty content (for the plain methods) or a
    parsed payload (for the structured ones). *)
Theorem call_api_returns (params : Params) (structured_model : Schema)
    (kwargs : call_kwargs) (start_time end_time : Q)
    (r : ChatCompletion) (u : option AIUsage) (c : option AICost) :
  (OpenAILLMClient._call_api_sync shape create track_model_cost params kwargs
     start_time end_time = Ok (r, u, c) →
   has_content r ∧ ∃ request, shape params None = Ok request
                              ∧ create request = Ok r)
  ∧ (OpenAILLMClient._call_api_async shape create track_model_cost params
       kwargs start_time end_time = Ok (r, u, c) →
     has_content r ∧ ∃ request, shape params None = Ok request
                                ∧ create request = Ok r)
  ∧ (OpenAILLMClient._call_api_structured shape parse track_model_cost
       (structured_model, params) kwargs start_time end_time = Ok (r, u, c) →
     has_payload r ∧ ∃ request, shape params (Some structured_model) = Ok request
                                ∧ parse request = Ok r)
  ∧ (OpenAILLMClient._call_api_structured_async shape parse track_model_cost
       (structured_model, params) kwargs start_time end_time = Ok (r, u, c) →
     has_payload r ∧ ∃ request, shape params (Some structured_model) = Ok request
                                ∧ parse request = Ok r).
Proof.
  destruct (call_bodies_return params structured_model kwargs r)
    as (H1 & H2 & H3 & H4).
  unfold OpenAILLMClient._call_api_sync, OpenAILLMClient._call_api_async,
    OpenAILLMClient._call_api_structured,
    OpenAILLMClient._call_api_structured_async.
  rewrite !calculate_cost_and_usage_eval.
  destruct (kw_model_name kwargs) as [model_name|]; [|done].
  refine (conj _ (conj _ (conj _ _))); intros Hret.
  - destruct (OpenAILLMClient._call_api_sync_body _ _ _ _) as [resp|e]; [|done].
    apply process_response_response in Hret as ->. by apply H1.
  - destruct (OpenAILLMClient._call_api_async_body _ _ _ _) as [resp|e]; [|done].
    apply process_response_response in Hret as ->. by apply H2.
  - destruct (OpenAILLMClient._call_api_structured_body _ _ _ _) as [resp|e];
      [|done].
    apply process_response_response in Hret as ->. by apply H3.
  - destruct (OpenAILLMClient._call_api_structured_async_body _ _ _ _)
      as [resp|e]; [|done].
    apply process_response_response in Hret as ->. by apply H4.
Qed.

End CallOutcome.

Lemma call_api_returns_witness :
  has_content response_hello
  ∧ ∃ request,
      (λ (p : unit) (_ : option unit), Ok p) () None = Ok request
      ∧ (λ _ : unit, Ok response_hello) request = Ok response_hello.
Proof.
  apply (proj1 (call_api_returns (Schema := unit)
                  (λ (p : unit) _, Ok p) (λ _, Ok response_hello)
                  (λ _, Ok response_hello) free_of_charge () ()
                  (kwargs_for "gpt-4o" false false) 0 1
                  response_hello None None)).
  reflexivity.
Defined.

Section CallFailure.
Context {Params Request Schema : Type}.
Variable shape : Params → option Schema → result Request.
Variable create parse : Request → result ChatCompletion.
Variable track_model_cost : string → AIUsage → result AICost.

(** What the handler around the transport lets through. *)
Lemma try_except_Raise {A} (body : result A) (text : string) (e : exn) :
  try_except body (λ _, Raise (LLMResponseCompletionError text)) = Raise e →
  e = LLMResponseCompletionError text
  ∨ (is_Exception e = false ∧ body = Raise e).
Proof.
  unfold try_except. destruct body as [a'|e']; [done|].
  destruct (is_Exception e') eqn:E.
  - intros [= <-]. by left.
  - intros [= <-]. by right.
Qed.

(** The three bodies that read no unbound name. *)
Lemma call_bodies_raise (params : Params) (structured_model : Schema)
    (kwargs : call_kwargs) (start_time end_time : Q) (e : exn) :
  (OpenAILLMClient._call_api_async_body shape create params kwargs = Raise e →
     expected_failure shape create track_model_cost params kwargs
       start_time end_time e)
  ∧ (OpenAILLMClient._call_api_structured_body shape parse
       (structured_model, params) kwargs = Raise e →
     expected_failure shape parse track_model_cost params kwargs
       start_time end_time e)
  ∧ (OpenAILLMClient._call_api_structured_async_body shape parse
       (structured_model, params) kwargs = Raise e →
     expected_failure shape parse track_model_cost params kwargs
       start_time end_time e).
Proof.
  unfold OpenAILLMClient._call_api_async_body,
    OpenAILLMClient._call_api_structured_body,
    OpenAILLMClient._call_api_structured_async_body, expected_failure.
  refine (conj _ (conj _ _)).
  - destruct (shape params _) as [request|e0] eqn:Es; cbn;
      [|intros [= <-]; right; left; eauto].
    destruct (try_except _ _) as [resp|e1] eqn:Et; cbn.
    + destruct (choices resp) as [|first rest]; cbn;
        [intros [= <-]; eauto 10|].
      destruct (str_falsy _); cbn; [|done]. intros [= <-]. eauto 10.
    + intros [= <-]. apply try_except_Raise in Et.
      destruct Et as [->|[Hn Hb]]; eauto 10.
  - destruct (shape params _) as [request|e0] eqn:Es; cbn;
      [|intros [= <-]; right; left; eauto].
    destruct (try_except _ _) as [resp|e1] eqn:Et; cbn.
    + destruct (choices resp) as [|first rest]; cbn;
        [intros [= <-]; eauto 10|].
      destruct (payload_truthy _); cbn; [done|]. intros [= <-]. eauto 10.
    + intros [= <-]. apply try_except_Raise in Et.
      destruct Et as [->|[Hn Hb]]; eauto 10.
  - destruct (shape params _) as [request|e0] eqn:Es; cbn;
      [|intros [= <-]; right; left; eauto].
    destruct (try_except _ _) as [resp|e1] eqn:Et; cbn.
    + destruct (choices resp) as [|first rest]; cbn;
        [intros [= <-]; eauto 10|].
      destruct (payload_truthy _); cbn; [done|]. intros [= <-]. eauto 10.
    + intros [= <-]. apply try_except_Raise in Et.
      destruct Et as [->|[Hn Hb]]; eauto 10.
Qed.

(** The synchronous body reads the unbound name [e] on an empty
    response, which adds one failure to the expected ones. *)
Lemma call_sync_body_raise (params : Params) (kwargs : call_kwargs)
    (start_time end_time : Q) (e : exn) :
  OpenAILLMClient._call_api_sync_body shape create params kwargs = Raise e →
  expected_failure shape create track_model_cost params kwargs
    start_time end_time e
  ∨ e = UnboundLocalError "e".
Proof.
  unfold OpenAILLMClient._call_api_sync_body, expected_failure.
  destruct (shape params _) as [request|e0] eqn:Es; cbn;
    [|intros [= <-]; left; right; left; eauto].
  destruct (try_except _ _) as [resp|e1] eqn:Et; cbn.
  - destruct (choices resp) as [|first rest]; cbn;
      [intros [= <-]; by right|].
    destruct (str_falsy _); cbn; [|done]. intros [= <-]. by right.
  - intros [= <-]. left. unfold try_except in Et.
    destruct (create request) as [a|e'] eqn:Ec; [done|].
    destruct (is_Exception e') eqn:E.
    + injection Et as <-. eauto 10.
    + injection Et as <-. eauto 10.
Qed.

(** X13: every exception that leaves one of the four call methods of
    the OpenAI client is of an expected kind: the [ValueError] of a
    missing [model_name] keyword, an exception of the shaping step, one
    of the two response errors, an exception of the transport that is
    not an [Exception], or an exception of the accounting of a response
    that the transport returned; the synchronous method alone can also
    raise [UnboundLocalError] for the name [e]. *)
Theorem call_api_failures (params : Params) (structured_model : Schema)
    (kwargs : call_kwargs) (start_time end_time : Q) (e : exn) :
  (OpenAILLMClient._call_api_sync shape create track_model_cost params kwargs
     start_time end_time = Raise e →
   expected_failure shape create track_model_cost params kwargs
     start_time end_time e
   ∨ e = UnboundLocalError "e")
  ∧ (OpenAILLMClient._call_api_async shape create track_model_cost params
       kwargs start_time end_time = Raise e →
     expected_failure shape create track_model_cost params kwargs
       start_time end_time e)
  ∧ (OpenAILLMClient._call_api_structured shape parse track_model_cost
       (structured_model, params) kwargs start_time end_time = Raise e →
     expected_failure shape parse track_model_cost params kwargs
       start_time end_time e)
  ∧ (OpenAILLMClient._call_api_structured_async shape parse track_model_cost
       (structured_model, params) kwargs start_time end_time = Raise e →
     expected_failure shape parse track_model_cost params kwargs
       start_time end_time e).
Proof.
  destruct (call_bodies_raise params structured_model kwargs start_time
              end_time e) as (H2 & H3 & H4).
  pose proof (call_sync_body_raise params kwargs start_time end_time e) as H1.
  unfold OpenAILLMClient._call_api_sync, OpenAILLMClient._call_api_async,
    OpenAILLMClient._call_api_structured,
    OpenAILLMClient._call_api_structured_async.
  rewrite !calculate_cost_and_usage_eval.
  destruct (kw_model_name kwargs) as [model_name|] eqn:Ek.
  2: { unfold expected_failure. rewrite Ek.
       refine (conj _ (conj _ (conj _ _))); intros [= <-]; eauto 10. }
  refine (conj _ (conj _ (conj _ _))); intros Hret.
  - destruct (OpenAILLMClient._call_api_sync_body _ _ _ _) as [resp|e'] eqn:Eb.
    + left. destruct (call_bodies_return shape create parse params
                        structured_model kwargs resp)
        as ((_ & request & _ & Hc) & _); [done|].
      unfold expected_failure. rewrite Ek. do 5 right.
      exists resp, model_name, "sync". eauto.
    + injection Hret as ->. by apply H1.
  - destruct (OpenAILLMClient._call_api_async_body _ _ _ _) as [resp|e'] eqn:Eb.
    + destruct (call_bodies_return shape create parse params
                  structured_model kwargs resp)
        as (_ & (_ & request & _ & Hc) & _); [done|].
      unfold expected_failure. rewrite Ek. do 5 right.
      exists resp, model_name, "async". eauto.
    + injection Hret as ->. by apply H2.
  - destruct (OpenAILLMClient._call_api_structured_body _ _ _ _)
      as [resp|e'] eqn:Eb.
    + destruct (call_bodies_return shape create parse params
                  structured_model kwargs resp)
        as (_ & _ & (_ & request & _ & Hc) & _); [done|].
      unfold expected_failure. rewrite Ek. do 5 right.
      exists resp, model_name, "sync". eauto.
    + injection Hret as ->. by apply H3.
  - destruct (OpenAILLMClient._call_api_structured_async_body _ _ _ _)
      as [resp|e'] eqn:Eb.
    + destruct (call_bodies_return shape create parse params
                  structured_model kwargs resp)
        as (_ & _ & _ & (_ & request & _ & Hc)); [done|].
      unfold expected_failure. rewrite Ek. do 5 right.
      exists resp, model_name, "async". eauto.
    + injection Hret as ->. by apply H4.
Qed.

End CallFailure.

Lemma call_api_failures_witness :
  expected_failure (Schema := unit) (λ (p : unit) _, Ok p)
    (λ _, Ok response_no_choices) free_of_charge ()
    (kwargs_for "gpt-4o" false false) 0 1
    (LLMResponseCompletionError "LLM returned no choices in async response").
Proof.
  apply (proj1 (proj2 (call_api_failures (Schema := unit)
                  (λ (p : unit) _, Ok p) (λ _, Ok response_no_choices)
                  (λ _, Ok response_no_choices) free_of_charge () ()
                  (kwargs_for "gpt-4o" false false) 0 1
                  (LLMResponseCompletionError
                     "LLM returned no choices in async response")))).
  reflexivity.
Defined.

(** ** Validation before the call *)

Lemma validate_and_unpack_rejects_other
    (validated_ok : ValidatedCallParams → bool) (self_model_name : string)
    (params : CallParams) (o : pyobject) :
  ∃ e, _validate_and_unpack_parameters validated_ok self_model_name params
         (SchemaOther o) = Raise e.
Proof.
  unfold _validate_and_unpack_parameters.
  destruct (_set_messages _ _ _) as [msgs|e]; cbn; [|eauto].
  destruct (_set_tools _ _ _) as [t|e]; cbn; [|eauto].
  destruct (_set_reasoning_effort _ _ _) as [r|e]; cbn; [|eauto].
  unfold _validate_structured_model.
  destruct (supported _ STRUCTURED_OUTPUT_SUPPORTED_MODELS); cbn; eauto.
Qed.

Section ValidateFirst.
Context {Request : Type}.
Variable validated_ok : ValidatedCallParams → bool.
Variable to_openai_format : ValidatedCallParams → result Request.
Variable self_model_name : string.
Variable create parse : Request → result ChatCompletion.
Variable track_model_cost : string → AIUsage → result AICost.

Let shape : CallParams → option structured_arg → result Request :=
  _prepare_params_for_provider validated_ok to_openai_format self_model_name.

(** X14: the four call methods of the OpenAI client validate before
    they call. When the keyword [model_name] is given and
    [_validate_and_unpack_parameters] rejects the parameters, each
    method raises that very exception, whatever the SDK would have
    answered; and a structured method that is passed a schema which is
    not a [BaseModel] instance never returns. *)
Theorem call_api_validates_first (params : CallParams)
    (kwargs : call_kwargs) (start_time end_time : Q)
    (Hname : kw_model_name kwargs ≠ None) :
  (∀ e,
     _validate_and_unpack_parameters validated_ok self_model_name params
       NoSchema = Raise e →
     OpenAILLMClient._call_api_sync shape create track_model_cost params
       kwargs start_time end_time = Raise e
     ∧ OpenAILLMClient._call_api_async shape create track_model_cost params
         kwargs start_time end_time = Raise e)
  ∧ (∀ schema e,
       _validate_and_unpack_parameters validated_ok self_model_name params
         schema = Raise e →
       OpenAILLMClient._call_api_structured shape parse track_model_cost
         (schema, params) kwargs start_time end_time = Raise e
       ∧ OpenAILLMClient._call_api_structured_async shape parse
           track_model_cost (schema, params) kwargs start_time end_time
         = Raise e)
  ∧ (∀ o,
       ∃ e1 e2,
         OpenAILLMClient._call_api_structured shape parse track_model_cost
           (SchemaOther o, params) kwargs start_time end_time = Raise e1
         ∧ OpenAILLMClient._call_api_structured_async shape parse
             track_model_cost (SchemaOther o, params) kwargs start_time
             end_time = Raise e2).
Proof.
  unfold OpenAILLMClient._call_api_sync, OpenAILLMClient._call_api_async,
    OpenAILLMClient._call_api_structured,
    OpenAILLMClient._call_api_structured_async.
  assert (Hplain : ∀ e,
    _validate_and_unpack_parameters validated_ok self_model_name params
      NoSchema = Raise e →
    OpenAILLMClient._call_api_sync_body shape create params kwargs = Raise e
    ∧ OpenAILLMClient._call_api_async_body shape create params kwargs
      = Raise e).
  { intros e He.
    unfold OpenAILLMClient._call_api_sync_body,
      OpenAILLMClient._call_api_async_body, shape,
      _prepare_params_for_provider.
    cbn. by rewrite He. }
  assert (Hstruct : ∀ schema e,
    _validate_and_unpack_parameters validated_ok self_model_name params
      schema = Raise e →
    OpenAILLMClient._call_api_structured_body shape parse (schema, params)
      kwargs = Raise e
    ∧ OpenAILLMClient._call_api_structured_async_body shape parse
        (schema, params) kwargs = Raise e).
  { intros schema e He.
    unfold OpenAILLMClient._call_api_structured_body,
      OpenAILLMClient._call_api_structured_async_body, shape,
      _prepare_params_for_provider.
    cbn. by rewrite He. }
  destruct (kw_model_name kwargs) as [model_name|] eqn:Ek; [|done].
  refine (conj _ (conj _ _)).
  - intros e He. rewrite !calculate_cost_and_usage_eval, Ek.
    by destruct (Hplain e He) as [-> ->].
  - intros schema e He. rewrite !calculate_cost_and_usage_eval, Ek.
    by destruct (Hstruct schema e He) as [-> ->].
  - intros o.
    destruct (validate_and_unpack_rejects_other validated_ok self_model_name
                params o) as [e He].
    exists e, e. rewrite !calculate_cost_and_usage_eval, Ek.
    by destruct (Hstruct _ e He) as [-> ->].
Qed.

End ValidateFirst.

Lemma call_api_validates_first_witness :
  OpenAILLMClient._call_api_sync
    (_prepare_params_for_provider (λ _, true) (λ v, Ok v) "gpt-4o")
    (λ _, Ok response_hello) free_of_charge effort_params
    (kwargs_for "gpt-4o" true true) 0 1
  = Raise (ReasoningEffortNotSupportedError "gpt-4o").
Proof.
  assert (Hname : kw_model_name (kwargs_for "gpt-4o" true true) ≠ None)
    by discriminate.
  apply (proj1 (call_api_validates_first (λ _, true) (λ v, Ok v) "gpt-4o"
                  (λ _, Ok response_hello) (λ _, Ok response_hello)
                  free_of_charge effort_params
                  (kwargs_for "gpt-4o" true true) 0 1 Hname)).
  reflexivity.
Defined.

(** ** The frame of a call that rewrites roles *)



Lemma but_then_frame (ms : list val) (st1 st2 st3 : BaseLLMClient.state) :
  frame_but ms st1 st2 → frame st2 st3 → frame_but ms st1 st3.
Proof.
  unfold frame, frame_but.
  intros (A1 & A2 & A3 & A4 & A5 & A6 & A7 & A8)
         (B1 & B2 & B3 & B4 & B5 & B6 & B7 & B8).
  repeat split; try congruence. intros l o Hl.
  destruct (A8 l o Hl) as [H | (Hin & o' & Ho' & Hrw)].
  - left. by apply B8.
  - right. split; [done|]. exists o'. split; [by apply B8 | done].
Qed.

(** A message with a role is an instance that holds it. *)
Lemma has_role_inv (h : heap) (r : string) (v : val) :
  OnHeap.has_role h r v = true →
  ∃ l cls attrs,
    v = VRef l ∧ h !! l = Some (OInstance cls attrs)
    ∧ attrs !! "role" = Some (VStr r).
Proof.
  unfold OnHeap.has_role, OnHeap.role_of.
  destruct v as [| | | |l]; try done.
  destruct (h !! l) as [[xs|d|cls attrs]|] eqn:E; try done.
  destruct (attrs !! "role") as [[| | |s|]|] eqn:Er; try done.
  intros Hs. apply String.eqb_eq in Hs as ->. eauto 10.
Qed.

(** The rewrite touches the instruction messages of the list and
    nothing else. *)
Lemma convert_in_place_lookup (items : list val)
    (target model_name : string) (h : heap) (l : nat) (o : obj) :
  h !! l = Some o →
  OnHeap.convert_message_roles items target model_name h !! l = Some o
  ∨ (VRef l ∈ items
     ∧ ∃ o', OnHeap.convert_message_roles items target model_name h !! l
             = Some o'
          ∧ role_rewritten o o').
Proof.
  intros Hl. unfold OnHeap.convert_message_roles.
  induction items as [|x xs IH] using rev_ind; [by left|].
  rewrite foldl_app. cbn [foldl].
  set (h1 := foldl _ h xs) in *.
  assert (Hweak : ∀ h2 : list obj,
    (h2 !! l = Some o
     ∨ (VRef l ∈ xs ∧ ∃ o', h2 !! l = Some o' ∧ role_rewritten o o')) →
    h2 !! l = Some o
    ∨ (VRef l ∈ (xs ++ [x])%list
       ∧ ∃ o', h2 !! l = Some o' ∧ role_rewritten o o')).
  { intros h2 [H | [Hin H]]; [by left|]. right. split; [|done].
    apply elem_of_app. by left. }
  destruct (OnHeap.has_role h1 "system" x || OnHeap.has_role h1 "developer" x)
    eqn:Econd; [|by apply Hweak].
  assert (Hrole : ∃ l0 cls attrs role,
    x = VRef l0 ∧ h1 !! l0 = Some (OInstance cls attrs)
    ∧ attrs !! "role" = Some (VStr role)
    ∧ (role = "system" ∨ role = "developer")).
  { apply orb_true_iff in Econd as [H | H];
      apply has_role_inv in H as (l0 & cls & attrs & -> & H1 & H2);
      exists l0, cls, attrs; eauto 10. }
  destruct Hrole as (l0 & cls & attrs & role & -> & Hl0 & Hrole & Hinstr).
  unfold OnHeap.set_role. rewrite Hl0.
  destruct (decide (l = l0)) as [->|Hne].
  - right. split; [apply elem_of_app; right; by apply list_elem_of_singleton|].
    rewrite list_lookup_insert_eq by (by eapply lookup_lt_Some).
    eexists. split; [reflexivity|].
    destruct IH as [H | (_ & o1 & Ho1 & Hrw)].
    + rewrite Hl0 in H. injection H as <-.
      exists cls, attrs, role, target. done.
    + rewrite Hl0 in Ho1. injection Ho1 as <-.
      destruct Hrw as (c & a & r & t & -> & Hr & Hi & [= -> ->]).
      exists c, a, r, target. repeat split; try done.
      by rewrite insert_insert_eq.
  - rewrite list_lookup_insert_ne by done. by apply Hweak.
Qed.













Section OpenAIFrame.
Import BaseLLMClient.
Context {Request : Type}.
Variable validates : string → heap → val → bool.
Variable environ_api_key : option string.
Variable str : heap → val → string.
Variable isinstance_BaseModel : heap → val → bool.
Variable validated_ok : heap → gmap string val → bool.
Variable to_openai_format : heap → BaseLLMCallParams → result Request.
Variable create parse : transport → Request → result ChatCompletion.
Variable track_model_cost : string → AIUsage → result AICost.
Variable clock : Q * Q.

Let P : provider :=
  OpenAIProvider.methods environ_api_key str isinstance_BaseModel validated_ok
    to_openai_format create parse track_model_cost clock.









End OpenAIFrame.



(** The call of the counterexample in full: the two messages and their
    list are where they were, the system message is a developer message
    now, and the call returns the response with its usage and cost. *)
Example run_o1_scenario :
  BaseLLMClient.run accept_all canned_openai (VRef 2) true true
    call_kwargs_o1 (chat_client, chat_heap)
  = ((chat_client,
      [ OInstance "TextMessage"
          (<["role" := VStr "developer"]> {["text" := VStr "be brief"]});
        OInstance "TextMessage"
          (<["role" := VStr "user"]> {["text" := VStr "hello"]});
        OList [VRef 0; VRef 1] ]),
     Ok (response_hello,
         Some {| usage_prompt_tokens := 1000000;
                 usage_cached_prompt_tokens := 0;
                 usage_completion_tokens := 100000;
                 usage_total_tokens := 1100000;
                 latency := 1 - 0 |},
         Some {| prompt_cost := 0; cached_prompt_cost := 0; output_cost := 0;
                 total_cost := 0 |})).
Proof. vm_compute. reflexivity. Qed.

(** ** The two normalisers agree *)

Lemma role_named_name (s : string) (r : role) :
  role_named s = Some r → s = role_name r.
Proof.
  unfold role_named.
  repeat match goal with
         | |- context [String.eqb s ?t] =>
             destruct (String.eqb_spec s t) as [->|?]; [by intros [= <-]|]
         end.
  done.
Qed.

Lemma role_name_inj (r1 r2 : role) : role_name r1 = role_name r2 → r1 = r2.
Proof. by destruct r1, r2. Qed.

Lemma role_named_role_name (r : role) : role_named (role_name r) = Some r.
Proof. by destruct r. Qed.

(** A message object has the role its reading has. *)
Lemma has_role_read (h : heap) (v : val) (m : Message) (r : role) :
  read_message h v = Some m →
  OnHeap.has_role h (role_name r) v = bool_decide (msg_role m = r).
Proof.
  unfold read_message, OnHeap.has_role, OnHeap.role_of.
  destruct v as [| | | |l]; try done.
  destruct (h !! l) as [[xs|d|cls attrs]|]; try done.
  destruct (attrs !! "role") as [[| | |s|]|]; try done.
  destruct (role_named s) as [r0|] eqn:Er; [|done].
  destruct (read_content attrs); [|done]. intros [= <-]. cbn.
  apply role_named_name in Er as ->.
  case_bool_decide as H.
  - subst. apply String.eqb_refl.
  - apply String.eqb_neq. intros Heq. by apply role_name_inj in Heq.
Qed.

Lemma count_role_read (h : heap) (items : list val) (ms : list Message)
    (r : role) :
  read_messages h items = Some ms →
  OnHeap.count_role h (role_name r) items = count_role r ms.
Proof.
  unfold OnHeap.count_role, count_role.
  revert ms. induction items as [|v rest IH]; intros ms.
  - by intros [= <-].
  - cbn [read_messages].
    destruct (read_message h v) as [m|] eqn:Em; [|done].
    destruct (read_messages h rest) as [ms'|]; [|done].
    intros [= <-]. specialize (IH ms' eq_refl).
    rewrite !filter_cons, (has_role_read h v m r Em).
    case_bool_decide as Hr.
    + rewrite decide_True by done. rewrite decide_True by done.
      cbn. by rewrite IH.
    + rewrite decide_False by done. rewrite decide_False by done. done.
Qed.

Lemma is_instruction_at (h : heap) (l : nat) (cls : string)
    (attrs : gmap string val) :
  h !! l = Some (OInstance cls attrs) →
  OnHeap.has_role h "system" (VRef l) || OnHeap.has_role h "developer" (VRef l)
  = instruction_attrs attrs.
Proof.
  intros H. unfold OnHeap.has_role, OnHeap.role_of, instruction_attrs.
  rewrite H. by destruct (attrs !! "role") as [[| | |s|]|].
Qed.

(** What the rewrite leaves at the place of a message object. *)
Lemma convert_in_place_exact (items : list val) (target model_name : string)
    (h : heap) (l : nat) (cls : string) (attrs : gmap string val) :
  h !! l = Some (OInstance cls attrs) →
  OnHeap.convert_message_roles items target model_name h !! l
  = Some (OInstance cls
            (if bool_decide (VRef l ∈ items) && instruction_attrs attrs
             then <["role" := VStr target]> attrs else attrs)).
Proof.
  intros Hl. unfold OnHeap.convert_message_roles.
  induction items as [|x xs IH] using rev_ind; [done|].
  rewrite foldl_app. cbn [foldl].
  set (h1 := foldl _ h xs) in *.
  assert (Hmem : bool_decide (VRef l ∈ (xs ++ [x])%list)
                 = bool_decide (VRef l ∈ xs) || bool_decide (x = VRef l)).
  { rewrite <- bool_decide_or. apply bool_decide_ext.
    rewrite elem_of_app, list_elem_of_singleton.
    split; (intros [H|H]; [by left | right; by symmetry]). }
  rewrite Hmem. clear Hmem.
  destruct (decide (x = VRef l)) as [->|Hx].
  - rewrite (bool_decide_eq_true_2 (VRef l = VRef l)) by done.
    rewrite orb_true_r. cbn [andb].
    destruct (bool_decide (VRef l ∈ xs) && instruction_attrs attrs) eqn:Eprev.
    + apply andb_prop in Eprev as [_ Hinstr]. rewrite Hinstr.
      rewrite (is_instruction_at h1 l _ _ IH).
      destruct (instruction_attrs (<["role":=VStr target]> attrs)); [|done].
      unfold OnHeap.set_role. rewrite IH.
      rewrite list_lookup_insert_eq by (by eapply lookup_lt_Some).
      by rewrite insert_insert_eq.
    + rewrite (is_instruction_at h1 l _ _ IH).
      destruct (instruction_attrs attrs); [|done].
      unfold OnHeap.set_role. rewrite IH.
      by rewrite list_lookup_insert_eq by (by eapply lookup_lt_Some).
  - rewrite (bool_decide_eq_false_2 (x = VRef l)) by done.
    rewrite orb_false_r.
    destruct (OnHeap.has_role h1 "system" x || OnHeap.has_role h1 "developer" x)
      eqn:Econd; [|done].
    unfold OnHeap.set_role.
    destruct x as [| | | |lx]; try done.
    destruct (h1 !! lx) as [[ys|d|c a]|]; try done.
    rewrite list_lookup_insert_ne; [done|]. intros ->. done.
Qed.

(** Reading a message after the rewrite gives the message with its
    role rewritten, for a target that names a role. *)
Lemma read_message_converted (items : list val) (target : role)
    (model_name : string) (h : heap) (v : val) (m : Message) :
  v ∈ items → read_message h v = Some m →
  read_message
    (OnHeap.convert_message_roles items (role_name target) model_name h) v
  = Some (if is_instruction (msg_role m)
          then {| msg_role := target; msg_content := msg_content m |}
          else m).
Proof.
  intros Hin. unfold read_message at 1.
  destruct v as [| | | |l]; try done.
  destruct (h !! l) as [[xs|d|cls attrs]|] eqn:Hl; try done.
  destruct (attrs !! "role") as [[| | |s|]|] eqn:Er; try done.
  destruct (role_named s) as [r|] eqn:Ern; [|done].
  destruct (read_content attrs) as [c|] eqn:Ec; [|done].
  intros [= <-]. cbn [msg_role msg_content].
  unfold read_message.
  rewrite (convert_in_place_exact _ _ _ _ _ _ _ Hl).
  rewrite bool_decide_eq_true_2 by done. cbn [andb].
  assert (Hinstr : instruction_attrs attrs = is_instruction r).
  { unfold instruction_attrs. rewrite Er.
    apply role_named_name in Ern as ->. by destruct r. }
  rewrite Hinstr. destruct (is_instruction r).
  - rewrite lookup_insert_eq, role_named_role_name.
    assert (Hc : read_content (<["role":=VStr (role_name target)]> attrs)
                 = read_content attrs).
    { unfold read_content. by rewrite !lookup_insert_ne. }
    by rewrite Hc, Ec.
  - by rewrite Er, Ern, Ec.
Qed.

Lemma read_messages_converted (items : list val) (target : role)
    (model_name : string) (h : heap) (ms : list Message) :
  read_messages h items = Some ms →
  read_messages
    (OnHeap.convert_message_roles items (role_name target) model_name h) items
  = Some (convert_message_roles ms target model_name).
Proof.
  assert (Hgen : ∀ (part : list val) (ms : list Message),
    part ⊆ items → read_messages h part = Some ms →
    read_messages
      (OnHeap.convert_message_roles items (role_name target) model_name h) part
    = Some (convert_message_roles ms target model_name)).
  { induction part as [|v rest IH]; intros ms0 Hsub.
    - by intros [= <-].
    - cbn [read_messages].
      destruct (read_message h v) as [m|] eqn:Em; [|done].
      destruct (read_messages h rest) as [ms'|] eqn:Ems; [|done].
      intros [= <-].
      rewrite (read_message_converted items target model_name h v m);
        [|apply Hsub; by left|done].
      rewrite (IH ms'); [done| |done].
      intros y Hy. apply Hsub. by right. }
  by apply Hgen.
Qed.

Lemma read_messages_nil (h : heap) (items : list val) (ms : list Message) :
  read_messages h items = Some ms → (items = [] ↔ ms = []).
Proof.
  destruct items as [|v rest]; cbn [read_messages].
  - by intros [= <-].
  - destruct (read_message h v); [|done].
    destruct (read_messages h rest); [|done]. by intros [= <-].
Qed.

(** The list of a conversation is not one of its messages: the rewrite
    leaves it as it is. *)
Lemma convert_in_place_list (items xs : list val) (target model_name : string)
    (h : heap) (l : nat) :
  h !! l = Some (OList xs) →
  OnHeap.convert_message_roles items target model_name h !! l = Some (OList xs).
Proof.
  intros Hl.
  destruct (convert_in_place_lookup items target model_name h l _ Hl)
    as [H | (_ & o' & _ & (c & a & r & t & Habs & _))]; [done|done].
Qed.

(** The normaliser on the heap does what the normaliser on values says:
    on a list of message objects it raises what the latter raises on
    the conversation read off the heap, and when the latter returns, it
    returns the list it was given, whose messages now read as the
    conversation returned. *)
Lemma set_messages_on_heap (model_name : string) (init_call : bool)
    (self : BaseLLMClient.client) (h : heap) (l : nat) (items : list val)
    (ms : list Message) :
  h !! l = Some (OList items) → read_messages h items = Some ms →
  match _set_messages model_name (Messages ms) init_call with
  | Raise e =>
      OnHeap._set_messages model_name (VRef l) init_call (self, h)
      = ((self, h), Raise e)
  | Ok ms' =>
      ∃ h',
        OnHeap._set_messages model_name (VRef l) init_call (self, h)
        = ((self, h'), Ok (VRef l))
        ∧ as_list h' (VRef l) = Some items
        ∧ read_messages h' items = Some ms'
  end.
Proof.
  intros Hl Hread.
  assert (Hlist : as_list h (VRef l) = Some items) by (cbn; by rewrite Hl).
  assert (Hconv : ∀ target,
    as_list (OnHeap.convert_message_roles items (role_name target) model_name h)
      (VRef l) = Some items
    ∧ read_messages
        (OnHeap.convert_message_roles items (role_name target) model_name h)
        items
      = Some (convert_message_roles ms target model_name)).
  { intros target. split; [|by apply read_messages_converted].
    cbn. by rewrite (convert_in_place_list _ _ _ _ _ _ Hl). }
  unfold _set_messages, messages_falsy, handle_no_messages,
    standardize_messages, count_message_roles.
  unfold OnHeap._set_messages, OnHeap.handle_no_messages,
    OnHeap.standardize_messages, OnHeap.count_message_roles.
  unfold mbind, BaseLLMClient.M_bind, BaseLLMClient.get_heap,
    BaseLLMClient.put_heap, BaseLLMClient.raise, mret, BaseLLMClient.M_ret.
  cbv beta iota zeta delta [fst snd].
  assert (Htruthy : truthy h (VRef l) = negb (bool_decide (ms = []))).
  { cbn. rewrite Hl. f_equal. apply bool_decide_ext.
    by apply read_messages_nil in Hread. }
  rewrite Htruthy.
  destruct (bool_decide (ms = [])); cbn [negb]; [done|].
  rewrite ?Hlist. cbv beta iota zeta delta [fst snd]. rewrite ?Hlist.
  unfold default. cbv beta iota zeta delta [from_option id fst snd].
  change "system" with (role_name system).
  change "developer" with (role_name developer).
  change "user" with (role_name user).
  rewrite !(count_role_read h items ms _ Hread).
  repeat match goal with
         | |- context [if ?b then _ else _] => destruct b
         end;
    cbv beta iota zeta delta [fst snd];
    first [ reflexivity
          | eexists; split; [reflexivity|]; first [apply Hconv | by split] ].
Qed.
